(** * photo_proof_admin: signup wizard, tenant store and admin helpers

    A shallow embedding of [src/app.py], [src/database.py] and
    [src/auth.py].  Python [str] values are modelled by Rocq [string]s,
    i.e. sequences of code points below 256; the SQLAlchemy session is an
    explicit state passed through an error monad; the Flask session is a
    finite map from keys to the text (or [None]) stored under them. *)

From Stdlib Require Import ZArith NArith Ascii String List Bool Lia.
From stdpp Require Import base option list strings gmap.

Local Open Scope string_scope.

(** ** Python strings *)

Module Py.

(** [c.lower()] for one code point below 256: the ASCII capitals and the
    Latin-1 capitals (U+00C0..U+00DE, the multiplication sign excluded)
    move up by 32, every other character is left alone.  (Beyond these
    code points [str.lower] may change the length of a string; the
    section [AnyAlphabet] below takes it as a function on whole strings
    for that reason.) *)
Definition lower_char (c : ascii) : ascii :=
  let n := nat_of_ascii c in
  if ((65 <=? n) && (n <=? 90))%nat then ascii_of_nat (n + 32)
  else if ((192 <=? n) && (n <=? 222) && negb (n =? 215))%nat
       then ascii_of_nat (n + 32)
  else c.

(** [s.lower()] *)
Fixpoint lower (s : string) : string :=
  match s with
  | EmptyString => EmptyString
  | String c r => String (lower_char c) (lower r)
  end.

(** [new.join(s)] surrounded by [new]: what [s.replace("", new)] gives
    after its leading [new]. *)
Fixpoint interleave (new s : string) : string :=
  match s with
  | EmptyString => EmptyString
  | String c r => String c (new ++ interleave new r)
  end.

(** Scan for non-overlapping occurrences of a non-empty [old], left to
    right.  [skip] counts the characters of the occurrence just replaced
    that are still to be dropped. *)
Fixpoint replace_scan (old new : string) (skip : nat) (s : string) : string :=
  match s with
  | EmptyString => EmptyString
  | String c r =>
      match skip with
      | S k => replace_scan old new k r
      | O =>
          if String.prefix old s
          then new ++ replace_scan old new (String.length old - 1) r
          else String c (replace_scan old new 0 r)
      end
  end.

(** [s.replace(old, new)] *)
Definition replace (old new s : string) : string :=
  match old with
  | EmptyString => new ++ interleave new s
  | _ => replace_scan old new 0 s
  end.

(** [sub in s] *)
Fixpoint contains (sub s : string) : bool :=
  String.prefix sub s ||
  match s with
  | EmptyString => false
  | String _ r => contains sub r
  end.

(** Truth value of a string: [bool(s)]. *)
Definition truthy (s : string) : bool :=
  match s with EmptyString => false | _ => true end.

(** [a or b] on strings. *)
Definition str_or (a b : string) : string := if truthy a then a else b.

(** [repr(s)] of a key that needs no escaping: the text in single quotes.
    This is what [str(KeyError(s))] shows. *)
Definition repr_key (s : string) : string := "'" ++ s ++ "'".

(** [str(v)] inside an f-string, for a value that is a string or [None]. *)
Definition str_of (v : option string) : string :=
  match v with Some s => s | None => "None" end.

End Py.

(** The subdomain derivation of [signup], line 67:
    [studio_name.lower().replace(" ", "-").replace("'", "")]. *)
Definition derive_subdomain (studio_name : string) : string :=
  Py.replace "'" "" (Py.replace " " "-" (Py.lower studio_name)).

(** The capital letters among the code points below 256 with their small
    letters, as Unicode pairs them: A to Z, then U+00C0 to U+00D6 and
    U+00D8 to U+00DE with U+00E0 to U+00F6 and U+00F8 to U+00FE. *)
Definition case_pairs : list (ascii * ascii) :=
  (List.combine (list_ascii_of_string "ABCDEFGHIJKLMNOPQRSTUVWXYZ")
     (list_ascii_of_string "abcdefghijklmnopqrstuvwxyz") ++
   List.combine (List.map ascii_of_nat (List.seq 192 23 ++ List.seq 216 7))
     (List.map ascii_of_nat (List.seq 224 23 ++ List.seq 248 7)))%list.

(** Lower-casing one character as the specification means it: a capital
    letter becomes its small letter, anything else stays. *)
Definition spec_lower_char (c : ascii) : ascii :=
  match List.find (fun p => Ascii.eqb (fst p) c) case_pairs with
  | Some p => snd p
  | None => c
  end.

(** The derivation as the specification words it, one character at a time:
    lower-case, turn a space into a hyphen, drop an apostrophe. *)
Fixpoint spec_subdomain (studio_name : string) : string :=
  match studio_name with
  | EmptyString => EmptyString
  | String c r =>
      let c' := spec_lower_char c in
      if Ascii.eqb c' "'" then spec_subdomain r
      else if Ascii.eqb c' " " then String "-" (spec_subdomain r)
      else String c' (spec_subdomain r)
  end.

(** *** Line 67 over any alphabet

    The same expression for strings over any set of characters (all of
    Unicode, say), with [str.lower] as the library gives it: a function
    on whole strings, which may change their length. *)
Section AnyAlphabet.

Context {A : Type}.
Variable same : A -> A -> bool.

Fixpoint starts_with (p s : list A) : bool :=
  match p, s with
  | [], _ => true
  | _ :: _, [] => false
  | a :: p', b :: s' => same a b && starts_with p' s'
  end.

Fixpoint interleave_in (new s : list A) : list A :=
  match s with
  | [] => []
  | c :: r => (c :: new ++ interleave_in new r)%list
  end.

Fixpoint replace_scan_in (old new : list A) (skip : nat) (s : list A) : list A :=
  match s with
  | [] => []
  | c :: r =>
      match skip with
      | S k => replace_scan_in old new k r
      | O =>
          if starts_with old s
          then (new ++ replace_scan_in old new (length old - 1) r)%list
          else c :: replace_scan_in old new 0 r
      end
  end.

(** [s.replace(old, new)] *)
Definition replace_in (old new s : list A) : list A :=
  match old with
  | [] => (new ++ interleave_in new s)%list
  | _ => replace_scan_in old new 0 s
  end.

Variables space hyphen apostrophe : A.
Variable lower_in : list A -> list A.

(** [studio_name.lower().replace(" ", "-").replace("'", "")] *)
Definition derive_subdomain_in (studio_name : list A) : list A :=
  replace_in [apostrophe] [] (replace_in [space] [hyphen] (lower_in studio_name)).

(** The specification's wording: the lower-cased name, each space turned
    into a hyphen and each apostrophe dropped. *)
Definition spec_subdomain_in (studio_name : list A) : list A :=
  List.flat_map
    (fun c => if same c apostrophe then []
              else if same c space then [hyphen]
              else [c])
    (lower_in studio_name).

End AnyAlphabet.

(** [os.path.splitext(p)[1]] on POSIX: the extension starts at the last
    dot of the last path component, unless only dots precede it there. *)
Fixpoint rindex (c : ascii) (s : string) : option nat :=
  match s with
  | EmptyString => None
  | String d r =>
      match rindex c r with
      | Some i => Some (S i)
      | None => if Ascii.eqb c d then Some 0%nat else None
      end
  end.

Fixpoint drop_str (n : nat) (s : string) : string :=
  match n, s with
  | O, _ => s
  | S k, EmptyString => EmptyString
  | S k, String _ r => drop_str k r
  end.

Fixpoint all_dots (s : string) : bool :=
  match s with
  | EmptyString => true
  | String c r => Ascii.eqb c "." && all_dots r
  end.

Definition splitext_ext (p : string) : string :=
  let start := match rindex "/" p with Some i => S i | None => O end in
  match rindex "." p with
  | Some dot =>
      if (start <=? dot)%nat
      then if all_dots (String.substring start (dot - start) p)
           then EmptyString
           else drop_str dot p
      else EmptyString
  | None => EmptyString
  end.

(** [str(uuid.uuid4())]: 32 lower-case hexadecimal digits of a 128-bit
    number, grouped 8-4-4-4-12.  The random number itself is an input of
    the model. *)
Definition hex_digit (n : N) : ascii :=
  match n with
  | 0 => "0" | 1 => "1" | 2 => "2" | 3 => "3" | 4 => "4" | 5 => "5"
  | 6 => "6" | 7 => "7" | 8 => "8" | 9 => "9" | 10 => "a" | 11 => "b"
  | 12 => "c" | 13 => "d" | 14 => "e" | _ => "f"
  end%N%char.

(** The hexadecimal digit of weight 16^i. *)
Definition nibble (u : N) (i : N) : ascii :=
  hex_digit (N.land (N.shiftr u (4 * i)) 15).

Definition uuid_str (u : N) : string :=
  let h := nibble u in
  let dash := "-"%char in
  String (h 31%N) (String (h 30%N) (String (h 29%N) (String (h 28%N)
 (String (h 27%N) (String (h 26%N) (String (h 25%N) (String (h 24%N)
 (String dash
 (String (h 23%N) (String (h 22%N) (String (h 21%N) (String (h 20%N)
 (String dash
 (String (h 19%N) (String (h 18%N) (String (h 17%N) (String (h 16%N)
 (String dash
 (String (h 15%N) (String (h 14%N) (String (h 13%N) (String (h 12%N)
 (String dash
 (String (h 11%N) (String (h 10%N) (String (h 9%N) (String (h 8%N)
 (String (h 7%N) (String (h 6%N) (String (h 5%N) (String (h 4%N)
 (String (h 3%N) (String (h 2%N) (String (h 1%N) (String (h 0%N)
  EmptyString))))))))))))))))))))))))))))))))))).

Arguments uuid_str : simpl never.

(** ** The schema of [database.py]

    One record per mapped class.  A field holds the Python attribute, so a
    text column is an [option string] ([None] is SQL NULL).  Columns that
    no function of the repository reads or writes (phone, address, layout
    and template ids, quota counters, timestamps and the like) are left
    out.  Among them is [updated_at], which the schema rewrites at every
    UPDATE of a row: an equality of rows or stores below says that the
    columns kept here agree, and says nothing of that timestamp. *)

Module Studio.
Record t : Type := mk {
    id : string;
    name : option string;
    email : option string;
    subdomain : option string;
    logo_url : option string;
    brand_color : option string;
    typography : option string;
    studio_photo : option string;
    subscription_tier : option string;
    subscription_status : option string;
    onboarding_completed : option bool;
    onboarding_step : option string;
    is_active : option bool
  }.

Definition set_brand_color (v : option string) (s : t) : t :=
    mk (id s) (name s) (email s) (subdomain s) (logo_url s) v
       (typography s) (studio_photo s) (subscription_tier s)
       (subscription_status s) (onboarding_completed s)
       (onboarding_step s) (is_active s).

Definition set_typography (v : option string) (s : t) : t :=
    mk (id s) (name s) (email s) (subdomain s) (logo_url s)
       (brand_color s) v (studio_photo s) (subscription_tier s)
       (subscription_status s) (onboarding_completed s)
       (onboarding_step s) (is_active s).

Definition set_logo_url (v : option string) (s : t) : t :=
    mk (id s) (name s) (email s) (subdomain s) v (brand_color s)
       (typography s) (studio_photo s) (subscription_tier s)
       (subscription_status s) (onboarding_completed s)
       (onboarding_step s) (is_active s).

Definition set_studio_photo (v : option string) (s : t) : t :=
    mk (id s) (name s) (email s) (subdomain s) (logo_url s)
       (brand_color s) (typography s) v (subscription_tier s)
       (subscription_status s) (onboarding_completed s)
       (onboarding_step s) (is_active s).

Definition set_onboarding_step (v : option string) (s : t) : t :=
    mk (id s) (name s) (email s) (subdomain s) (logo_url s)
       (brand_color s) (typography s) (studio_photo s)
       (subscription_tier s) (subscription_status s)
       (onboarding_completed s) v (is_active s).

Definition set_onboarding_completed (v : option bool) (s : t) : t :=
    mk (id s) (name s) (email s) (subdomain s) (logo_url s)
       (brand_color s) (typography s) (studio_photo s)
       (subscription_tier s) (subscription_status s) v
       (onboarding_step s) (is_active s).

  (** The column defaults, applied by the INSERT to every attribute that
      is still [None]. *)
Definition with_defaults (s : t) : t :=
    mk (id s) (name s) (email s) (subdomain s) (logo_url s)
       (Some (default "#1e293b" (brand_color s)))
       (Some (default "System Default (Inter & Cormorant)" (typography s)))
       (studio_photo s)
       (Some (default "free" (subscription_tier s)))
       (Some (default "trial" (subscription_status s)))
       (Some (default false (onboarding_completed s)))
       (onboarding_step s)
       (Some (default true (is_active s))).
End Studio.

Module StudioDomain.
Record t : Type := mk {
    id : string;
    studio_id : string;
    domain : option string;
    is_primary : option bool;
    is_verified : option bool
  }.

Definition with_defaults (d : t) : t :=
    mk (id d) (studio_id d) (domain d)
       (Some (default true (is_primary d)))
       (Some (default false (is_verified d))).
End StudioDomain.

Module User.
Record t : Type := mk {
    id : string;
    studio_id : option string;
    name : option string;
    email : option string;
    username : option string;
    password_hash : option string;
    role : option string;
    is_active : option bool;
    email_verified : option bool
  }.

Definition with_defaults (u : t) : t :=
    mk (id u) (studio_id u) (name u) (email u) (username u)
       (password_hash u)
       (Some (default "client" (role u)))
       (Some (default true (is_active u)))
       (Some (default false (email_verified u))).
End User.

Module StudioFeature.
Record t : Type := mk {
    id : string;
    studio_id : string;
    feature_key : string;
    enabled : option bool
  }.

Definition set_enabled (v : option bool) (f : t) : t :=
    mk (id f) (studio_id f) (feature_key f) v.

Definition with_defaults (f : t) : t :=
    mk (id f) (studio_id f) (feature_key f)
       (Some (default true (enabled f))).
End StudioFeature.

(** The four tables, each in insertion order. *)
Record Store : Type := mkStore {
  studios : list Studio.t;
  studio_domains : list StudioDomain.t;
  users : list User.t;
  studio_features : list StudioFeature.t
}.

Definition empty_store : Store := mkStore [] [] [] [].

(** ** Exceptions *)

(** What the database can object to when a row is written. *)
Inductive Violation : Type :=
  | TooLong (table column : string) (limit : nat)
  | NotNull (table column : string)
  | Duplicate (table column : string)
  | MissingParent (table column : string).

Inductive Exn : Type :=
  | KeyError (key : string)
  | AttributeError (msg : string)
  | TypeError (msg : string)
  | ValueError (msg : string)
  | DatabaseError (v : Violation).

(** A Python computation either returns or raises. *)
Inductive Outcome (A : Type) : Type :=
  | Returns (a : A)
  | Raises (e : Exn).
Arguments Returns {A} a.
Arguments Raises {A} e.

Definition bind_outcome {A B} (m : Outcome A) (k : A -> Outcome B) : Outcome B :=
  match m with
  | Returns a => k a
  | Raises e => Raises e
  end.

(** The two database engines [database.py] may end up with.  PostgreSQL
    enforces the declared lengths and foreign keys; the SQLite fallback, as
    it is opened there, enforces neither. *)
Inductive Dialect : Type := PostgreSQL | SQLite.

Definition enforces_lengths (d : Dialect) : bool :=
  match d with PostgreSQL => true | SQLite => false end.

Definition enforces_foreign_keys (d : Dialect) : bool :=
  match d with PostgreSQL => true | SQLite => false end.

(** ** SQLAlchemy session *)

Inductive Obj : Type :=
  | OStudio (s : Studio.t)
  | ODomain (d : StudioDomain.t)
  | OUser (u : User.t)
  | OFeature (f : StudioFeature.t).

(** A text column of a table with its declared length and a value. *)
Record Cell : Type := mkCell {
  cell_table : string;
  cell_column : string;
  cell_limit : nat;
  cell_value : option string
}.

(** [db_committed] is the database as other connections see it, [db_txn]
    the rows as this session's transaction sees them (flushed INSERTs and
    attribute changes included), [db_new] the objects given to [db.add]
    and not flushed yet, [db_dirty] the text attributes changed since the
    last flush, which the next flush writes with an UPDATE. *)
Record DbSession : Type := mkDb {
  db_committed : Store;
  db_txn : Store;
  db_new : list Obj;
  db_dirty : list Cell
}.

Definition DB (A : Type) : Type := DbSession -> Outcome (A * DbSession).

Definition ret {A} (a : A) : DB A := fun s => Returns (a, s).

Definition bind {A B} (m : DB A) (k : A -> DB B) : DB B :=
  fun s => match m s with
           | Returns (a, s') => k a s'
           | Raises e => Raises e
           end.

Definition lift {A} (m : Outcome A) : DB A :=
  fun s => match m with
           | Returns a => Returns (a, s)
           | Raises e => Raises e
           end.

Notation "x <- m ;; k" := (bind m (fun x => k))
  (at level 100, m at next level, right associativity).
Notation "m ;;; k" := (bind m (fun _ => k))
  (at level 100, right associativity).

(** [get_db_session()] *)
Definition get_db_session (committed : Store) : DbSession :=
  mkDb committed committed [] [].

(** *** Constraints declared by the schema *)

Definition fits (c : Cell) : bool :=
  match cell_value c with
  | Some s => (String.length s <=? cell_limit c)%nat
  | None => true
  end.

Fixpoint too_long (cells : list Cell) : option Violation :=
  match cells with
  | [] => None
  | c :: r =>
      if fits c then too_long r
      else Some (TooLong (cell_table c) (cell_column c) (cell_limit c))
  end.

Definition is_text (v : option string) (x : string) : bool :=
  match v with Some y => String.eqb y x | None => false end.

(** A unique column: a non-NULL value may not be there already. *)
Definition taken {A} (col : A -> option string) (v : option string)
    (rows : list A) : bool :=
  match v with
  | Some x => existsb (fun r => is_text (col r) x) rows
  | None => false
  end.

(** A primary key. *)
Definition has_id {A} (key : A -> string) (x : string) (rows : list A) : bool :=
  existsb (fun r => String.eqb (key r) x) rows.

Definition null_check (table column : string) (v : option string)
  : option Violation :=
  match v with Some _ => None | None => Some (NotNull table column) end.

Definition unless (ok : bool) (v : Violation) : option Violation :=
  if ok then None else Some v.

(** The first complaint in a list of checks. *)
Fixpoint first_violation (checks : list (option Violation)) : option Violation :=
  match checks with
  | [] => None
  | Some v :: _ => Some v
  | None :: r => first_violation r
  end.

Definition studio_cells (s : Studio.t) : list Cell :=
  [ mkCell "studios" "id" 36 (Some (Studio.id s));
    mkCell "studios" "name" 255 (Studio.name s);
    mkCell "studios" "email" 255 (Studio.email s);
    mkCell "studios" "subdomain" 100 (Studio.subdomain s);
    mkCell "studios" "logo_url" 500 (Studio.logo_url s);
    mkCell "studios" "brand_color" 7 (Studio.brand_color s);
    mkCell "studios" "typography" 255 (Studio.typography s);
    mkCell "studios" "studio_photo" 500 (Studio.studio_photo s);
    mkCell "studios" "subscription_tier" 50 (Studio.subscription_tier s);
    mkCell "studios" "subscription_status" 50 (Studio.subscription_status s);
    mkCell "studios" "onboarding_step" 50 (Studio.onboarding_step s) ].

Definition domain_cells (d : StudioDomain.t) : list Cell :=
  [ mkCell "studio_domains" "id" 36 (Some (StudioDomain.id d));
    mkCell "studio_domains" "studio_id" 36 (Some (StudioDomain.studio_id d));
    mkCell "studio_domains" "domain" 255 (StudioDomain.domain d) ].

Definition user_cells (u : User.t) : list Cell :=
  [ mkCell "users" "id" 36 (Some (User.id u));
    mkCell "users" "studio_id" 36 (User.studio_id u);
    mkCell "users" "name" 255 (User.name u);
    mkCell "users" "email" 255 (User.email u);
    mkCell "users" "username" 255 (User.username u);
    mkCell "users" "password_hash" 255 (User.password_hash u);
    mkCell "users" "role" 50 (User.role u) ].

Definition feature_cells (f : StudioFeature.t) : list Cell :=
  [ mkCell "studio_features" "id" 36 (Some (StudioFeature.id f));
    mkCell "studio_features" "studio_id" 36 (Some (StudioFeature.studio_id f));
    mkCell "studio_features" "feature_key" 100
      (Some (StudioFeature.feature_key f)) ].

Section Engine.

(** The engine in use and the text it puts into the exception it raises
    for a violation.  The text comes from the engine and its driver, not
    from the repository. *)
Variable dialect : Dialect.
Variable error_text : Violation -> string.

Definition length_check (cells : list Cell) : option Violation :=
  if enforces_lengths dialect then too_long cells else None.

Definition parent_check (table column : string) (parent : option string)
    (st : Store) : option Violation :=
  match parent with
  | Some p =>
      if enforces_foreign_keys dialect
      then unless (has_id Studio.id p (studios st)) (MissingParent table column)
      else None
  | None => None
  end.

(** When a row breaks several constraints at once the engine reports one
    of them; the model reports the first in the order below. *)
Definition check_studio (st : Store) (s : Studio.t) : option Violation :=
  first_violation
    [ length_check (studio_cells s);
      null_check "studios" "name" (Studio.name s);
      null_check "studios" "email" (Studio.email s);
      unless (negb (has_id Studio.id (Studio.id s) (studios st)))
        (Duplicate "studios" "id");
      unless (negb (taken Studio.email (Studio.email s) (studios st)))
        (Duplicate "studios" "email");
      unless (negb (taken Studio.subdomain (Studio.subdomain s) (studios st)))
        (Duplicate "studios" "subdomain") ].

Definition check_domain_row (st : Store) (d : StudioDomain.t) : option Violation :=
  first_violation
    [ length_check (domain_cells d);
      null_check "studio_domains" "domain" (StudioDomain.domain d);
      unless (negb (has_id StudioDomain.id (StudioDomain.id d) (studio_domains st)))
        (Duplicate "studio_domains" "id");
      unless (negb (taken StudioDomain.domain (StudioDomain.domain d)
                      (studio_domains st)))
        (Duplicate "studio_domains" "domain");
      parent_check "studio_domains" "studio_id"
        (Some (StudioDomain.studio_id d)) st ].

Definition check_user (st : Store) (u : User.t) : option Violation :=
  first_violation
    [ length_check (user_cells u);
      null_check "users" "name" (User.name u);
      null_check "users" "email" (User.email u);
      null_check "users" "username" (User.username u);
      unless (negb (has_id User.id (User.id u) (users st)))
        (Duplicate "users" "id");
      unless (negb (taken User.email (User.email u) (users st)))
        (Duplicate "users" "email");
      unless (negb (taken User.username (User.username u) (users st)))
        (Duplicate "users" "username");
      parent_check "users" "studio_id" (User.studio_id u) st ].

Definition check_feature (st : Store) (f : StudioFeature.t) : option Violation :=
  first_violation
    [ length_check (feature_cells f);
      unless (negb (has_id StudioFeature.id (StudioFeature.id f)
                      (studio_features st)))
        (Duplicate "studio_features" "id");
      parent_check "studio_features" "studio_id"
        (Some (StudioFeature.studio_id f)) st ].

(** One INSERT: the column defaults are filled in, the constraints are
    checked, the row goes to the end of its table. *)
Definition insert (o : Obj) (st : Store) : Outcome Store :=
  match o with
  | OStudio s =>
      let r := Studio.with_defaults s in
      match check_studio st r with
      | Some v => Raises (DatabaseError v)
      | None => Returns (mkStore (studios st ++ [r]) (studio_domains st)
                           (users st) (studio_features st))
      end
  | ODomain d =>
      let r := StudioDomain.with_defaults d in
      match check_domain_row st r with
      | Some v => Raises (DatabaseError v)
      | None => Returns (mkStore (studios st) (studio_domains st ++ [r])
                           (users st) (studio_features st))
      end
  | OUser u =>
      let r := User.with_defaults u in
      match check_user st r with
      | Some v => Raises (DatabaseError v)
      | None => Returns (mkStore (studios st) (studio_domains st)
                           (users st ++ [r]) (studio_features st))
      end
  | OFeature f =>
      let r := StudioFeature.with_defaults f in
      match check_feature st r with
      | Some v => Raises (DatabaseError v)
      | None => Returns (mkStore (studios st) (studio_domains st)
                           (users st) (studio_features st ++ [r]))
      end
  end.

Fixpoint insert_all (objs : list Obj) (st : Store) : Outcome Store :=
  match objs with
  | [] => Returns st
  | o :: r => bind_outcome (insert o st) (insert_all r)
  end.

(** [db.add(obj)] *)
Definition add (o : Obj) : DB unit :=
  fun s => Returns (tt, mkDb (db_committed s) (db_txn s) (db_new s ++ [o])
                           (db_dirty s)).

(** [db.flush()]: the UPDATEs of changed attributes, then the INSERTs of
    the added objects in the order they were added. *)
Definition flush : DB unit :=
  fun s =>
    match length_check (db_dirty s) with
    | Some v => Raises (DatabaseError v)
    | None =>
        match insert_all (db_new s) (db_txn s) with
        | Returns st => Returns (tt, mkDb (db_committed s) st [] [])
        | Raises e => Raises e
        end
    end.

(** [db.commit()]: flush, then make the transaction's rows the committed
    ones. *)
Definition commit : DB unit :=
  flush ;;;
  fun s => Returns (tt, mkDb (db_txn s) (db_txn s) (db_new s) (db_dirty s)).

(** [query.filter(...).first()].  The session is created with
    [autoflush=False], so a query does not flush. *)
Definition first_studio (p : Studio.t -> bool) : DB (option Studio.t) :=
  fun s => Returns (List.find p (studios (db_txn s)), s).

Definition first_domain (p : StudioDomain.t -> bool) : DB (option StudioDomain.t) :=
  fun s => Returns (List.find p (studio_domains (db_txn s)), s).

Definition first_feature (p : StudioFeature.t -> bool)
  : DB (option StudioFeature.t) :=
  fun s => Returns (List.find p (studio_features (db_txn s)), s).

(** Assigning to attributes of a persistent object: the object is the row
    with that primary key; [cells] are the text attributes assigned. *)
Definition update_rows {A} (key : A -> string) (x : string) (f : A -> A)
    (rows : list A) : list A :=
  List.map (fun r => if String.eqb (key r) x then f r else r) rows.

Definition assign_studio (x : string) (f : Studio.t -> Studio.t)
    (cells : list Cell) : DB unit :=
  fun s =>
    let st := db_txn s in
    Returns (tt, mkDb (db_committed s)
                   (mkStore (update_rows Studio.id x f (studios st))
                      (studio_domains st) (users st) (studio_features st))
                   (db_new s) (db_dirty s ++ cells)).

Definition assign_feature (x : string) (f : StudioFeature.t -> StudioFeature.t)
  : DB unit :=
  fun s =>
    let st := db_txn s in
    Returns (tt, mkDb (db_committed s)
                   (mkStore (studios st) (studio_domains st) (users st)
                      (update_rows StudioFeature.id x f (studio_features st)))
                   (db_new s) (db_dirty s)).

(** ** [database.py]: helper functions

    Every [uuid.uuid4()] the code may call is an argument: the random
    number it would return. *)

(** [create_studio(db, name, subdomain, domain, owner_email, owner_name,
    password_hash, plan, studio_id)] *)
Definition create_studio (name subdomain domain owner_email owner_name : option string)
    (password_hash : string) (plan : option string) (studio_id : option string)
    (u_studio u_domain u_user : N) : DB Studio.t :=
  let studio :=
    Studio.mk
      (match studio_id with
       | Some i => Py.str_or i (uuid_str u_studio)
       | None => uuid_str u_studio
       end)
      name owner_email subdomain None None None None
      plan (Some "trial") (Some false) (Some "pending") None in
  add (OStudio studio) ;;;
  flush ;;;
  let studio_domain :=
    StudioDomain.mk (uuid_str u_domain) (Studio.id studio) domain
      (Some true) (Some false) in
  add (ODomain studio_domain) ;;;
  let user :=
    User.mk (uuid_str u_user) (Some (Studio.id studio)) owner_name
      owner_email owner_email (Some password_hash) (Some "studio_owner")
      None None in
  add (OUser user) ;;;
  flush ;;;
  ret (Studio.with_defaults studio).

Definition mark_provisioned (s : Studio.t) : Studio.t :=
  Studio.set_onboarding_completed (Some true)
    (Studio.set_onboarding_step (Some "completed") s).

(** [provision_studio(db, studio_id)] *)
Definition provision_studio (studio_id : string) : DB (option Studio.t) :=
  studio <- first_studio (fun s => String.eqb (Studio.id s) studio_id) ;;
  match studio with
  | Some s =>
      assign_studio (Studio.id s) mark_provisioned
        [ mkCell "studios" "onboarding_step" 50 (Some "completed") ] ;;;
      commit ;;;
      ret (Some (mark_provisioned s))
  | None => ret None
  end.

(** [toggle_feature(db, studio_id, feature_key, enabled)] *)
Definition toggle_feature (studio_id feature_key : string) (enabled : bool)
    (u : N) : DB StudioFeature.t :=
  feature <- first_feature
               (fun f => String.eqb (StudioFeature.studio_id f) studio_id &&
                         String.eqb (StudioFeature.feature_key f) feature_key) ;;
  feature' <- match feature with
              | Some f =>
                  assign_feature (StudioFeature.id f)
                    (StudioFeature.set_enabled (Some enabled)) ;;;
                  ret (StudioFeature.set_enabled (Some enabled) f)
              | None =>
                  let f := StudioFeature.mk (uuid_str u) studio_id feature_key
                             (Some enabled) in
                  add (OFeature f) ;;;
                  ret f
              end ;;
  commit ;;;
  ret feature'.

(** ** [auth.py]

    [bcrypt] is a library outside the repository.  [bcrypt_hashpw p salt]
    stands for [bcrypt.hashpw(p.encode(), salt).decode()] with [salt] the
    value [bcrypt.gensalt()] returned, and [bcrypt_checkpw p h] for
    [bcrypt.checkpw(p.encode(), h.encode())]; either may raise. *)
Variable bcrypt_hashpw : string -> string -> Outcome string.
Variable bcrypt_checkpw : string -> string -> Outcome bool.

Definition no_encode : Exn :=
  AttributeError "'NoneType' object has no attribute 'encode'".

(** [hash_password(password)] *)
Definition hash_password (password : option string) (salt : string)
  : Outcome string :=
  match password with
  | Some p => bcrypt_hashpw p salt
  | None => Raises no_encode
  end.

(** [verify_password(password, hashed)]: every exception becomes [False]. *)
Definition verify_password (password hashed : option string) : bool :=
  let attempt :=
    match password, hashed with
    | Some p, Some h => bcrypt_checkpw p h
    | _, _ => Raises no_encode
    end in
  match attempt with
  | Returns b => b
  | Raises _ => false
  end.

(** ** [app.py] *)

Inductive Method : Type := GET | POST.

(** An uploaded file, as far as the code looks at it. *)
Record FileStorage : Type := mkFile { filename : string }.

Record Request : Type := mkRequest {
  method : Method;
  form : gmap string string;
  args : gmap string string;
  files : gmap string FileStorage
}.

(** What a request handler can read and change: the committed database,
    the Flask session of the browser, the flashed messages (message and
    category) and the names of the files saved to the upload directory. *)
Record World : Type := mkWorld {
  store : Store;
  session : gmap string (option string);
  flashes : list (string * string);
  saved_files : list string
}.

Inductive Json : Type :=
  | JBool (b : bool)
  | JStr (s : string).

Inductive Response : Type :=
  | Render (template : string) (error : option string)
  | Redirect (endpoint : string) (studio_id : option string)
  | Jsonify (object : list (string * Json))
  | InternalServerError (e : Exn).

(** [flash(message, category)] *)
Definition flash (message category : string) (w : World) : World :=
  mkWorld (store w) (session w) (flashes w ++ [(message, category)])
    (saved_files w).

(** [session[key] = v] *)
Definition session_set (key : string) (v : option string) (w : World) : World :=
  mkWorld (store w) (<[key := v]> (session w)) (flashes w) (saved_files w).

(** [session.pop(key, None)] *)
Definition session_pop (key : string) (w : World) : World :=
  mkWorld (store w) (delete key (session w)) (flashes w) (saved_files w).

(** [session[key]] *)
Definition session_item (sess : gmap string (option string)) (key : string)
  : Outcome (option string) :=
  match sess !! key with
  | Some v => Returns v
  | None => Raises (KeyError key)
  end.

(** [session.get(key)] *)
Definition session_get (sess : gmap string (option string)) (key : string)
  : option string :=
  match sess !! key with
  | Some v => v
  | None => None
  end.

Definition with_store (st : Store) (w : World) : World :=
  mkWorld st (session w) (flashes w) (saved_files w).

Definition save_file (path : string) (w : World) : World :=
  mkWorld (store w) (session w) (flashes w) (saved_files w ++ [path]).

(** [x is None] *)
Definition is_none {A} (x : option A) : bool :=
  match x with None => true | Some _ => false end.

Definition opt_eqb (a b : option string) : bool :=
  match a, b with
  | Some x, Some y => String.eqb x y
  | None, None => true
  | _, _ => false
  end.

Definition signup_keys : list string :=
  [ "signup_studio_name"; "signup_domain"; "signup_email";
    "signup_owner_name"; "signup_password"; "signup_subdomain";
    "signup_plan" ].

(** [signup()], step 1 *)
Definition signup (req : Request) (w : World) : Response * World :=
  match method req with
  | POST =>
      let studio_name := form req !! "studio_name" in
      let domain := form req !! "domain" in
      let email := form req !! "email" in
      let owner_name := form req !! "owner_name" in
      let password := form req !! "password" in
      let confirm_password := form req !! "confirm_password" in
      if negb (opt_eqb password confirm_password) then
        (Render "signup/start.html" None,
         flash "Passwords do not match" "error" w)
      else
        match password with
        | None =>
            (InternalServerError
               (TypeError "object of type 'NoneType' has no len()"), w)
        | Some p =>
            if (String.length p <? 8)%nat then
              (Render "signup/start.html" None,
               flash "Password must be at least 8 characters" "error" w)
            else
              let w1 :=
                session_set "signup_password" password
                  (session_set "signup_owner_name" owner_name
                     (session_set "signup_email" email
                        (session_set "signup_domain" domain
                           (session_set "signup_studio_name" studio_name w)))) in
              match studio_name with
              | None =>
                  (InternalServerError
                     (AttributeError
                        "'NoneType' object has no attribute 'lower'"), w1)
              | Some n =>
                  (Redirect "signup_plan" None,
                   session_set "signup_subdomain" (Some (derive_subdomain n)) w1)
              end
        end
  | GET => (Render "signup/start.html" None, w)
  end.

(** [signup_plan()], step 2 *)
Definition signup_plan (req : Request) (w : World) : Response * World :=
  match session w !! "signup_studio_name" with
  | None => (Redirect "signup" None, w)
  | Some _ =>
      match method req with
      | POST =>
          let plan := default "starter" (form req !! "plan") in
          (Redirect "signup_branding" None,
           session_set "signup_plan" (Some plan) w)
      | GET => (Render "signup/plan.html" None, w)
      end
  end.

(** The random values one POST to [/signup/branding] draws:
    [uuid.uuid4()] at line 107, the three [uuid.uuid4()] of
    [create_studio] (the first of them only when it is given no id) and
    [bcrypt.gensalt()]. *)
Record Draws : Type := mkDraws {
  draw_studio : N;
  draw_spare : N;
  draw_domain : N;
  draw_user : N;
  draw_salt : string
}.

(** The file name under which an upload is saved, if it is:
    [f"{studio_id}_logo{ext}"] and the like. *)
Definition upload_name (studio_id suffix fallback : string) (skip : bool)
    (file : option FileStorage) : option string :=
  if skip then None
  else match file with
       | Some f =>
           if Py.truthy (filename f)
           then Some (studio_id ++ suffix ++
                      Py.str_or (splitext_ext (filename f)) fallback)
           else None
       | None => None
       end.

Definition upload_url (name : option string) : option string :=
  match name with
  | Some n => Some ("/uploads/studios/" ++ n)
  | None => None
  end.

(** [logo_file.save(logo_path)] and [photo_file.save(photo_path)], lines
    117 and 128: the file is written.  A save the file system refuses
    (a name too long for it, a directory it cannot create) raises before
    the [try] and is not caught; such a run is not modelled. *)
Definition save_upload (name : option string) (w : World) : World :=
  match name with
  | Some n => save_file n w
  | None => w
  end.

(** The body of the [try] in [signup_branding], lines 133 to 156. *)
Definition persist_signup (sess : gmap string (option string))
    (brand_color typography : string) (logo_url photo_url : option string)
    (studio_id : string) (rnd : Draws) : DB unit :=
  name <- lift (session_item sess "signup_studio_name") ;;
  subdomain <- lift (session_item sess "signup_subdomain") ;;
  domain <- lift (session_item sess "signup_domain") ;;
  owner_email <- lift (session_item sess "signup_email") ;;
  owner_name <- lift (session_item sess "signup_owner_name") ;;
  password <- lift (session_item sess "signup_password") ;;
  password_hash <- lift (hash_password password (draw_salt rnd)) ;;
  plan <- lift (session_item sess "signup_plan") ;;
  studio <- create_studio name subdomain domain owner_email owner_name
              password_hash plan (Some studio_id)
              (draw_spare rnd) (draw_domain rnd) (draw_user rnd) ;;
  assign_studio (Studio.id studio)
    (fun s => Studio.set_typography (Some typography)
                (Studio.set_brand_color (Some brand_color) s))
    [ mkCell "studios" "brand_color" 7 (Some brand_color);
      mkCell "studios" "typography" 255 (Some typography) ] ;;;
  match logo_url with
  | Some _ =>
      assign_studio (Studio.id studio) (Studio.set_logo_url logo_url)
        [ mkCell "studios" "logo_url" 500 logo_url ]
  | None => ret tt
  end ;;;
  match photo_url with
  | Some _ =>
      assign_studio (Studio.id studio) (Studio.set_studio_photo photo_url)
        [ mkCell "studios" "studio_photo" 500 photo_url ]
  | None => ret tt
  end ;;;
  commit.

(** [str(e)] *)
Definition exn_str (e : Exn) : string :=
  match e with
  | KeyError k => Py.repr_key k
  | AttributeError m => m
  | TypeError m => m
  | ValueError m => m
  | DatabaseError v => error_text v
  end.

(** The message of the [except] branch, lines 166 to 170. *)
Definition error_message (e : Exn) (sess : gmap string (option string)) : string :=
  let error_msg := exn_str e in
  if Py.contains "ix_studios_subdomain" error_msg
     || Py.contains "subdomain" (Py.lower error_msg)
  then "The subdomain '" ++ Py.str_of (session_get sess "signup_subdomain")
       ++ "' is already taken. Please go back and choose a different one."
  else if Py.contains "ix_studios_email" error_msg
          || Py.contains "studios_email" (Py.lower error_msg)
  then "The email '" ++ Py.str_of (session_get sess "signup_email")
       ++ "' is already registered."
  else error_msg.

(** The uploads of one POST to [/signup/branding]: the names under which
    the logo and the studio photo are saved, lines 109 to 129. *)
Definition branding_uploads (req : Request) (rnd : Draws)
  : option string * option string :=
  let skip_logo := opt_eqb (form req !! "skip_logo") (Some "on") in
  let skip_photo := opt_eqb (form req !! "skip_photo") (Some "on") in
  let studio_id := uuid_str (draw_studio rnd) in
  (upload_name studio_id "_logo" ".png" skip_logo (files req !! "logo"),
   upload_name studio_id "_photo" ".jpg" skip_photo
     (files req !! "studio_photo")).

(** The [try] body run on a fresh database session with the values the
    handler computed from the request. *)
Definition branding_attempt (req : Request) (rnd : Draws) (w : World)
  : Outcome (unit * DbSession) :=
  let brand_color := default "#0EA5E9" (form req !! "brand_color") in
  let typography := default "Modern (Inter)" (form req !! "typography") in
  let uploads := branding_uploads req rnd in
  persist_signup (session w) brand_color typography
    (upload_url (fst uploads)) (upload_url (snd uploads))
    (uuid_str (draw_studio rnd)) rnd
    (get_db_session (store w)).

(** [signup_branding()], step 3.  Saving a file is recorded by its name;
    a failing disk is not modelled. *)
Definition signup_branding (req : Request) (rnd : Draws) (w : World)
  : Response * World :=
  match session w !! "signup_plan" with
  | None => (Redirect "signup_plan" None, w)
  | Some _ =>
      match method req with
      | POST =>
          let uploads := branding_uploads req rnd in
          let w1 := save_upload (snd uploads) (save_upload (fst uploads) w) in
          match branding_attempt req rnd w1 with
          | Returns (_, db) =>
              (Redirect "signup_complete" (Some (uuid_str (draw_studio rnd))),
               fold_left (fun w' key => session_pop key w') signup_keys
                 (with_store (db_committed db) w1))
          | Raises e =>
              let error_msg := error_message e (session w1) in
              (Render "signup/branding.html" (Some error_msg),
               flash ("Failed to create studio: " ++ error_msg) "error" w1)
          end
      | GET => (Render "signup/branding.html" None, w)
      end
  end.

(** [check_domain()], for a parameter the database driver sends on (see
    [has_nul] below). *)
Definition check_domain (req : Request) (w : World) : Response * World :=
  let domain := args req !! "domain" in
  match domain with
  | Some d =>
      if Py.truthy d then
        match first_domain (fun r => is_text (StudioDomain.domain r) d)
                (get_db_session (store w)) with
        | Returns (existing, _) =>
            (Jsonify [ ("available", JBool (is_none existing));
                       ("domain", JStr d) ], w)
        | Raises e => (InternalServerError e, w)
        end
      else
        (Jsonify [ ("available", JBool false);
                   ("error", JStr "Domain required") ], w)
  | None =>
      (Jsonify [ ("available", JBool false);
                 ("error", JStr "Domain required") ], w)
  end.

End Engine.

(** ** Sample inputs *)

Definition jane_form : gmap string string :=
  list_to_map
    [ ("studio_name", "Jane's Photo Co"); ("domain", "jane.example.com");
      ("email", "jane@example.com"); ("owner_name", "Jane Roe");
      ("password", "correct horse"); ("confirm_password", "correct horse") ].

Definition blank_world : World := mkWorld empty_store ∅ [] [].

Definition short_form : gmap string string :=
  list_to_map
    [ ("studio_name", "Jane's Photo Co"); ("domain", "jane.example.com");
      ("email", "jane@example.com"); ("owner_name", "Jane Roe");
      ("password", "horse"); ("confirm_password", "horse") ].

(** The response of [/api/check-domain] as the specification words it:
    the error object when the parameter is missing, otherwise the
    availability of the given domain. *)
Definition spec_check_domain (domain : option string) (st : Store) : Response :=
  match domain with
  | None =>
      Jsonify [ ("available", JBool false); ("error", JStr "Domain required") ]
  | Some d =>
      Jsonify
        [ ("available",
           JBool (negb (existsb (fun r => is_text (StudioDomain.domain r) d)
                          (studio_domains st))));
          ("domain", JStr d) ]
  end.

Definition jane_domain : StudioDomain.t :=
  StudioDomain.mk "00000000-0000-0000-0000-000000000003"
    "00000000-0000-0000-0000-000000000001" (Some "jane.example.com")
    (Some true) (Some false).

Definition jane_store : Store := mkStore [] [jane_domain] [] [].

Definition domain_query (d : string) : Request :=
  mkRequest GET ∅ {[ "domain" := d ]} ∅.

(** The answer to a request without a usable parameter. *)
Definition domain_required : Response :=
  Jsonify [ ("available", JBool false); ("error", JStr "Domain required") ].

(** The rows [create_studio] writes, as they reach their tables. *)
Definition studio_row (id : string) (name owner_email subdomain plan : option string)
  : Studio.t :=
  Studio.with_defaults
    (Studio.mk id name owner_email subdomain None None None None
       plan (Some "trial") (Some false) (Some "pending") None).

Definition domain_row (id studio_id : string) (domain : option string)
  : StudioDomain.t :=
  StudioDomain.mk id studio_id domain (Some true) (Some false).

Definition owner_row (id studio_id : string) (owner_name owner_email : option string)
    (password_hash : string) : User.t :=
  User.with_defaults
    (User.mk id (Some studio_id) owner_name owner_email owner_email
       (Some password_hash) (Some "studio_owner") None None).

Definition add_studio (s : Studio.t) (st : Store) : Store :=
  mkStore (studios st ++ [s]) (studio_domains st) (users st) (studio_features st).

Definition add_domain (d : StudioDomain.t) (st : Store) : Store :=
  mkStore (studios st) (studio_domains st ++ [d]) (users st) (studio_features st).

Definition add_user (u : User.t) (st : Store) : Store :=
  mkStore (studios st) (studio_domains st) (users st ++ [u]) (studio_features st).

Definition add_feature (f : StudioFeature.t) (st : Store) : Store :=
  mkStore (studios st) (studio_domains st) (users st) (studio_features st ++ [f]).

(** The id [create_studio] gives the studio: [studio_id or str(uuid4())]. *)
Definition chosen_id (studio_id : option string) (u_studio : N) : string :=
  match studio_id with
  | Some i => Py.str_or i (uuid_str u_studio)
  | None => uuid_str u_studio
  end.

Definition jane_studio : Studio.t :=
  studio_row "00000000-0000-0000-0000-000000000001" (Some "Jane's Photo Co")
    (Some "jane@example.com") (Some "janes-photo-co") (Some "starter").

(** ** When the store accepts a row

    The constraints of the schema said as propositions: the text fits the
    declared lengths where the engine enforces them, the required columns
    are filled, the primary key is new and no unique value is there yet. *)

Definition cells_fit (dialect : Dialect) (cells : list Cell) : Prop :=
  enforces_lengths dialect = true -> Forall (fun c => fits c = true) cells.

Definition has_parent (dialect : Dialect) (st : Store) (parent : option string)
  : Prop :=
  forall p, parent = Some p -> enforces_foreign_keys dialect = true ->
    exists s, In s (studios st) /\ Studio.id s = p.

Definition studio_admissible (dialect : Dialect) (st : Store) (s : Studio.t)
  : Prop :=
  cells_fit dialect (studio_cells s) /\
  Studio.name s <> None /\
  Studio.email s <> None /\
  (forall r, In r (studios st) -> Studio.id r <> Studio.id s) /\
  (forall r, In r (studios st) -> Studio.email s <> None ->
     Studio.email r <> Studio.email s) /\
  (forall r, In r (studios st) -> Studio.subdomain s <> None ->
     Studio.subdomain r <> Studio.subdomain s).

Definition domain_admissible (dialect : Dialect) (st : Store) (d : StudioDomain.t)
  : Prop :=
  cells_fit dialect (domain_cells d) /\
  StudioDomain.domain d <> None /\
  (forall r, In r (studio_domains st) -> StudioDomain.id r <> StudioDomain.id d) /\
  (forall r, In r (studio_domains st) -> StudioDomain.domain d <> None ->
     StudioDomain.domain r <> StudioDomain.domain d).

Definition user_admissible (dialect : Dialect) (st : Store) (u : User.t) : Prop :=
  cells_fit dialect (user_cells u) /\
  User.name u <> None /\
  User.email u <> None /\
  User.username u <> None /\
  (forall r, In r (users st) -> User.id r <> User.id u) /\
  (forall r, In r (users st) -> User.email u <> None ->
     User.email r <> User.email u) /\
  (forall r, In r (users st) -> User.username u <> None ->
     User.username r <> User.username u).


(** ** Feature toggles *)

Definition is_pair (studio_id feature_key : string) (f : StudioFeature.t) : bool :=
  String.eqb (StudioFeature.studio_id f) studio_id &&
  String.eqb (StudioFeature.feature_key f) feature_key.

(** The [StudioFeature] rows of one (studio, key) pair. *)
Definition pair_rows (studio_id feature_key : string) (st : Store)
  : list StudioFeature.t :=
  List.filter (is_pair studio_id feature_key) (studio_features st).


Definition feature_row (id studio_id feature_key : string) (enabled : bool)
  : StudioFeature.t :=
  StudioFeature.mk id studio_id feature_key (Some enabled).

Definition set_features (rows : list StudioFeature.t) (st : Store) : Store :=
  mkStore (studios st) (studio_domains st) (users st) rows.

(** ** The branding step *)

(** The studio row once the branding attributes are assigned, lines 147
    to 152, and the text cells these assignments write. *)
Definition branded (brand_color typography : string)
    (logo_url photo_url : option string) (s : Studio.t) : Studio.t :=
  let s1 := Studio.set_typography (Some typography)
              (Studio.set_brand_color (Some brand_color) s) in
  let s2 := match logo_url with
            | Some _ => Studio.set_logo_url logo_url s1
            | None => s1
            end in
  match photo_url with
  | Some _ => Studio.set_studio_photo photo_url s2
  | None => s2
  end.

Definition branding_cells (brand_color typography : string)
    (logo_url photo_url : option string) : list Cell :=
  ([ mkCell "studios" "brand_color" 7 (Some brand_color);
     mkCell "studios" "typography" 255 (Some typography) ] ++
   match logo_url with
   | Some _ => [ mkCell "studios" "logo_url" 500 logo_url ]
   | None => []
   end ++
   match photo_url with
   | Some _ => [ mkCell "studios" "studio_photo" 500 photo_url ]
   | None => []
   end)%list.

(** The message of the [except] branch with its four tests reduced to the
    two that decide: the lower-cased text is searched for "subdomain",
    then for "studios_email". *)
Definition friendly_message (text : string) (sess : gmap string (option string))
  : string :=
  if Py.contains "subdomain" (Py.lower text)
  then "The subdomain '" ++ Py.str_of (session_get sess "signup_subdomain")
       ++ "' is already taken. Please go back and choose a different one."
  else if Py.contains "studios_email" (Py.lower text)
  then "The email '" ++ Py.str_of (session_get sess "signup_email")
       ++ "' is already registered."
  else text.

(** The message as the specification words it: the text is searched for
    "subdomain" or "email". *)
Definition spec_error_message (text : string) (sess : gmap string (option string))
  : string :=
  if Py.contains "subdomain" (Py.lower text)
  then "The subdomain '" ++ Py.str_of (session_get sess "signup_subdomain")
       ++ "' is already taken. Please go back and choose a different one."
  else if Py.contains "email" (Py.lower text)
  then "The email '" ++ Py.str_of (session_get sess "signup_email")
       ++ "' is already registered."
  else text.

(** An engine's wording for the examples, after SQLite's. *)
Definition sample_error_text (v : Violation) : string :=
  match v with
  | TooLong t c n => "value too long for column " ++ t ++ "." ++ c
  | NotNull t c => "NOT NULL constraint failed: " ++ t ++ "." ++ c
  | Duplicate t c => "UNIQUE constraint failed: " ++ t ++ "." ++ c
  | MissingParent t c => "FOREIGN KEY constraint failed"
  end.

(** A stand-in for bcrypt in the examples: it accepts every password. *)
Definition sample_hashpw (password salt : string) : Outcome string :=
  Returns ("$2b$12$" ++ salt ++ password).

Definition sample_draws : Draws := mkDraws 1 2 3 4 "saltsaltsaltsaltsaltsa".

(** A client of another studio who registered with Jane's address. *)
Definition jane_client : User.t :=
  User.mk "00000000-0000-0000-0000-000000000009" None (Some "Jane Roe")
    (Some "jane@example.com") (Some "jane") None (Some "client")
    (Some true) (Some false).

(** The world after Jane's steps 1 and 2, starting from a given store. *)
Definition jane_ready (st : Store) : World :=
  snd (signup_plan (mkRequest POST ∅ ∅ ∅)
         (snd (signup (mkRequest POST jane_form ∅ ∅)
                 (with_store st blank_world)))).

(** An earlier studio whose name leads to Jane's subdomain. *)
Definition rival_studio : Studio.t :=
  studio_row "00000000-0000-0000-0000-000000000007" (Some "Janes Photo Co")
    (Some "janes@example.org") (Some "janes-photo-co") (Some "starter").

(** ** The whole wizard *)

(** The store accepts the three rows of a signup and the branding
    UPDATE. *)
Definition signup_accepted (dialect : Dialect) (st : Store) (s : Studio.t)
    (d : StudioDomain.t) (o : User.t) (cells : list Cell) : Prop :=
  studio_admissible dialect st s /\
  domain_admissible dialect st d /\
  user_admissible dialect st o /\
  cells_fit dialect cells.

(** The text cells of the branding UPDATE of a request. *)
Definition request_cells (req : Request) (rnd : Draws) : list Cell :=
  branding_cells (default "#0EA5E9" (form req !! "brand_color"))
    (default "Modern (Inter)" (form req !! "typography"))
    (upload_url (fst (branding_uploads req rnd)))
    (upload_url (snd (branding_uploads req rnd))).

(** The studio row of a request once branded. *)
Definition request_branded (req : Request) (rnd : Draws) (s : Studio.t) : Studio.t :=
  branded (default "#0EA5E9" (form req !! "brand_color"))
    (default "Modern (Inter)" (form req !! "typography"))
    (upload_url (fst (branding_uploads req rnd)))
    (upload_url (snd (branding_uploads req rnd))) s.

(** ** The read helpers of [database.py] and the admin routes of [app.py] *)

(** [studio.domains] and [studio.users]: the rows that point to the
    studio, in table order (the relationships declare no ordering).  With
    two or more rows the engine chooses the order, and it may differ from
    one load to the next; what depends on [domains[0]] is stated below
    for studios with at most one domain. *)
Definition domains_of (st : Store) (studio_id : string) : list StudioDomain.t :=
  List.filter (fun d => String.eqb (StudioDomain.studio_id d) studio_id)
    (studio_domains st).

Definition users_of (st : Store) (studio_id : string) : list User.t :=
  List.filter (fun u => is_text (User.studio_id u) studio_id) (users st).

(** A studio loaded with [joinedload(Studio.domains)] and
    [joinedload(Studio.users)]. *)
Record Loaded : Type := mkLoaded {
  loaded_studio : Studio.t;
  loaded_domains : list StudioDomain.t;
  loaded_users : list User.t
}.

Definition load (st : Store) (s : Studio.t) : Loaded :=
  mkLoaded s (domains_of st (Studio.id s)) (users_of st (Studio.id s)).

(** [get_all_studios(db)] *)
Definition get_all_studios : DB (list Loaded) :=
  fun s => Returns (List.map (load (db_txn s)) (studios (db_txn s)), s).

(** [get_studio_by_id(db, studio_id)] *)
Definition get_studio_by_id (studio_id : string) : DB (option Loaded) :=
  fun s =>
    Returns (option_map (load (db_txn s))
               (List.find (fun r => String.eqb (Studio.id r) studio_id)
                  (studios (db_txn s))), s).

Definition is_flag (v : option bool) (b : bool) : bool :=
  match v with Some x => Bool.eqb x b | None => false end.

(** The filter of [get_pending_studios]: [onboarding_completed == False]
    and [onboarding_step == "pending"]; a NULL matches neither. *)
Definition is_pending (s : Studio.t) : bool :=
  is_flag (Studio.onboarding_completed s) false &&
  is_text (Studio.onboarding_step s) "pending".

(** [get_pending_studios(db)] *)
Definition get_pending_studios : DB (list Loaded) :=
  fun s =>
    Returns (List.map (load (db_txn s))
               (List.filter is_pending (studios (db_txn s))), s).

(** [get_studio_features(db, studio_id)] *)
Definition get_studio_features (studio_id : string) : DB (list StudioFeature.t) :=
  fun s =>
    Returns (List.filter
               (fun f => String.eqb (StudioFeature.studio_id f) studio_id)
               (studio_features (db_txn s)), s).

Definition set_is_active (v : option bool) (s : Studio.t) : Studio.t :=
  Studio.mk (Studio.id s) (Studio.name s) (Studio.email s) (Studio.subdomain s)
    (Studio.logo_url s) (Studio.brand_color s) (Studio.typography s)
    (Studio.studio_photo s) (Studio.subscription_tier s)
    (Studio.subscription_status s) (Studio.onboarding_completed s)
    (Studio.onboarding_step s) v.

Definition set_is_verified (v : option bool) (d : StudioDomain.t) : StudioDomain.t :=
  StudioDomain.mk (StudioDomain.id d) (StudioDomain.studio_id d)
    (StudioDomain.domain d) (StudioDomain.is_primary d) v.

(** Assigning to an attribute of a persistent [StudioDomain]. *)
Definition assign_domain (x : string) (f : StudioDomain.t -> StudioDomain.t)
  : DB unit :=
  fun s =>
    let st := db_txn s in
    Returns (tt, mkDb (db_committed s)
                   (mkStore (studios st)
                      (update_rows StudioDomain.id x f (studio_domains st))
                      (users st) (studio_features st))
                   (db_new s) (db_dirty s)).

(** Truth value of a nullable boolean attribute. *)
Definition flag_truthy (v : option bool) : bool :=
  match v with Some b => b | None => false end.

(** What an admin route sees beside the world: the entry the Flask
    session holds under ["admin_logged_in"], the only one that is not
    text ([None] when the key is absent). *)
Record Site : Type := mkSite {
  world : World;
  admin_logged_in : option bool
}.

(** What a route answers when its page shows data. *)
Inductive View : Type :=
  | Plain (r : Response)
  | CompletePage (studio : option Loaded) (domain : option string)
  | FeaturesPage (all_studios : list Loaded) (selected_studio : option Loaded)
      (shown_features : gmap string (option bool))
  | ProvisioningPage (pending : list Loaded)
      (active : list (Studio.t * list StudioDomain.t)).

(** [index()] *)
Definition index (w : World) : Response * World :=
  (Redirect "signup" None, w).

(** [signup_complete(studio_id)] *)
Definition signup_complete (studio_id : string) (w : World) : View * World :=
  match get_studio_by_id studio_id (get_db_session (store w)) with
  | Returns (studio, _) =>
      let domain :=
        match studio with
        | Some l =>
            match loaded_domains l with
            | d :: _ => StudioDomain.domain d
            | [] => Some "your-domain.com"
            end
        | None => Some "your-domain.com"
        end in
      (CompletePage studio domain, w)
  | Raises e => (Plain (InternalServerError e), w)
  end.

Definition on_world (f : World -> World) (site : Site) : Site :=
  mkSite (f (world site)) (admin_logged_in site).

(** [admin_required(f)] *)
Definition admin_required (f : Site -> View * Site) (site : Site) : View * Site :=
  if negb (flag_truthy (admin_logged_in site)) then
    (Plain (Redirect "admin_login" None),
     on_world (flash "Please login to access this page" "warning") site)
  else f site.

Section Admin.

(** The credentials of [config.py], read from the environment. *)
Variable ADMIN_USERNAME : string.
Variable ADMIN_PASSWORD : string.
Variable dialect : Dialect.

(** [check_admin_password(username, password)] of [auth.py] *)
Definition check_admin_password (username password : option string) : bool :=
  opt_eqb username (Some ADMIN_USERNAME) && opt_eqb password (Some ADMIN_PASSWORD).

(** [admin_login()] *)
Definition admin_login (req : Request) (site : Site) : View * Site :=
  match method req with
  | POST =>
      let username := form req !! "username" in
      let password := form req !! "password" in
      if opt_eqb username (Some ADMIN_USERNAME) &&
         opt_eqb password (Some ADMIN_PASSWORD)
      then (Plain (Redirect "admin_dashboard" None),
            mkSite (flash "Login successful" "success" (world site)) (Some true))
      else (Plain (Render "admin/login.html" None),
            on_world (flash "Invalid credentials" "error") site)
  | GET => (Plain (Render "admin/login.html" None), site)
  end.

(** [admin_logout()] *)
Definition admin_logout (site : Site) : View * Site :=
  (Plain (Redirect "admin_login" None),
   mkSite (flash "Logged out successfully" "success" (world site)) None).

(** Run a body on a fresh database session: what it commits becomes the
    store; an exception ends the request.  None of the bodies below can
    raise after a commit, so an exception leaves the store as it was. *)
Definition with_db {A} (body : DB A) (w : World)
    (k : A -> World -> View * World) : View * World :=
  match body (get_db_session (store w)) with
  | Returns (a, db) => k a (with_store (db_committed db) w)
  | Raises e => (Plain (InternalServerError e), w)
  end.

Definition lift_world (f : World -> View * World) (site : Site) : View * Site :=
  let out := f (world site) in
  (fst out, mkSite (snd out) (admin_logged_in site)).

(** The body of [toggle_studio(studio_id)] *)
Definition toggle_studio_body (studio_id : string) : DB (option bool) :=
  studio <- get_studio_by_id studio_id ;;
  match studio with
  | Some l =>
      let v := negb (flag_truthy (Studio.is_active (loaded_studio l))) in
      assign_studio (Studio.id (loaded_studio l)) (set_is_active (Some v)) [] ;;;
      commit dialect ;;;
      ret (Some v)
  | None => ret None
  end.

(** [toggle_studio(studio_id)] *)
Definition toggle_studio (studio_id : string) : Site -> View * Site :=
  admin_required
    (lift_world
       (fun w =>
          with_db (toggle_studio_body studio_id) w
            (fun toggled w' =>
               (Plain (Redirect "admin_studios" None),
                match toggled with
                | Some v =>
                    flash ("Studio " ++ (if v then "enabled" else "disabled"))
                      "success" w'
                | None => w'
                end)))).

(** The dictionary [{f.feature_key: f.enabled for f in features_list}]:
    a later row of the same key replaces an earlier one. *)
Definition features_dict (rows : list StudioFeature.t) : gmap string (option bool) :=
  fold_left
    (fun m f => <[StudioFeature.feature_key f := StudioFeature.enabled f]> m)
    rows ∅.

(** The body of [admin_features()] *)
Definition admin_features_body (studio_id : option string)
  : DB (list Loaded * option Loaded * gmap string (option bool)) :=
  all <- get_all_studios ;;
  match studio_id with
  | Some i =>
      if Py.truthy i then
        selected_studio <- get_studio_by_id i ;;
        match selected_studio with
        | Some _ =>
            features_list <- get_studio_features i ;;
            ret (all, selected_studio, features_dict features_list)
        | None => ret (all, None, ∅)
        end
      else ret (all, None, ∅)
  | None => ret (all, None, ∅)
  end.

(** [admin_features()] *)
Definition admin_features (req : Request) : Site -> View * Site :=
  admin_required
    (lift_world
       (fun w =>
          with_db (admin_features_body (args req !! "studio_id")) w
            (fun ctx w' =>
               (FeaturesPage (fst (fst ctx)) (snd (fst ctx)) (snd ctx), w')))).

(** [toggle_studio_feature(studio_id)].  [u] is the number [uuid.uuid4()]
    would return.  Without a [feature_key] field the key is [None]: the
    lookup finds no row, the INSERT breaks the NOT NULL constraint of the
    column and the commit raises. *)
Definition toggle_studio_feature (studio_id : string) (req : Request) (u : N)
  : Site -> View * Site :=
  admin_required
    (lift_world
       (fun w =>
          let feature_key := form req !! "feature_key" in
          let enabled := opt_eqb (form req !! "enabled") (Some "true") in
          let body : DB unit :=
            match feature_key with
            | Some k => toggle_feature dialect studio_id k enabled u ;;; ret tt
            | None =>
                lift (Raises (DatabaseError
                                (NotNull "studio_features" "feature_key")))
            end in
          with_db body w
            (fun _ w' =>
               (Plain (Redirect "admin_features" (Some studio_id)),
                flash ("Feature " ++ Py.str_of feature_key ++ " " ++
                       (if enabled then "enabled" else "disabled"))
                  "success" w')))).

(** The filter of the active list: [onboarding_completed == True]. *)
Definition is_completed (s : Studio.t) : bool :=
  is_flag (Studio.onboarding_completed s) true.

(** The body of [admin_provisioning()] *)
Definition admin_provisioning_body
  : DB (list Loaded * list (Studio.t * list StudioDomain.t)) :=
  pending <- get_pending_studios ;;
  fun s =>
    Returns ((pending,
              List.map (fun r => (r, domains_of (db_txn s) (Studio.id r)))
                (List.filter is_completed (studios (db_txn s)))), s).

(** [admin_provisioning()] *)
Definition admin_provisioning : Site -> View * Site :=
  admin_required
    (lift_world
       (fun w =>
          with_db admin_provisioning_body w
            (fun ctx w' => (ProvisioningPage (fst ctx) (snd ctx), w')))).

(** The body of [provision(studio_id)] *)
Definition provision_body (studio_id : string) : DB unit :=
  studio <- provision_studio dialect studio_id ;;
  match studio with
  | Some s =>
      fun db =>
        match domains_of (db_txn db) (Studio.id s) with
        | d :: _ =>
            (assign_domain (StudioDomain.id d) (set_is_verified (Some true)) ;;;
             commit dialect) db
        | [] => Returns (tt, db)
        end
  | None => ret tt
  end.

(** [provision(studio_id)] *)
Definition provision (studio_id : string) : Site -> View * Site :=
  admin_required
    (lift_world
       (fun w =>
          with_db (provision_body studio_id) w
            (fun _ w' =>
               (Plain (Redirect "admin_provisioning" None),
                flash "Studio provisioned successfully!" "success" w')))).

Definition mark_pending (s : Studio.t) : Studio.t :=
  Studio.set_onboarding_completed (Some false)
    (Studio.set_onboarding_step (Some "pending") s).

(** The body of [deprovision(studio_id)] *)
Definition deprovision_body (studio_id : string) : DB unit :=
  studio <- get_studio_by_id studio_id ;;
  match studio with
  | Some l =>
      assign_studio (Studio.id (loaded_studio l)) mark_pending
        [ mkCell "studios" "onboarding_step" 50 (Some "pending") ] ;;;
      match loaded_domains l with
      | d :: _ => assign_domain (StudioDomain.id d) (set_is_verified (Some false))
      | [] => ret tt
      end ;;;
      commit dialect
  | None => ret tt
  end.

(** [deprovision(studio_id)] *)
Definition deprovision (studio_id : string) : Site -> View * Site :=
  admin_required
    (lift_world
       (fun w =>
          with_db (deprovision_body studio_id) w
            (fun _ w' =>
               (Plain (Redirect "admin_provisioning" None),
                flash "Studio deprovisioned" "warning" w')))).

End Admin.

(** A request whose logo tries to climb out of the upload directory. *)
Definition climbing_upload : Request :=
  mkRequest POST ∅ ∅ {[ "logo" := mkFile "../../etc/cron.d/job.sh" ]}.

Definition admin_form (username password : string) : Request :=
  mkRequest POST
    (list_to_map [ ("username", username); ("password", password) ]) ∅ ∅.

Definition visitor : Site := mkSite blank_world None.

(** ** What the admin actions do to the store *)

Definition set_studios (rows : list Studio.t) (st : Store) : Store :=
  mkStore rows (studio_domains st) (users st) (studio_features st).

Definition set_domains (rows : list StudioDomain.t) (st : Store) : Store :=
  mkStore (studios st) rows (users st) (studio_features st).

Definition has_studio_id (studio_id : string) (s : Studio.t) : bool :=
  String.eqb (Studio.id s) studio_id.

(** [studio.domains[0].is_verified = v], if the studio has a domain. *)
Definition verify_first (v : bool) (studio_id : string) (st : Store) : Store :=
  match domains_of st studio_id with
  | d :: _ =>
      set_domains
        (update_rows StudioDomain.id (StudioDomain.id d)
           (set_is_verified (Some v)) (studio_domains st)) st
  | [] => st
  end.

(** The store after the route [provision]. *)
Definition provisioned (studio_id : string) (st : Store) : Store :=
  match List.find (has_studio_id studio_id) (studios st) with
  | Some _ =>
      verify_first true studio_id
        (set_studios (update_rows Studio.id studio_id mark_provisioned (studios st))
           st)
  | None => st
  end.

(** The store after the route [deprovision]. *)
Definition deprovisioned (studio_id : string) (st : Store) : Store :=
  match List.find (has_studio_id studio_id) (studios st) with
  | Some _ =>
      verify_first false studio_id
        (set_studios (update_rows Studio.id studio_id mark_pending (studios st)) st)
  | None => st
  end.

(** The value [toggle_studio] gives [is_active], if the studio exists. *)
Definition toggled_value (studio_id : string) (st : Store) : option bool :=
  option_map (fun s => negb (flag_truthy (Studio.is_active s)))
    (List.find (has_studio_id studio_id) (studios st)).

(** The store after the route [toggle_studio]. *)
Definition toggled (studio_id : string) (st : Store) : Store :=
  match toggled_value studio_id st with
  | Some v =>
      set_studios
        (update_rows Studio.id studio_id (set_is_active (Some v)) (studios st)) st
  | None => st
  end.

Definition admin : Site := mkSite blank_world (Some true).

Definition on_store (st : Store) (site : Site) : Site :=
  on_world (with_store st) site.

(** A studio that the provisioning page lists, on one side or the other. *)
Definition listed (s : Studio.t) : bool := is_pending s || is_completed s.

(** Jane's studio with its domain and owner, as the wizard leaves them. *)
Definition jane_owner : User.t :=
  owner_row "00000000-0000-0000-0000-000000000004"
    "00000000-0000-0000-0000-000000000001" (Some "Jane Roe")
    (Some "jane@example.com") "$2b$12$saltsaltsaltsaltsaltsacorrect horse".

Definition jane_tenant : Store :=
  add_user jane_owner (add_domain jane_domain (add_studio jane_studio empty_store)).

(** ** Requests to the application

    One constructor per route of [app.py] that is modelled, with what the
    request carries and what the handler draws at random.  The two pages
    that sort by [created_at] ([admin_dashboard], [admin_studios]) are not
    among them; they only read. *)

Record Config : Type := mkConfig {
  cfg_dialect : Dialect;
  cfg_error_text : Violation -> string;
  cfg_hashpw : string -> string -> Outcome string;
  cfg_admin_username : string;
  cfg_admin_password : string
}.

Inductive Action : Type :=
  | GoIndex
  | GoSignup (req : Request)
  | GoSignupPlan (req : Request)
  | GoSignupBranding (req : Request) (rnd : Draws)
  | GoSignupComplete (studio_id : string)
  | GoAdminLogin (req : Request)
  | GoAdminLogout
  | GoToggleStudio (studio_id : string)
  | GoAdminFeatures (req : Request)
  | GoToggleStudioFeature (studio_id : string) (req : Request) (u : N)
  | GoAdminProvisioning
  | GoProvision (studio_id : string)
  | GoDeprovision (studio_id : string)
  | GoCheckDomain (req : Request).

(** A public route that answers without page data. *)
Definition public (f : World -> Response * World) (site : Site) : View * Site :=
  let out := f (world site) in
  (Plain (fst out), mkSite (snd out) (admin_logged_in site)).

(** The handler the URL map picks for a request. *)
Definition dispatch (cfg : Config) (a : Action) : Site -> View * Site :=
  match a with
  | GoIndex => public index
  | GoSignup req => public (signup req)
  | GoSignupPlan req => public (signup_plan req)
  | GoSignupBranding req rnd =>
      public (signup_branding (cfg_dialect cfg) (cfg_error_text cfg)
                (cfg_hashpw cfg) req rnd)
  | GoSignupComplete studio_id => lift_world (signup_complete studio_id)
  | GoAdminLogin req =>
      admin_login (cfg_admin_username cfg) (cfg_admin_password cfg) req
  | GoAdminLogout => admin_logout
  | GoToggleStudio studio_id => toggle_studio (cfg_dialect cfg) studio_id
  | GoAdminFeatures req => admin_features req
  | GoToggleStudioFeature studio_id req u =>
      toggle_studio_feature (cfg_dialect cfg) studio_id req u
  | GoAdminProvisioning => admin_provisioning
  | GoProvision studio_id => provision (cfg_dialect cfg) studio_id
  | GoDeprovision studio_id => deprovision (cfg_dialect cfg) studio_id
  | GoCheckDomain req => public (check_domain req)
  end.

(** The site after a sequence of requests. *)
Definition browse (cfg : Config) (actions : list Action) (site : Site) : Site :=
  fold_left (fun s a => snd (dispatch cfg a s)) actions site.

Definition sample_config : Config :=
  mkConfig PostgreSQL sample_error_text sample_hashpw "admin" "admin123".

(** The password the wizard keeps in the session, if any, passed the
    checks of step 1. *)
Definition password_checked (sess : gmap string (option string)) : Prop :=
  forall v, sess !! "signup_password" = Some v ->
    exists p, v = Some p /\ (8 <= String.length p)%nat.

(** A visit: log in as admin, provision Jane's studio, look at the page. *)
Definition admin_visit : list Action :=
  [ GoAdminLogin (admin_form "admin" "admin123");
    GoProvision "00000000-0000-0000-0000-000000000001";
    GoAdminProvisioning ].

(** A visitor who posts a short password and then goes on to steps 2 and
    3 by hand. *)
Definition impatient_visit : list Action :=
  [ GoSignup (mkRequest POST short_form ∅ ∅);
    GoSignupPlan (mkRequest POST ∅ ∅ ∅);
    GoSignupBranding (mkRequest POST ∅ ∅ ∅) sample_draws;
    GoSignup (mkRequest POST jane_form ∅ ∅);
    GoSignupPlan (mkRequest POST ∅ ∅ ∅) ].

Definition feature_form (feature_key enabled : string) : Request :=
  mkRequest POST
    (list_to_map [ ("feature_key", feature_key); ("enabled", enabled) ]) ∅ ∅.

Definition features_query (studio_id : string) : Request :=
  mkRequest GET ∅ {[ "studio_id" := studio_id ]} ∅.

(** Jane's studio with one feature switched on. *)
Definition jane_analytics : StudioFeature.t :=
  feature_row "00000000-0000-0000-0000-000000000021"
    "00000000-0000-0000-0000-000000000001" "analytics" true.

Definition jane_with_feature : Store := add_feature jane_analytics jane_tenant.

(** Another tenant, there before Jane signs up. *)
Definition bob_studio : Studio.t :=
  studio_row "00000000-0000-0000-0000-000000000011" (Some "Bob's Studio")
    (Some "bob@example.org") (Some "bobs-studio") (Some "pro").

Definition bob_domain : StudioDomain.t :=
  domain_row "00000000-0000-0000-0000-000000000013"
    "00000000-0000-0000-0000-000000000011" (Some "bob.example.org").

Definition bob_owner : User.t :=
  owner_row "00000000-0000-0000-0000-000000000014"
    "00000000-0000-0000-0000-000000000011" (Some "Bob Poe")
    (Some "bob@example.org") "$2b$12$saltsaltsaltsaltsaltsabattery staple".

Definition bob_tenant : Store :=
  add_user bob_owner (add_domain bob_domain (add_studio bob_studio empty_store)).

(** Whether a text holds the character U+0000.  The PostgreSQL driver
    refuses such a text as a query parameter (it raises [ValueError]
    before the query is sent, and the route then answers 500); the routes
    below are modelled for parameters the driver sends. *)
Definition has_nul (s : string) : bool :=
  Py.contains (String Ascii.zero EmptyString) s.

(** A fragment of [str.lower] over all code points, as numbers: the ASCII
    capitals move up by 32, and U+0130 (capital I with a dot above)
    becomes the two code points U+0069 U+0307. *)
Definition lower_code_point (c : N) : list N :=
  if ((65 <=? c) && (c <=? 90))%N then [(c + 32)%N]
  else if (c =? 304)%N then [105%N; 775%N]
  else [c].

Definition lower_code_points (s : list N) : list N :=
  List.flat_map lower_code_point s.

(** * Properties *)

(** ** Strings *)

Lemma prefix_one (c d : ascii) (r : string) :
  String.prefix (String c EmptyString) (String d r) = Ascii.eqb c d.
Proof.
  simpl. destruct (ascii_dec c d) as [->|Hne].
  - rewrite Ascii.eqb_refl. now destruct r.
  - symmetry. now apply Ascii.eqb_neq.
Qed.

(** Replacing a one-character pattern works character by character. *)
Lemma replace_char_cons (c d : ascii) (new r : string) :
  Py.replace (String c EmptyString) new (String d r) =
  if Ascii.eqb c d then new ++ Py.replace (String c EmptyString) new r
  else String d (Py.replace (String c EmptyString) new r).
Proof.
  unfold Py.replace. cbn [Py.replace_scan]. rewrite prefix_one.
  now destruct (Ascii.eqb c d).
Qed.

Lemma replace_char_nil (c : ascii) (new : string) :
  Py.replace (String c EmptyString) new EmptyString = EmptyString.
Proof. reflexivity. Qed.

(** [str.lower] on one character agrees with the table of capitals. *)
Lemma lower_char_spec (c : ascii) : Py.lower_char c = spec_lower_char c.
Proof. destruct c as [[] [] [] [] [] [] [] []]; reflexivity. Qed.

Lemma derive_subdomain_spec (studio_name : string) :
  derive_subdomain studio_name = spec_subdomain studio_name.
Proof.
  unfold derive_subdomain.
  induction studio_name as [|c r IH]; [reflexivity|].
  cbn [Py.lower spec_subdomain]. rewrite <- lower_char_spec.
  rewrite replace_char_cons.
  rewrite (Ascii.eqb_sym " " (Py.lower_char c)).
  destruct (Ascii.eqb (Py.lower_char c) "'") eqn:Hq.
  - apply Ascii.eqb_eq in Hq. rewrite Hq.
    change (Ascii.eqb "'" " ") with false. cbv iota.
    rewrite replace_char_cons. rewrite Ascii.eqb_refl. exact IH.
  - destruct (Ascii.eqb (Py.lower_char c) " ") eqn:Hs.
    + change ("-" ++ Py.replace " " "-" (Py.lower r))
        with (String "-" (Py.replace " " "-" (Py.lower r))).
      rewrite replace_char_cons.
      change (Ascii.eqb "'" "-") with false. cbv iota. now rewrite IH.
    + rewrite replace_char_cons.
      rewrite (Ascii.eqb_sym "'" (Py.lower_char c)), Hq. now rewrite IH.
Qed.

(** *** The derivation over any alphabet *)

Lemma list_ascii_of_string_app (a b : string) :
  list_ascii_of_string (a ++ b)
  = (list_ascii_of_string a ++ list_ascii_of_string b)%list.
Proof.
  induction a as [|c a IH]; [reflexivity|].
  change (String c a ++ b) with (String c (a ++ b)).
  cbn [list_ascii_of_string]. now rewrite IH.
Qed.

Section AnyAlphabetFacts.

Context {A : Type}.
Variable same : A -> A -> bool.
Hypothesis same_spec : forall a b, same a b = true <-> a = b.

Lemma same_refl (a : A) : same a a = true.
Proof. now apply same_spec. Qed.

Lemma same_neq (a b : A) : a <> b -> same a b = false.
Proof.
  intros Hne. destruct (same a b) eqn:E; [|reflexivity].
  now apply same_spec in E.
Qed.

(** Replacing a one-character pattern works character by character,
    whatever the equality test. *)
Lemma replace_one_in (a : A) (new s : list A) :
  replace_in same [a] new s
  = List.flat_map (fun c => if same a c then new else [c]) s.
Proof.
  unfold replace_in. induction s as [|c r IH]; [reflexivity|].
  cbn [replace_scan_in starts_with length Nat.sub List.flat_map].
  rewrite andb_true_r.
  destruct (same a c); cbn [List.app]; now rewrite IH.
Qed.

Variables space hyphen apostrophe : A.
Variable lower_in : list A -> list A.

Lemma derive_subdomain_in_spec (name : list A) :
  space <> apostrophe -> hyphen <> apostrophe ->
  derive_subdomain_in same space hyphen apostrophe lower_in name
  = spec_subdomain_in same space hyphen apostrophe lower_in name.
Proof.
  intros Hsa Hha. unfold derive_subdomain_in, spec_subdomain_in.
  rewrite !replace_one_in.
  induction (lower_in name) as [|c r IH]; [reflexivity|].
  cbn [List.flat_map]. rewrite List.flat_map_app, IH. f_equal.
  destruct (same c apostrophe) eqn:Hq.
  - apply same_spec in Hq. subst c.
    rewrite (same_neq space apostrophe Hsa). cbn [List.flat_map List.app].
    now rewrite same_refl.
  - destruct (same c space) eqn:Hs.
    + apply same_spec in Hs. subst c. rewrite same_refl.
      cbn [List.flat_map List.app].
      rewrite (same_neq apostrophe hyphen); [reflexivity|congruence].
    + destruct (same space c) eqn:Hs'.
      { apply same_spec in Hs'. subst c. now rewrite same_refl in Hs. }
      cbn [List.flat_map List.app].
      destruct (same apostrophe c) eqn:Hq'; [|reflexivity].
      apply same_spec in Hq'. subst c. now rewrite same_refl in Hq.
Qed.

Lemma derive_subdomain_in_shape (name : list A) :
  hyphen <> space ->
  ~ In space (derive_subdomain_in same space hyphen apostrophe lower_in name) /\
  ~ In apostrophe (derive_subdomain_in same space hyphen apostrophe lower_in name).
Proof.
  intros Hhs. unfold derive_subdomain_in. rewrite !replace_one_in. split.
  - intros Hin. apply List.in_flat_map in Hin as (x & Hx & Hin).
    assert (x = space) as ->.
    { destruct (same apostrophe x); [destruct Hin|].
      destruct Hin as [E|[]]. exact E. }
    apply List.in_flat_map in Hx as (y & _ & Hy).
    destruct (same space y) eqn:E.
    + destruct Hy as [E'|[]]. now apply Hhs.
    + destruct Hy as [E'|[]]. subst y. now rewrite same_refl in E.
  - intros Hin. apply List.in_flat_map in Hin as (x & _ & Hin).
    destruct (same apostrophe x) eqn:E; [destruct Hin|].
    destruct Hin as [E'|[]]. subst x. now rewrite same_refl in E.
Qed.

End AnyAlphabetFacts.

Lemma ascii_eqb_spec (a b : ascii) : Ascii.eqb a b = true <-> a = b.
Proof. apply Ascii.eqb_eq. Qed.

Lemma replace_char_in (c : ascii) (new s : string) :
  list_ascii_of_string (Py.replace (String c EmptyString) new s)
  = replace_in Ascii.eqb [c] (list_ascii_of_string new) (list_ascii_of_string s).
Proof.
  rewrite (replace_one_in Ascii.eqb).
  induction s as [|d r IH]; [reflexivity|].
  rewrite replace_char_cons. cbn [list_ascii_of_string List.flat_map].
  destruct (Ascii.eqb c d).
  - now rewrite list_ascii_of_string_app, IH.
  - cbn [list_ascii_of_string List.app]. now rewrite IH.
Qed.

Lemma lower_in_chars (s : string) :
  list_ascii_of_string (Py.lower s)
  = List.map Py.lower_char (list_ascii_of_string s).
Proof.
  induction s as [|c r IH]; [reflexivity|].
  cbn [Py.lower list_ascii_of_string List.map]. now rewrite IH.
Qed.

(** The derivation on the strings of the model is the derivation over the
    alphabet of their characters. *)
Lemma derive_subdomain_generic (studio_name : string) :
  list_ascii_of_string (derive_subdomain studio_name)
  = derive_subdomain_in Ascii.eqb " "%char "-"%char "'"%char
      (List.map Py.lower_char) (list_ascii_of_string studio_name).
Proof.
  unfold derive_subdomain, derive_subdomain_in.
  rewrite (replace_char_in "'" "" _), (replace_char_in " " "-" _).
  now rewrite lower_in_chars.
Qed.

(** The character-wise wording on the strings of the model is the wording
    over the alphabet of their characters, with the table of capitals. *)
Lemma spec_subdomain_generic (studio_name : string) :
  list_ascii_of_string (spec_subdomain studio_name)
  = spec_subdomain_in Ascii.eqb " "%char "-"%char "'"%char
      (List.map spec_lower_char) (list_ascii_of_string studio_name).
Proof.
  rewrite <- derive_subdomain_spec, derive_subdomain_generic.
  rewrite (derive_subdomain_in_spec Ascii.eqb ascii_eqb_spec) by discriminate.
  unfold spec_subdomain_in. f_equal.
  apply List.map_ext. exact lower_char_spec.
Qed.

Lemma contains_char_in (c : ascii) (s : string) :
  Py.contains (String c EmptyString) s = false
  <-> ~ In c (list_ascii_of_string s).
Proof.
  induction s as [|d r IH]; [now split|].
  cbn [Py.contains]. rewrite prefix_one. cbn [list_ascii_of_string In].
  rewrite orb_false_iff, IH. split.
  - intros [E H] [E'|H']; [|now apply H].
    subst d. now rewrite Ascii.eqb_refl in E.
  - intros H. split.
    + apply Ascii.eqb_neq. intros ->. apply H. now left.
    + intros H'. apply H. now right.
Qed.

(** ** Step 1 of the wizard *)

Lemma opt_eqb_eq (a b : option string) : opt_eqb a b = true <-> a = b.
Proof.
  destruct a as [x|], b as [y|]; simpl; try (split; congruence).
  rewrite String.eqb_eq. split; congruence.
Qed.

Lemma opt_eqb_refl (a : option string) : opt_eqb a a = true.
Proof. now apply opt_eqb_eq. Qed.

Lemma opt_eqb_neq (a b : option string) : opt_eqb a b = false <-> a <> b.
Proof.
  rewrite <- opt_eqb_eq. destruct (opt_eqb a b); split; congruence.
Qed.

(** What step 1 does with a password that passes both checks. *)
Lemma signup_accepts (req : Request) (w : World) (n p : string) :
  method req = POST ->
  form req !! "studio_name" = Some n ->
  form req !! "password" = Some p ->
  form req !! "confirm_password" = Some p ->
  (8 <= String.length p)%nat ->
  signup req w =
    (Redirect "signup_plan" None,
     session_set "signup_subdomain" (Some (derive_subdomain n))
       (session_set "signup_password" (Some p)
          (session_set "signup_owner_name" (form req !! "owner_name")
             (session_set "signup_email" (form req !! "email")
                (session_set "signup_domain" (form req !! "domain")
                   (session_set "signup_studio_name" (Some n) w)))))).
Proof.
  intros Hm Hn Hp Hc Hlen. unfold signup.
  rewrite Hm, Hn, Hp, Hc, opt_eqb_refl. cbn [negb].
  destruct (String.length p <? 8)%nat eqn:Hlt; [|reflexivity].
  apply Nat.ltb_lt in Hlt. lia.
Qed.

(** C7: for every studio name submitted at step 1 with an acceptable
    password, the subdomain stored under [signup_subdomain] is the name
    lower-cased, with every space turned into a hyphen and every
    apostrophe removed; "Jane's Photo Co" gives "janes-photo-co".  That
    wording is the one of [spec_subdomain_in] at the characters of the
    model, and the expression of line 67 gives what [spec_subdomain_in]
    says over any alphabet and for any lower-casing function, also one
    that changes the length of a string. *)
Theorem signup_stores_derived_subdomain (req : Request) (w : World) (n p : string) :
  method req = POST ->
  form req !! "studio_name" = Some n ->
  form req !! "password" = Some p ->
  form req !! "confirm_password" = Some p ->
  (8 <= String.length p)%nat ->
  fst (signup req w) = Redirect "signup_plan" None /\
  session (snd (signup req w)) !! "signup_subdomain"
    = Some (Some (spec_subdomain n)) /\
  spec_subdomain "Jane's Photo Co" = "janes-photo-co" /\
  list_ascii_of_string (spec_subdomain n)
    = spec_subdomain_in Ascii.eqb " "%char "-"%char "'"%char
        (List.map spec_lower_char) (list_ascii_of_string n) /\
  forall (A : Type) (same : A -> A -> bool) (space hyphen apostrophe : A)
         (lower_in : list A -> list A) (name : list A),
    (forall a b, same a b = true <-> a = b) ->
    space <> apostrophe -> hyphen <> apostrophe ->
    derive_subdomain_in same space hyphen apostrophe lower_in name
    = spec_subdomain_in same space hyphen apostrophe lower_in name.
Proof.
  intros Hm Hn Hp Hc Hlen.
  rewrite (signup_accepts req w n p Hm Hn Hp Hc Hlen). cbn [fst snd].
  split; [reflexivity|]. split; [|split; [reflexivity|split]].
  - unfold session_set at 1. cbn [session].
    rewrite lookup_insert_eq. now rewrite derive_subdomain_spec.
  - apply spec_subdomain_generic.
  - intros A same space hyphen apostrophe lower_in name Hsame Hsa Hha.
    now apply derive_subdomain_in_spec.
Qed.

Lemma signup_stores_derived_subdomain_witness :
  session (snd (signup (mkRequest POST jane_form ∅ ∅) blank_world))
    !! "signup_subdomain" = Some (Some "janes-photo-co") /\
  derive_subdomain_in N.eqb 32%N 45%N 39%N lower_code_points
    [304%N; 39%N; 83%N; 32%N; 67%N; 111%N]
  = [105%N; 775%N; 115%N; 45%N; 99%N; 111%N].
Proof.
  destruct (signup_stores_derived_subdomain
              (mkRequest POST jane_form ∅ ∅) blank_world
              "Jane's Photo Co" "correct horse")
    as (_ & Hs & Hex & _ & Hany);
    [reflexivity | reflexivity | reflexivity | reflexivity
    | vm_compute; lia |].
  split.
  - rewrite Hs, Hex. reflexivity.
  - rewrite (Hany N N.eqb 32%N 45%N 39%N lower_code_points
               [304%N; 39%N; 83%N; 32%N; 67%N; 111%N] N.eqb_eq);
      [reflexivity | discriminate | discriminate].
Defined.

(** C3: a step-1 submission whose password differs from its confirmation,
    or is shorter than 8 characters, renders the first page again, flashes
    the message of the check that failed, and changes neither the store nor
    the session. *)
Theorem signup_rejects_bad_password (req : Request) (w : World) :
  method req = POST ->
  (form req !! "password" <> form req !! "confirm_password" \/
   exists p, form req !! "password" = Some p /\ (String.length p < 8)%nat) ->
  fst (signup req w) = Render "signup/start.html" None /\
  store (snd (signup req w)) = store w /\
  session (snd (signup req w)) = session w /\
  saved_files (snd (signup req w)) = saved_files w /\
  flashes (snd (signup req w)) =
    (flashes w ++
     [ (if opt_eqb (form req !! "password") (form req !! "confirm_password")
        then "Password must be at least 8 characters"
        else "Passwords do not match", "error") ])%list.
Proof.
  intros Hm Hbad. unfold signup. rewrite Hm.
  destruct (opt_eqb (form req !! "password") (form req !! "confirm_password"))
    eqn:Heq; cbn [negb].
  - destruct Hbad as [Hne|[p [Hp Hlen]]].
    + apply opt_eqb_eq in Heq. contradiction.
    + rewrite Hp. apply Nat.ltb_lt in Hlen. rewrite Hlen. now cbn.
  - now cbn.
Qed.

Lemma signup_rejects_bad_password_witness :
  flashes (snd (signup (mkRequest POST short_form ∅ ∅) blank_world)) =
    [ ("Password must be at least 8 characters", "error") ] /\
  session (snd (signup (mkRequest POST short_form ∅ ∅) blank_world)) = ∅.
Proof.
  destruct (signup_rejects_bad_password
              (mkRequest POST short_form ∅ ∅) blank_world)
    as (_ & _ & Hs & _ & Hf).
  - reflexivity.
  - right. exists "horse". split; [reflexivity | vm_compute; lia].
  - split; [exact Hf | exact Hs].
Defined.

(** ** Domain availability *)

Lemma is_text_eq (v : option string) (x : string) :
  is_text v x = true <-> v = Some x.
Proof.
  destruct v as [y|]; simpl; [|split; congruence].
  rewrite String.eqb_eq. split; congruence.
Qed.

Lemma find_is_none {A} (p : A -> bool) (l : list A) :
  is_none (List.find p l) = true <-> forall x, In x l -> p x = false.
Proof.
  induction l as [|a l IH]; simpl.
  - split; [intros _ x []|reflexivity].
  - destruct (p a) eqn:Ha; simpl.
    + split; [discriminate|]. intros H. specialize (H a (or_introl eq_refl)).
      congruence.
    + rewrite IH. split.
      * intros H x [<-|Hx]; auto.
      * intros H x Hx. apply H. now right.
Qed.

(** C8, as amended: without a [domain] parameter the answer is the
    "Domain required" object; with a non-empty one that holds no U+0000
    it is [{available: b, domain: d}], [b] being true exactly when no
    [StudioDomain] row has that very domain.  Nothing is changed. *)
Theorem check_domain_response (req : Request) (w : World) :
  (args req !! "domain" = None ->
   check_domain req w = (domain_required, w)) /\
  (forall d, args req !! "domain" = Some d -> d <> "" -> has_nul d = false ->
   exists b,
     check_domain req w =
       (Jsonify [ ("available", JBool b); ("domain", JStr d) ], w) /\
     (b = true <->
      forall r, In r (studio_domains (store w)) ->
                StudioDomain.domain r <> Some d)).
Proof.
  unfold check_domain. split.
  - intros ->. reflexivity.
  - intros d -> Hd _. destruct d as [|c d]; [contradiction|].
    cbn [Py.truthy first_domain get_db_session db_txn].
    eexists. split; [reflexivity|].
    rewrite find_is_none. split; intros H r Hr.
    + intros Heq. apply is_text_eq in Heq. specialize (H r Hr). congruence.
    + destruct (is_text _ _) eqn:E; [|reflexivity].
      apply is_text_eq in E. now apply H in Hr.
Qed.

Lemma check_domain_response_witness :
  fst (check_domain (domain_query "jane.example.com")
         (with_store jane_store blank_world)) =
    Jsonify [ ("available", JBool false);
              ("domain", JStr "jane.example.com") ].
Proof.
  destruct (check_domain_response (domain_query "jane.example.com")
              (with_store jane_store blank_world)) as [_ H].
  destruct (H "jane.example.com") as (b & Hr & Hb);
    [reflexivity|discriminate|reflexivity|].
  rewrite Hr. cbn [fst]. destruct b; [|reflexivity].
  exfalso. destruct Hb as [Hb _].
  apply (Hb eq_refl jane_domain); [now left|reflexivity].
Defined.

(** The claim as first stated fails on an empty parameter: the code
    answers "Domain required", not [{available: b, domain: ""}]. *)
Lemma check_domain_empty_counterexample :
  args (domain_query "") !! "domain" = Some "" /\
  fst (check_domain (domain_query "") blank_world)
    <> spec_check_domain (Some "") (store blank_world).
Proof. split; [reflexivity|]. vm_compute. discriminate. Qed.

(** C9: an empty [domain] parameter gets the answer of a missing one,
    whatever the store holds: no row is looked up. *)
Theorem check_domain_empty_is_missing (req : Request) (w : World) :
  args req !! "domain" = Some "" ->
  check_domain req w = (domain_required, w) /\
  (forall req' w', args req' !! "domain" = None ->
     fst (check_domain req' w') = fst (check_domain req w)) /\
  (forall st, fst (check_domain req (with_store st w)) = domain_required).
Proof.
  intros H. unfold check_domain. rewrite H. cbn [Py.truthy].
  repeat split. intros req' w' ->. reflexivity.
Qed.

Lemma check_domain_empty_is_missing_witness :
  fst (check_domain (domain_query "") (with_store jane_store blank_world))
    = domain_required.
Proof.
  destruct (check_domain_empty_is_missing (domain_query "")
              (with_store jane_store blank_world)) as [H _]; [reflexivity|].
  now rewrite H.
Defined.

(** ** The session monad *)

Lemma flush_clean (dialect : Dialect) (c t : Store) (cells : list Cell) :
  too_long cells = None ->
  flush dialect (mkDb c t [] cells) = Returns (tt, mkDb c t [] []).
Proof.
  intros H. unfold flush, length_check. cbn [db_dirty db_new db_txn db_committed].
  rewrite H. now destruct (enforces_lengths dialect).
Qed.

Lemma commit_clean (dialect : Dialect) (c t : Store) (cells : list Cell) :
  too_long cells = None ->
  commit dialect (mkDb c t [] cells) = Returns (tt, get_db_session t).
Proof.
  intros H. unfold commit, bind. now rewrite flush_clean.
Qed.

Lemma find_some_id {A} (key : A -> string) (x : string) (rows : list A) :
  (exists r, In r rows /\ key r = x) ->
  exists r, List.find (fun r => String.eqb (key r) x) rows = Some r /\
            In r rows /\ key r = x.
Proof.
  intros (r & Hin & Hk).
  destruct (List.find (fun r => String.eqb (key r) x) rows) as [r'|] eqn:E.
  - exists r'. split; [reflexivity|]. apply find_some in E as [Hin' Hk'].
    now apply String.eqb_eq in Hk'.
  - apply find_none with (x := r) in E; [|assumption].
    apply String.eqb_neq in E. contradiction.
Qed.

Lemma find_none_id {A} (key : A -> string) (x : string) (rows : list A) :
  (forall r, In r rows -> key r <> x) ->
  List.find (fun r => String.eqb (key r) x) rows = None.
Proof.
  intros H. induction rows as [|a rows IH]; [reflexivity|]. simpl.
  destruct (String.eqb (key a) x) eqn:E.
  - apply String.eqb_eq in E. exfalso. apply (H a); [now left|assumption].
  - apply IH. intros r Hr. apply H. now right.
Qed.

(** ** Provisioning *)



(** ** Creating a studio *)

Lemma length_check_nil (dialect : Dialect) : length_check dialect [] = None.
Proof. unfold length_check. now destruct (enforces_lengths dialect). Qed.

(** [create_studio] on a fresh session, one INSERT after the other. *)
Lemma create_studio_run (dialect : Dialect)
    (name subdomain domain owner_email owner_name : option string)
    (password_hash : string) (plan studio_id : option string)
    (u_studio u_domain u_user : N) (st : Store) :
  let id := chosen_id studio_id u_studio in
  let s := studio_row id name owner_email subdomain plan in
  let d := domain_row (uuid_str u_domain) id domain in
  let u := owner_row (uuid_str u_user) id owner_name owner_email password_hash in
  create_studio dialect name subdomain domain owner_email owner_name
    password_hash plan studio_id u_studio u_domain u_user (get_db_session st) =
  match check_studio dialect st s with
  | Some v => Raises (DatabaseError v)
  | None =>
      match check_domain_row dialect (add_studio s st) d with
      | Some v => Raises (DatabaseError v)
      | None =>
          match check_user dialect (add_domain d (add_studio s st)) u with
          | Some v => Raises (DatabaseError v)
          | None =>
              Returns (s, mkDb st (add_user u (add_domain d (add_studio s st)))
                            [] [])
          end
      end
  end.
Proof.
  intros id s d u.
  unfold create_studio, bind, add, flush, ret, get_db_session.
  cbn [db_committed db_txn db_new db_dirty app insert_all insert bind_outcome].
  rewrite length_check_nil.
  fold (chosen_id studio_id u_studio). fold id.
  change (Studio.with_defaults (Studio.mk id name owner_email subdomain None
            None None None plan (Some "trial") (Some false) (Some "pending") None))
    with s.
  destruct (check_studio dialect st s); [reflexivity|].
  cbn [db_committed db_txn db_new db_dirty app insert_all insert bind_outcome
       Studio.id].
  rewrite length_check_nil.
  cbn [insert_all insert bind_outcome].
  change (StudioDomain.with_defaults (StudioDomain.mk (uuid_str u_domain) id
            domain (Some true) (Some false))) with d.
  change (mkStore (studios st ++ [s]) (studio_domains st) (users st)
            (studio_features st)) with (add_studio s st).
  destruct (check_domain_row dialect (add_studio s st) d); [reflexivity|].
  cbn [insert_all insert bind_outcome].
  change (User.with_defaults (User.mk (uuid_str u_user) (Some id) owner_name
            owner_email owner_email (Some password_hash) (Some "studio_owner")
            None None)) with u.
  change (mkStore (studios (add_studio s st)) (studio_domains (add_studio s st) ++ [d])
            (users (add_studio s st)) (studio_features (add_studio s st)))
    with (add_domain d (add_studio s st)).
  destruct (check_user dialect (add_domain d (add_studio s st)) u); reflexivity.
Qed.

(** ** The checks and what they mean *)

Lemma too_long_none (cells : list Cell) :
  too_long cells = None <-> Forall (fun c => fits c = true) cells.
Proof.
  induction cells as [|c r IH]; simpl.
  - split; [constructor|reflexivity].
  - destruct (fits c) eqn:E.
    + rewrite IH. split; [now constructor|]. intros H. now inversion H.
    + split; [discriminate|]. intros H. inversion H. congruence.
Qed.

Lemma length_check_none (dialect : Dialect) (cells : list Cell) :
  length_check dialect cells = None <-> cells_fit dialect cells.
Proof.
  unfold length_check, cells_fit. destruct (enforces_lengths dialect).
  - rewrite too_long_none. split; [auto|]. intros H. now apply H.
  - split; [discriminate|reflexivity].
Qed.

Lemma null_check_none (table column : string) (v : option string) :
  null_check table column v = None <-> v <> None.
Proof. destruct v; simpl; split; congruence. Qed.

Lemma unless_none (ok : bool) (v : Violation) :
  unless ok v = None <-> ok = true.
Proof. destruct ok; simpl; split; congruence. Qed.

Lemma first_violation_none (checks : list (option Violation)) :
  first_violation checks = None <-> Forall (fun c => c = None) checks.
Proof.
  induction checks as [|[v|] r IH]; simpl.
  - split; [constructor|reflexivity].
  - split; [discriminate|]. intros H. inversion H. discriminate.
  - rewrite IH. split; [now constructor|]. intros H. now inversion H.
Qed.

Lemma has_id_false {A} (key : A -> string) (x : string) (rows : list A) :
  negb (has_id key x rows) = true <-> forall r, In r rows -> key r <> x.
Proof.
  unfold has_id. rewrite negb_true_iff.
  rewrite <- not_true_iff_false, existsb_exists. split.
  - intros H r Hr Hk. apply H. exists r. split; [assumption|].
    now apply String.eqb_eq.
  - intros H (r & Hr & Hk). apply String.eqb_eq in Hk. now apply (H r).
Qed.

Lemma has_id_true {A} (key : A -> string) (x : string) (rows : list A) :
  has_id key x rows = true <-> exists r, In r rows /\ key r = x.
Proof.
  unfold has_id. rewrite existsb_exists.
  split; intros (r & Hr & Hk); exists r; (split; [assumption|]);
    now apply String.eqb_eq.
Qed.

Lemma taken_false {A} (col : A -> option string) (v : option string)
    (rows : list A) :
  negb (taken col v rows) = true <->
  forall r, In r rows -> v <> None -> col r <> v.
Proof.
  unfold taken. destruct v as [x|].
  - rewrite negb_true_iff, <- not_true_iff_false, existsb_exists. split.
    + intros H r Hr _ Hc. apply H. exists r. split; [assumption|].
      now apply is_text_eq.
    + intros H (r & Hr & Hc). apply is_text_eq in Hc.
      now apply (H r Hr).
  - split; [intros _ r _ Hn; congruence|reflexivity].
Qed.

Lemma parent_check_none (dialect : Dialect) (table column : string)
    (parent : option string) (st : Store) :
  parent_check dialect table column parent st = None <->
  has_parent dialect st parent.
Proof.
  unfold parent_check, has_parent. destruct parent as [p|].
  - destruct (enforces_foreign_keys dialect).
    + rewrite unless_none, has_id_true. split.
      * intros H q [= <-] _. exact H.
      * intros H. now apply H.
    + split; [intros _ q _ Hf; discriminate|reflexivity].
  - split; [intros _ q Hq; discriminate|reflexivity].
Qed.

Ltac split_checks :=
  rewrite first_violation_none;
  repeat rewrite Forall_cons_iff;
  rewrite ?length_check_none, ?null_check_none, ?unless_none,
    ?has_id_false, ?taken_false, ?parent_check_none.

Lemma check_studio_none (dialect : Dialect) (st : Store) (s : Studio.t) :
  check_studio dialect st s = None <-> studio_admissible dialect st s.
Proof.
  unfold check_studio, studio_admissible. split_checks.
  split; intros H; repeat (destruct H as [? H]); repeat split; auto.
Qed.

Lemma check_domain_row_none (dialect : Dialect) (st : Store) (d : StudioDomain.t) :
  check_domain_row dialect st d = None <->
  domain_admissible dialect st d /\
  has_parent dialect st (Some (StudioDomain.studio_id d)).
Proof.
  unfold check_domain_row, domain_admissible. split_checks.
  split; intros H; repeat (destruct H as [? H]); repeat split; auto.
  all: repeat match goal with H : _ /\ _ |- _ => destruct H end; auto.
Qed.

Lemma check_user_none (dialect : Dialect) (st : Store) (u : User.t) :
  check_user dialect st u = None <->
  user_admissible dialect st u /\ has_parent dialect st (User.studio_id u).
Proof.
  unfold check_user, user_admissible. split_checks.
  split; intros H; repeat (destruct H as [? H]); repeat split; auto.
  all: repeat match goal with H : _ /\ _ |- _ => destruct H end; auto.
Qed.


(** C10: the row [create_studio] inserts starts active, on trial, on the
    given plan, with onboarding pending and not completed; the domain row
    inserted with it is primary, and in a store whose domains all belong
    to existing studios it is the only domain of the new studio. *)
Theorem create_studio_initial_state (dialect : Dialect)
    (name subdomain domain owner_email owner_name : option string)
    (password_hash plan : string) (studio_id : option string)
    (u_studio u_domain u_user : N) (st : Store) (s : Studio.t) (db : DbSession) :
  create_studio dialect name subdomain domain owner_email owner_name
    password_hash (Some plan) studio_id u_studio u_domain u_user
    (get_db_session st) = Returns (s, db) ->
  studios (db_txn db) = (studios st ++ [s])%list /\
  Studio.is_active s = Some true /\
  Studio.subscription_status s = Some "trial" /\
  Studio.subscription_tier s = Some plan /\
  Studio.onboarding_step s = Some "pending" /\
  Studio.onboarding_completed s = Some false /\
  exists d,
    studio_domains (db_txn db) = (studio_domains st ++ [d])%list /\
    StudioDomain.studio_id d = Studio.id s /\
    StudioDomain.is_primary d = Some true /\
    ((forall r, In r (studio_domains st) ->
        exists p, In p (studios st) /\ Studio.id p = StudioDomain.studio_id r) ->
     forall r, In r (studio_domains (db_txn db)) ->
       StudioDomain.studio_id r = Studio.id s -> r = d).
Proof.
  rewrite create_studio_run.
  destruct (check_studio _ _ _) eqn:Hs; [discriminate|].
  destruct (check_domain_row _ _ _) eqn:Hd; [discriminate|].
  destruct (check_user _ _ _) eqn:Hu; [discriminate|].
  intros [= <- <-]. cbn [db_txn add_user add_domain add_studio studios
                          studio_domains].
  repeat (split; [reflexivity|]).
  eexists. split; [reflexivity|]. split; [reflexivity|]. split; [reflexivity|].
  intros Hfk r Hr Hid. apply in_app_iff in Hr as [Hr|[<-|[]]]; [|reflexivity].
  exfalso. destruct (Hfk r Hr) as (p & Hp & Hpid).
  apply check_studio_none in Hs. destruct Hs as (_ & _ & _ & Hfresh & _).
  apply (Hfresh p Hp). cbn [studio_row Studio.with_defaults Studio.id] in *.
  congruence.
Qed.

Lemma create_studio_initial_state_witness :
  exists s db,
    create_studio PostgreSQL (Some "Jane's Photo Co") (Some "janes-photo-co")
      (Some "jane.example.com") (Some "jane@example.com") (Some "Jane Roe")
      "$2b$12$abcdefghijklmnopqrstuv" (Some "starter") None 1 3 4
      (get_db_session empty_store) = Returns (s, db) /\
    Studio.is_active s = Some true /\
    Studio.subscription_tier s = Some "starter".
Proof.
  eexists. eexists.
  assert (Hrun : create_studio PostgreSQL (Some "Jane's Photo Co")
      (Some "janes-photo-co") (Some "jane.example.com")
      (Some "jane@example.com") (Some "Jane Roe")
      "$2b$12$abcdefghijklmnopqrstuv" (Some "starter") None 1 3 4
      (get_db_session empty_store) =
      Returns (jane_studio,
               mkDb empty_store
                 (add_user (owner_row (uuid_str 4) (uuid_str 1) (Some "Jane Roe")
                              (Some "jane@example.com")
                              "$2b$12$abcdefghijklmnopqrstuv")
                    (add_domain jane_domain (add_studio jane_studio empty_store)))
                 [] [])) by (vm_compute; reflexivity).
  split; [exact Hrun|].
  destruct (create_studio_initial_state _ _ _ _ _ _ _ _ _ _ _ _ _ _ _ Hrun)
    as (_ & Ha & _ & Ht & _).
  split; [exact Ha|exact Ht].
Defined.

(** ** Feature toggles *)

Lemma toggle_feature_run (dialect : Dialect) (studio_id feature_key : string)
    (enabled : bool) (u : N) (st : Store) :
  toggle_feature dialect studio_id feature_key enabled u (get_db_session st) =
  match List.find (is_pair studio_id feature_key) (studio_features st) with
  | Some f =>
      Returns
        (StudioFeature.set_enabled (Some enabled) f,
         get_db_session
           (set_features
              (update_rows StudioFeature.id (StudioFeature.id f)
                 (StudioFeature.set_enabled (Some enabled)) (studio_features st))
              st))
  | None =>
      let f := feature_row (uuid_str u) studio_id feature_key enabled in
      match check_feature dialect st f with
      | Some v => Raises (DatabaseError v)
      | None => Returns (f, get_db_session (add_feature f st))
      end
  end.
Proof.
  unfold toggle_feature, bind, first_feature, get_db_session.
  cbn [db_txn]. fold (is_pair studio_id feature_key).
  change (fun f => is_pair studio_id feature_key f)
    with (is_pair studio_id feature_key).
  destruct (List.find _ _) as [f|].
  - unfold assign_feature, ret, commit, bind, flush.
    cbn [db_txn db_committed db_new db_dirty insert_all].
    now rewrite length_check_nil.
  - unfold add, ret, commit, bind, flush.
    cbn [db_txn db_committed db_new db_dirty insert_all insert app bind_outcome
         StudioFeature.with_defaults].
    rewrite length_check_nil.
    change (StudioFeature.with_defaults
              (StudioFeature.mk (uuid_str u) studio_id feature_key (Some enabled)))
      with (feature_row (uuid_str u) studio_id feature_key enabled).
    now destruct (check_feature _ _ _).
Qed.

Lemma filter_map_stable {A} (p : A -> bool) (g : A -> A) (l : list A) :
  (forall r, p (g r) = p r) ->
  List.filter p (List.map g l) = List.map g (List.filter p l).
Proof.
  intros H. induction l as [|a l IH]; [reflexivity|]. simpl.
  rewrite H. destruct (p a); simpl; now rewrite IH.
Qed.


Lemma find_filter_head {A} (p : A -> bool) (l : list A) :
  List.find p l = List.head (List.filter p l).
Proof.
  induction l as [|a l IH]; [reflexivity|]. simpl. now destruct (p a).
Qed.

Lemma is_pair_set_enabled (t k : string) (x : string) (v : option bool)
    (r : StudioFeature.t) :
  is_pair t k (if String.eqb (StudioFeature.id r) x
               then StudioFeature.set_enabled v r else r) = is_pair t k r.
Proof. now destruct (String.eqb _ _). Qed.


Lemma update_rows_fresh {A} (key : A -> string) (x : string) (g : A -> A)
    (l : list A) :
  (forall r, In r l -> key r <> x) -> update_rows key x g l = l.
Proof.
  intros H. induction l as [|a l IH]; [reflexivity|]. simpl.
  destruct (String.eqb (key a) x) eqn:E.
  - apply String.eqb_eq in E. exfalso. apply (H a); [now left|assumption].
  - f_equal. apply IH. intros r Hr. apply H. now right.
Qed.

Lemma find_app_none {A} (p : A -> bool) (l l' : list A) :
  List.find p l = None -> List.find p (l ++ l') = List.find p l'.
Proof.
  induction l as [|a l IH]; [reflexivity|]. simpl.
  destruct (p a); [discriminate|exact IH].
Qed.

Lemma is_pair_refl (id t k : string) (e : bool) :
  is_pair t k (feature_row id t k e) = true.
Proof. unfold is_pair. cbn. now rewrite !String.eqb_refl. Qed.




(** ** The branding step *)

Lemma uuid_str_truthy (u : N) : Py.truthy (uuid_str u) = true.
Proof. reflexivity. Qed.

Lemma uuid_str_length (u : N) : String.length (uuid_str u) = 36%nat.
Proof. reflexivity. Qed.

Lemma update_rows_app {A} (key : A -> string) (x : string) (g : A -> A)
    (l l' : list A) :
  update_rows key x g (l ++ l') =
  (update_rows key x g l ++ update_rows key x g l')%list.
Proof. apply List.map_app. Qed.

(** Assigning to the studio just inserted touches that row only. *)
Lemma update_new_studio (x : string) (g : Studio.t -> Studio.t)
    (rows : list Studio.t) (s : Studio.t) :
  (forall r, In r rows -> Studio.id r <> x) -> Studio.id s = x ->
  update_rows Studio.id x g (rows ++ [s]) = (rows ++ [g s])%list.
Proof.
  intros Hfresh Hid. rewrite update_rows_app, update_rows_fresh by assumption.
  cbn. rewrite Hid. now rewrite String.eqb_refl.
Qed.

(** The [try] body of [signup_branding] on a session that holds the seven
    wizard keys: the hash, the three INSERTs, the UPDATE, the commit. *)
Lemma persist_signup_run (dialect : Dialect)
    (bcrypt_hashpw : string -> string -> Outcome string)
    (sess : gmap string (option string))
    (name subdomain domain owner_email owner_name password plan : option string)
    (brand_color typography : string) (logo_url photo_url : option string)
    (u : N) (rnd : Draws) (st : Store) :
  sess !! "signup_studio_name" = Some name ->
  sess !! "signup_subdomain" = Some subdomain ->
  sess !! "signup_domain" = Some domain ->
  sess !! "signup_email" = Some owner_email ->
  sess !! "signup_owner_name" = Some owner_name ->
  sess !! "signup_password" = Some password ->
  sess !! "signup_plan" = Some plan ->
  let id := uuid_str u in
  let s := studio_row id name owner_email subdomain plan in
  let d := domain_row (uuid_str (draw_domain rnd)) id domain in
  persist_signup dialect bcrypt_hashpw sess brand_color typography logo_url
    photo_url id rnd (get_db_session st) =
  match hash_password bcrypt_hashpw password (draw_salt rnd) with
  | Raises e => Raises e
  | Returns h =>
      let o := owner_row (uuid_str (draw_user rnd)) id owner_name owner_email h in
      match check_studio dialect st s with
      | Some v => Raises (DatabaseError v)
      | None =>
      match check_domain_row dialect (add_studio s st) d with
      | Some v => Raises (DatabaseError v)
      | None =>
      match check_user dialect (add_domain d (add_studio s st)) o with
      | Some v => Raises (DatabaseError v)
      | None =>
      match length_check dialect
              (branding_cells brand_color typography logo_url photo_url) with
      | Some v => Raises (DatabaseError v)
      | None =>
          Returns
            (tt, get_db_session
                   (add_user o
                      (add_domain d
                         (add_studio
                            (branded brand_color typography logo_url photo_url s)
                            st))))
      end end end end
  end.
Proof.
  intros H1 H2 H3 H4 H5 H6 H7 id s d.
  unfold persist_signup, bind, lift, session_item.
  rewrite H1, H2, H3, H4, H5, H6, H7.
  destruct (hash_password bcrypt_hashpw password (draw_salt rnd)) as [h|e];
    [|reflexivity].
  cbv zeta. rewrite create_studio_run.
  change (chosen_id (Some id) (draw_spare rnd)) with id. fold s. fold d.
  destruct (check_studio dialect st s) eqn:Hs; [reflexivity|].
  destruct (check_domain_row dialect (add_studio s st) d); [reflexivity|].
  destruct (check_user dialect _ _); [reflexivity|].
  apply check_studio_none in Hs. destruct Hs as (_ & _ & _ & Hfresh & _).
  change (Studio.id s) with id in *.
  unfold assign_studio, ret, commit, flush, bind.
  destruct logo_url as [l|], photo_url as [ph|];
    cbn [db_committed db_txn db_new db_dirty add_user add_domain add_studio
         studios studio_domains users studio_features app insert_all
         branding_cells];
    destruct (length_check dialect _); try reflexivity;
    cbn [db_committed db_txn db_new db_dirty];
    repeat (rewrite update_new_studio; [|assumption|reflexivity]);
    reflexivity.
Qed.

(** ** Substrings *)

Lemma prefix_app (a b : string) : String.prefix a (a ++ b) = true.
Proof.
  induction a as [|c a IH]; simpl; [now destruct b|].
  destruct (ascii_dec c c); [exact IH|contradiction].
Qed.

Lemma prefix_split (a s : string) :
  String.prefix a s = true -> exists b, s = a ++ b.
Proof.
  revert s. induction a as [|c a IH]; intros s H.
  - exists s. reflexivity.
  - destruct s as [|c' s]; simpl in H; [discriminate|].
    destruct (ascii_dec c c') as [<-|]; [|discriminate].
    destruct (IH s H) as [b ->]. now exists b.
Qed.

Lemma contains_prefix (sub s : string) :
  String.prefix sub s = true -> Py.contains sub s = true.
Proof.
  intros H. destruct s; cbn [Py.contains]; now rewrite H.
Qed.

Lemma contains_iff (sub s : string) :
  Py.contains sub s = true <-> exists pre post, s = pre ++ sub ++ post.
Proof.
  split.
  - induction s as [|c s IH]; cbn [Py.contains]; intros H.
    + rewrite orb_false_r in H. apply prefix_split in H as [b ->].
      now exists "", b.
    + apply orb_true_iff in H as [H|H].
      * apply prefix_split in H as [b ->]. now exists "", b.
      * destruct (IH H) as (pre & post & ->). now exists (String c pre), post.
  - intros (pre & post & ->). induction pre as [|c pre IH].
    + change ("" ++ sub ++ post) with (sub ++ post).
      apply contains_prefix, prefix_app.
    + change (String c pre ++ sub ++ post) with (String c (pre ++ sub ++ post)).
      cbn [Py.contains]. rewrite IH. apply orb_true_r.
Qed.

Lemma append_assoc (a b c : string) : (a ++ b) ++ c = a ++ b ++ c.
Proof.
  induction a as [|x a IH]; [reflexivity|].
  change (String x ((a ++ b) ++ c) = String x (a ++ b ++ c)). now rewrite IH.
Qed.

Lemma contains_trans (a b s : string) :
  Py.contains a b = true -> Py.contains b s = true -> Py.contains a s = true.
Proof.
  rewrite !contains_iff. intros (p1 & q1 & ->) (p2 & q2 & ->).
  exists (p2 ++ p1), (q1 ++ q2). now rewrite !append_assoc.
Qed.

Lemma lower_app (a b : string) : Py.lower (a ++ b) = Py.lower a ++ Py.lower b.
Proof.
  induction a as [|c a IH]; [reflexivity|].
  change (String (Py.lower_char c) (Py.lower (a ++ b))
          = String (Py.lower_char c) (Py.lower a ++ Py.lower b)).
  now rewrite IH.
Qed.

Lemma contains_lower (a s : string) :
  Py.contains a s = true -> Py.contains (Py.lower a) (Py.lower s) = true.
Proof.
  rewrite !contains_iff. intros (pre & post & ->).
  exists (Py.lower pre), (Py.lower post). now rewrite !lower_app.
Qed.

(** A test for an index name adds nothing to the test for its lower-case
    tail in the lower-cased text. *)
Lemma index_test_absorbed (index tail text : string) :
  Py.contains tail (Py.lower index) = true ->
  Py.contains index text || Py.contains tail (Py.lower text)
  = Py.contains tail (Py.lower text).
Proof.
  intros Htail. destruct (Py.contains index text) eqn:E; [|reflexivity].
  cbn. symmetry. apply contains_trans with (b := Py.lower index);
    [assumption|now apply contains_lower].
Qed.

Lemma error_message_friendly (error_text : Violation -> string) (e : Exn)
    (sess : gmap string (option string)) :
  error_message error_text e sess = friendly_message (exn_str error_text e) sess.
Proof.
  unfold error_message, friendly_message. cbv zeta.
  now rewrite !index_test_absorbed by reflexivity.
Qed.

(** ** Step 3: when persisting fails *)

Lemma branding_attempt_uploads (dialect : Dialect)
    (bcrypt_hashpw : string -> string -> Outcome string)
    (req : Request) (rnd : Draws) (w : World) (a b : option string) :
  branding_attempt dialect bcrypt_hashpw req rnd (save_upload a (save_upload b w))
  = branding_attempt dialect bcrypt_hashpw req rnd w.
Proof. now destruct a, b. Qed.

Lemma save_upload_keeps (a : option string) (w : World) :
  store (save_upload a w) = store w /\
  session (save_upload a w) = session w /\
  flashes (save_upload a w) = flashes w.
Proof. now destruct a. Qed.

(** C2, as amended: when the [try] body of step 3 raises, whatever the
    reason, the committed store and the session are what they were, the
    branding page is rendered again, and the message shown and flashed is
    chosen by searching the lower-cased error text for "subdomain" and
    then for "studios_email"; any other text is shown as it is. *)
Theorem signup_branding_failure (dialect : Dialect)
    (error_text : Violation -> string)
    (bcrypt_hashpw : string -> string -> Outcome string)
    (req : Request) (rnd : Draws) (w : World) (e : Exn) :
  method req = POST ->
  session w !! "signup_plan" <> None ->
  branding_attempt dialect bcrypt_hashpw req rnd w = Raises e ->
  let msg := friendly_message (exn_str error_text e) (session w) in
  let out := signup_branding dialect error_text bcrypt_hashpw req rnd w in
  fst out = Render "signup/branding.html" (Some msg) /\
  store (snd out) = store w /\
  session (snd out) = session w /\
  flashes (snd out)
    = (flashes w ++ [(("Failed to create studio: " ++ msg)%string, "error")])%list.
Proof.
  intros Hm Hplan Hfail msg out. subst out. unfold signup_branding.
  destruct (session w !! "signup_plan") as [v|]; [|contradiction].
  rewrite Hm. cbv zeta. rewrite branding_attempt_uploads, Hfail.
  rewrite error_message_friendly.
  destruct (save_upload_keeps (snd (branding_uploads req rnd))
              (save_upload (fst (branding_uploads req rnd)) w)) as (Hs & Hk & Hf).
  destruct (save_upload_keeps (fst (branding_uploads req rnd)) w)
    as (Hs' & Hk' & Hf').
  cbn [fst snd flash store session flashes].
  rewrite Hs, Hk, Hf, Hs', Hk', Hf'. subst msg. repeat split; reflexivity.
Qed.

(** Jane signs up while a studio with her subdomain exists: the attempt
    fails on the unique subdomain and nothing is committed. *)
Lemma signup_branding_failure_witness :
  let w := jane_ready (add_studio rival_studio empty_store) in
  let out := signup_branding SQLite sample_error_text sample_hashpw
               (mkRequest POST ∅ ∅ ∅) sample_draws w in
  fst out =
    Render "signup/branding.html"
      (Some "The subdomain 'janes-photo-co' is already taken. Please go back and choose a different one.") /\
  store (snd out) = add_studio rival_studio empty_store /\
  session (snd out) = session w.
Proof.
  intros w out.
  destruct (signup_branding_failure SQLite sample_error_text sample_hashpw
              (mkRequest POST ∅ ∅ ∅) sample_draws w
              (DatabaseError (Duplicate "studios" "subdomain")))
    as (Hr & Hs & Hk & _).
  - reflexivity.
  - vm_compute. discriminate.
  - vm_compute. reflexivity.
  - subst out. rewrite Hr, Hs, Hk. repeat split; reflexivity.
Defined.

(** The claim as first stated fails where the text names an e-mail
    column of another table: a client already uses Jane's address, the
    INSERT of the owner breaks [users.email], the text contains "email",
    and the code still shows the raw text. *)
Lemma signup_branding_message_counterexample :
  let w := jane_ready (add_user jane_client empty_store) in
  let req := mkRequest POST ∅ ∅ ∅ in
  let e := DatabaseError (Duplicate "users" "email") in
  branding_attempt SQLite sample_hashpw req sample_draws w = Raises e /\
  Py.contains "email" (exn_str sample_error_text e) = true /\
  fst (signup_branding SQLite sample_error_text sample_hashpw req sample_draws w)
    = Render "signup/branding.html"
        (Some "UNIQUE constraint failed: users.email") /\
  fst (signup_branding SQLite sample_error_text sample_hashpw req sample_draws w)
    <> Render "signup/branding.html"
         (Some (spec_error_message (exn_str sample_error_text e) (session w))).
Proof.
  intros w req e. split; [vm_compute; reflexivity|].
  split; [vm_compute; reflexivity|].
  split; [vm_compute; reflexivity|].
  vm_compute. discriminate.
Qed.

(** ** The whole wizard *)

Lemma check_domain_row_new (dialect : Dialect) (st : Store) (s : Studio.t)
    (d : StudioDomain.t) :
  StudioDomain.studio_id d = Studio.id s ->
  check_domain_row dialect (add_studio s st) d = None <->
  domain_admissible dialect st d.
Proof.
  intros Hid. rewrite check_domain_row_none.
  change (domain_admissible dialect (add_studio s st) d)
    with (domain_admissible dialect st d).
  split; [now intros [H _]|]. intros H. split; [assumption|].
  intros p [= <-] _. exists s. split; [|now symmetry].
  cbn [add_studio studios]. apply in_app_iff. right. now left.
Qed.

Lemma check_user_new (dialect : Dialect) (st : Store) (s : Studio.t)
    (d : StudioDomain.t) (o : User.t) :
  User.studio_id o = Some (Studio.id s) ->
  check_user dialect (add_domain d (add_studio s st)) o = None <->
  user_admissible dialect st o.
Proof.
  intros Hid. rewrite check_user_none.
  change (user_admissible dialect (add_domain d (add_studio s st)) o)
    with (user_admissible dialect st o).
  split; [now intros [H _]|]. intros H. split; [assumption|].
  intros p Hp _. rewrite Hid in Hp. injection Hp as <-.
  exists s. split; [|reflexivity].
  cbn [add_domain add_studio studios]. apply in_app_iff. right. now left.
Qed.

Lemma popped_key (w : World) (k : string) :
  In k signup_keys ->
  session (fold_left (fun w' key => session_pop key w') signup_keys w) !! k = None.
Proof.
  intros Hk. cbn [fold_left signup_keys session_pop session].
  cbn [In signup_keys] in Hk.
  repeat (destruct Hk as [<-|Hk]; [by simplify_map_eq|]). destruct Hk.
Qed.

Lemma popped_other (w : World) (k : string) :
  ~ In k signup_keys ->
  session (fold_left (fun w' key => session_pop key w') signup_keys w) !! k
  = session w !! k.
Proof.
  intros Hk. cbn [fold_left signup_keys session_pop session].
  cbn [In signup_keys] in Hk.
  rewrite !lookup_delete_ne; [reflexivity|intros <-; apply Hk; tauto ..].
Qed.

(** The world after steps 1 and 2 of a valid signup. *)
Lemma wizard_steps (req1 req2 : Request) (w0 : World) (n p : string) :
  method req1 = POST ->
  form req1 !! "studio_name" = Some n ->
  form req1 !! "password" = Some p ->
  form req1 !! "confirm_password" = Some p ->
  (8 <= String.length p)%nat ->
  method req2 = POST ->
  let w1 := snd (signup req1 w0) in
  let w2 := snd (signup_plan req2 w1) in
  fst (signup req1 w0) = Redirect "signup_plan" None /\
  fst (signup_plan req2 w1) = Redirect "signup_branding" None /\
  store w2 = store w0 /\
  flashes w2 = flashes w0 /\
  saved_files w2 = saved_files w0 /\
  session w2 =
    <["signup_plan" := Some (default "starter" (form req2 !! "plan"))]>
      (<["signup_subdomain" := Some (spec_subdomain n)]>
         (<["signup_password" := Some p]>
            (<["signup_owner_name" := form req1 !! "owner_name"]>
               (<["signup_email" := form req1 !! "email"]>
                  (<["signup_domain" := form req1 !! "domain"]>
                     (<["signup_studio_name" := Some n]> (session w0))))))).
Proof.
  intros Hm Hn Hp Hc Hlen Hm2 w1 w2. subst w2 w1.
  rewrite (signup_accepts req1 w0 n p Hm Hn Hp Hc Hlen). cbn [fst snd].
  split; [reflexivity|].
  unfold signup_plan. cbn [session session_set].
  rewrite !lookup_insert_ne by done. rewrite lookup_insert_eq, Hm2.
  cbn [fst snd store flashes saved_files session session_set].
  now rewrite derive_subdomain_spec.
Qed.

(** The [try] body of step 3 after a valid step 1 and step 2. *)
Lemma wizard_attempt (dialect : Dialect)
    (bcrypt_hashpw : string -> string -> Outcome string)
    (req1 req2 req3 : Request) (rnd : Draws) (w0 : World)
    (n dom e o p : string) :
  method req1 = POST ->
  form req1 !! "studio_name" = Some n ->
  form req1 !! "domain" = Some dom ->
  form req1 !! "email" = Some e ->
  form req1 !! "owner_name" = Some o ->
  form req1 !! "password" = Some p ->
  form req1 !! "confirm_password" = Some p ->
  (8 <= String.length p)%nat ->
  method req2 = POST ->
  let sid := uuid_str (draw_studio rnd) in
  let s := studio_row sid (Some n) (Some e) (Some (spec_subdomain n))
             (Some (default "starter" (form req2 !! "plan"))) in
  let d := domain_row (uuid_str (draw_domain rnd)) sid (Some dom) in
  branding_attempt dialect bcrypt_hashpw req3 rnd
    (snd (signup_plan req2 (snd (signup req1 w0)))) =
  match bcrypt_hashpw p (draw_salt rnd) with
  | Raises x => Raises x
  | Returns h =>
      let u := owner_row (uuid_str (draw_user rnd)) sid (Some o) (Some e) h in
      match check_studio dialect (store w0) s with
      | Some v => Raises (DatabaseError v)
      | None =>
      match check_domain_row dialect (add_studio s (store w0)) d with
      | Some v => Raises (DatabaseError v)
      | None =>
      match check_user dialect (add_domain d (add_studio s (store w0))) u with
      | Some v => Raises (DatabaseError v)
      | None =>
      match length_check dialect (request_cells req3 rnd) with
      | Some v => Raises (DatabaseError v)
      | None =>
          Returns
            (tt, get_db_session
                   (add_user u
                      (add_domain d
                         (add_studio (request_branded req3 rnd s) (store w0)))))
      end end end end
  end.
Proof.
  intros Hm Hn Hdom He Ho Hp Hc Hlen Hm2 sid s d.
  destruct (wizard_steps req1 req2 w0 n p Hm Hn Hp Hc Hlen Hm2)
    as (_ & _ & Hstore & _ & _ & Hsess).
  unfold branding_attempt. cbv zeta. rewrite Hstore, Hsess, Hdom, He, Ho.
  rewrite (persist_signup_run dialect bcrypt_hashpw _
             (Some n) (Some (spec_subdomain n)) (Some dom) (Some e) (Some o)
             (Some p) (Some (default "starter" (form req2 !! "plan"))));
    try (rewrite ?lookup_insert_eq; rewrite ?lookup_insert_ne by done;
         rewrite ?lookup_insert_eq; reflexivity).
Qed.

Lemma popped_store (w : World) :
  store (fold_left (fun w' key => session_pop key w') signup_keys w) = store w.
Proof. reflexivity. Qed.

Lemma in_snoc_fresh {A} (rows : list A) (x r : A) (P : A -> Prop) :
  (forall y, In y rows -> ~ P y) -> In r (rows ++ [x]) -> P r -> r = x.
Proof.
  intros Hno Hin HP. apply in_app_iff in Hin as [Hin|[<-|[]]]; [|reflexivity].
  exfalso. exact (Hno r Hin HP).
Qed.

(** C1: a valid signup (every field present, the password equal to its
    confirmation and of at least 8 characters) passes steps 1 and 2;
    step 3 completes only if bcrypt hashes the password and the store
    accepts the three rows and the branding; and when it completes, the
    store has gained one studio, one primary unverified domain of it and
    one owner user of it (role [studio_owner], username the owner's
    e-mail), nothing else has changed, and the seven wizard keys are gone
    from the session.  Whether step 3 completes also depends on the
    upload directory taking the files (lines 104, 117 and 128, before the
    [try]), which is why the condition is necessary only. *)
Theorem wizard_creates_tenant (dialect : Dialect)
    (error_text : Violation -> string)
    (bcrypt_hashpw : string -> string -> Outcome string)
    (req1 req2 req3 : Request) (rnd : Draws) (w0 : World)
    (n dom e o p : string) :
  method req1 = POST ->
  form req1 !! "studio_name" = Some n ->
  form req1 !! "domain" = Some dom ->
  form req1 !! "email" = Some e ->
  form req1 !! "owner_name" = Some o ->
  form req1 !! "password" = Some p ->
  form req1 !! "confirm_password" = Some p ->
  (8 <= String.length p)%nat ->
  method req2 = POST ->
  method req3 = POST ->
  let sid := uuid_str (draw_studio rnd) in
  let s := studio_row sid (Some n) (Some e) (Some (spec_subdomain n))
             (Some (default "starter" (form req2 !! "plan"))) in
  let d := domain_row (uuid_str (draw_domain rnd)) sid (Some dom) in
  let owner := owner_row (uuid_str (draw_user rnd)) sid (Some o) (Some e) in
  let w1 := snd (signup req1 w0) in
  let w2 := snd (signup_plan req2 w1) in
  let out := signup_branding dialect error_text bcrypt_hashpw req3 rnd w2 in
  fst (signup req1 w0) = Redirect "signup_plan" None /\
  fst (signup_plan req2 w1) = Redirect "signup_branding" None /\
  (fst out = Redirect "signup_complete" (Some sid) ->
   exists h, bcrypt_hashpw p (draw_salt rnd) = Returns h /\
             signup_accepted dialect (store w0) s d (owner h)
               (request_cells req3 rnd)) /\
  (fst out = Redirect "signup_complete" (Some sid) ->
   exists s' d' o',
     studios (store (snd out)) = (studios (store w0) ++ [s'])%list /\
     studio_domains (store (snd out)) = (studio_domains (store w0) ++ [d'])%list /\
     users (store (snd out)) = (users (store w0) ++ [o'])%list /\
     studio_features (store (snd out)) = studio_features (store w0) /\
     (Studio.id s' = sid /\ Studio.name s' = Some n /\
      Studio.email s' = Some e /\
      Studio.subdomain s' = Some (spec_subdomain n)) /\
     (StudioDomain.studio_id d' = sid /\ StudioDomain.domain d' = Some dom /\
      StudioDomain.is_primary d' = Some true /\
      StudioDomain.is_verified d' = Some false) /\
     (User.studio_id o' = Some sid /\ User.role o' = Some "studio_owner" /\
      User.username o' = Some e /\ User.email o' = Some e /\
      User.name o' = Some o) /\
     (forall r, In r (studios (store (snd out))) -> Studio.id r = sid -> r = s') /\
     ((forall r, In r (studio_domains (store w0)) ->
         exists q, In q (studios (store w0)) /\
                   Studio.id q = StudioDomain.studio_id r) ->
      forall r, In r (studio_domains (store (snd out))) ->
        StudioDomain.studio_id r = sid -> r = d') /\
     ((forall r x, In r (users (store w0)) -> User.studio_id r = Some x ->
         exists q, In q (studios (store w0)) /\ Studio.id q = x) ->
      forall r, In r (users (store (snd out))) ->
        User.studio_id r = Some sid -> r = o') /\
     (forall k, In k signup_keys -> session (snd out) !! k = None) /\
     (forall k, ~ In k signup_keys -> session (snd out) !! k = session w0 !! k)).
Proof.
  intros Hm Hn Hdom He Ho Hp Hc Hlen Hm2 Hm3 sid s d owner w1 w2 out.
  destruct (wizard_steps req1 req2 w0 n p Hm Hn Hp Hc Hlen Hm2)
    as (R1 & R2 & Hstore & _ & _ & Hsess).
  fold w1 in R2, Hstore, Hsess. fold w2 in Hstore, Hsess.
  split; [exact R1|]. split; [exact R2|].
  pose proof (wizard_attempt dialect bcrypt_hashpw req1 req2 req3 rnd w0
                n dom e o p Hm Hn Hdom He Ho Hp Hc Hlen Hm2) as Hatt.
  cbv zeta in Hatt. fold w1 in Hatt. fold w2 in Hatt.
  fold sid in Hatt. fold s in Hatt. fold d in Hatt. fold owner in Hatt.
  assert (Hout : out =
    match branding_attempt dialect bcrypt_hashpw req3 rnd w2 with
    | Returns (_, db) =>
        (Redirect "signup_complete" (Some sid),
         fold_left (fun w' key => session_pop key w') signup_keys
           (with_store (db_committed db)
              (save_upload (snd (branding_uploads req3 rnd))
                 (save_upload (fst (branding_uploads req3 rnd)) w2))))
    | Raises x =>
        (Render "signup/branding.html"
           (Some (error_message error_text x (session w2))),
         flash ("Failed to create studio: "
                ++ error_message error_text x (session w2)) "error"
           (save_upload (snd (branding_uploads req3 rnd))
              (save_upload (fst (branding_uploads req3 rnd)) w2)))
    end).
  { subst out. unfold signup_branding. rewrite Hsess, lookup_insert_eq, Hm3.
    cbv zeta. rewrite branding_attempt_uploads.
    destruct (branding_attempt _ _ _ _ _) as [[? db]|x]; [reflexivity|].
    destruct (save_upload_keeps (snd (branding_uploads req3 rnd))
                (save_upload (fst (branding_uploads req3 rnd)) w2)) as (_ & -> & _).
    destruct (save_upload_keeps (fst (branding_uploads req3 rnd)) w2)
      as (_ & -> & _).
    now rewrite Hsess. }
  rewrite Hatt in Hout. clear Hatt.
  assert (Hbad : forall (Q1 Q2 : Prop) x w',
    out = (Render "signup/branding.html" x, w') ->
    (fst out = Redirect "signup_complete" (Some sid) -> Q1) /\
    (fst out = Redirect "signup_complete" (Some sid) -> Q2)).
  { intros Q1 Q2 x w' ->. cbn [fst]. split; discriminate. }
  destruct (bcrypt_hashpw p (draw_salt rnd)) as [h|x] eqn:Hh.
  2:{ eapply Hbad; exact Hout. }
  cbv zeta in Hout.
  destruct (check_studio dialect (store w0) s) as [v|] eqn:Hcs.
  { eapply Hbad; exact Hout. }
  destruct (check_domain_row dialect (add_studio s (store w0)) d) as [v|] eqn:Hcd.
  { eapply Hbad; exact Hout. }
  destruct (check_user dialect (add_domain d (add_studio s (store w0))) (owner h))
    as [v|] eqn:Hcu.
  { eapply Hbad; exact Hout. }
  destruct (length_check dialect (request_cells req3 rnd)) as [v|] eqn:Hcl.
  { eapply Hbad; exact Hout. }
  clear Hbad. rewrite Hout. cbn [fst snd].
  apply check_studio_none in Hcs.
  apply (check_domain_row_new dialect (store w0) s d eq_refl) in Hcd.
  apply (check_user_new dialect (store w0) s d (owner h) eq_refl) in Hcu.
  apply length_check_none in Hcl.
  split.
  { intros _. exists h. split; [reflexivity|].
    exact (conj Hcs (conj Hcd (conj Hcu Hcl))). }
  intros _. exists (request_branded req3 rnd s), d, (owner h).
  rewrite popped_store.
  cbn [with_store store get_db_session db_committed add_user add_domain
       add_studio studios studio_domains users studio_features].
  assert (Hfresh : forall r, In r (studios (store w0)) -> Studio.id r <> sid)
    by apply Hcs.
  split; [reflexivity|]. split; [reflexivity|]. split; [reflexivity|].
  split; [reflexivity|].
  split.
  { unfold request_branded, branded.
    destruct (upload_url (fst _)), (upload_url (snd _)); repeat split. }
  split; [repeat split|]. split; [repeat split|].
  split.
  { intros r Hr Hid.
    apply (in_snoc_fresh (studios (store w0)) (request_branded req3 rnd s) r
             (fun y => Studio.id y = sid) Hfresh Hr Hid). }
  split.
  { intros Hfk r Hr Hid.
    apply (in_snoc_fresh (studio_domains (store w0)) d r
             (fun y => StudioDomain.studio_id y = sid));
      [|assumption|assumption].
    intros y Hy Hyid. destruct (Hfk y Hy) as (q & Hq & Hqid).
    apply (Hfresh q Hq). congruence. }
  split.
  { intros Hfk r Hr Hid.
    apply (in_snoc_fresh (users (store w0)) (owner h) r
             (fun y => User.studio_id y = Some sid));
      [|assumption|assumption].
    intros y Hy Hyid. destruct (Hfk y sid Hy Hyid) as (q & Hq & Hqid).
    exact (Hfresh q Hq Hqid). }
  split.
  { intros k Hk. now apply popped_key. }
  intros k Hk. rewrite popped_other by assumption.
  cbn [with_store session].
  destruct (save_upload_keeps (snd (branding_uploads req3 rnd))
              (save_upload (fst (branding_uploads req3 rnd)) w2)) as (_ & -> & _).
  destruct (save_upload_keeps (fst (branding_uploads req3 rnd)) w2)
    as (_ & -> & _).
  rewrite Hsess. cbn [In signup_keys] in Hk.
  rewrite !lookup_insert_ne; [reflexivity|intros <-; apply Hk; tauto ..].
Qed.

Lemma wizard_creates_tenant_witness :
  let out := signup_branding PostgreSQL sample_error_text sample_hashpw
               (mkRequest POST ∅ ∅ ∅) sample_draws (jane_ready empty_store) in
  fst out = Redirect "signup_complete" (Some (uuid_str 1)) /\
  (exists s' d' o',
     studios (store (snd out)) = [s'] /\
     studio_domains (store (snd out)) = [d'] /\
     users (store (snd out)) = [o'] /\
     StudioDomain.studio_id d' = Studio.id s' /\
     User.studio_id o' = Some (Studio.id s')) /\
  (forall k, In k signup_keys -> session (snd out) !! k = None).
Proof.
  intros out.
  pose proof (wizard_creates_tenant PostgreSQL sample_error_text sample_hashpw
                (mkRequest POST jane_form ∅ ∅) (mkRequest POST ∅ ∅ ∅)
                (mkRequest POST ∅ ∅ ∅) sample_draws
                (with_store empty_store blank_world)
                "Jane's Photo Co" "jane.example.com" "jane@example.com"
                "Jane Roe" "correct horse") as H.
  do 7 (specialize (H eq_refl)).
  assert (Hl : (8 <= String.length "correct horse")%nat) by (vm_compute; lia).
  specialize (H Hl eq_refl eq_refl). cbv zeta in H.
  destruct H as (_ & _ & _ & Hpost).
  assert (Hdone : fst out = Redirect "signup_complete" (Some (uuid_str 1)))
    by (vm_compute; reflexivity).
  split; [exact Hdone|].
  specialize (Hpost Hdone).
  destruct Hpost
    as (s' & d' & o' & Hs & Hd & Hu & _ & (Hsid & _) & (Hdid & _) & (Huid & _)
        & _ & _ & _ & Hkeys & _).
  split; [|exact Hkeys].
  exists s', d', o'.
  split; [exact Hs|]. split; [exact Hd|]. split; [exact Hu|].
  split; [now rewrite Hdid, Hsid|now rewrite Huid, Hsid].
Defined.

(** ** Passwords

    What [verify_password] adds to [bcrypt.checkpw]: it passes a returned
    answer on and turns every exception into [False]. *)

Lemma verify_password_returns
    (bcrypt_checkpw : string -> string -> Outcome bool)
    (password hashed : string) (b : bool) :
  bcrypt_checkpw password hashed = Returns b ->
  verify_password bcrypt_checkpw (Some password) (Some hashed) = b.
Proof. intros H. unfold verify_password. now rewrite H. Qed.

Lemma verify_password_raises
    (bcrypt_checkpw : string -> string -> Outcome bool)
    (password hashed : string) (e : Exn) :
  bcrypt_checkpw password hashed = Raises e ->
  verify_password bcrypt_checkpw (Some password) (Some hashed) = false.
Proof. intros H. unfold verify_password. now rewrite H. Qed.

Lemma verify_password_no_hash
    (bcrypt_checkpw : string -> string -> Outcome bool)
    (password : option string) :
  verify_password bcrypt_checkpw password None = false.
Proof. now destruct password. Qed.

(** * Further properties *)

(** ** The shape of a derived subdomain *)

Lemma contains_char_cons (c d : ascii) (r : string) :
  Py.contains (String c EmptyString) (String d r)
  = Ascii.eqb c d || Py.contains (String c EmptyString) r.
Proof. cbn [Py.contains]. now rewrite prefix_one. Qed.

(** X1: The subdomain [signup] derives has no space and no apostrophe,
    and so has what line 67 gives over any alphabet in which the hyphen
    is not the space, for any lower-casing function. *)
Theorem derive_subdomain_shape (studio_name : string) :
  Py.contains " " (derive_subdomain studio_name) = false /\
  Py.contains "'" (derive_subdomain studio_name) = false /\
  forall (A : Type) (same : A -> A -> bool) (space hyphen apostrophe : A)
         (lower_in : list A -> list A) (name : list A),
    (forall a b, same a b = true <-> a = b) ->
    hyphen <> space ->
    ~ In space (derive_subdomain_in same space hyphen apostrophe lower_in name) /\
    ~ In apostrophe
        (derive_subdomain_in same space hyphen apostrophe lower_in name).
Proof.
  rewrite !contains_char_in, derive_subdomain_generic.
  split; [|split].
  - now apply (derive_subdomain_in_shape Ascii.eqb ascii_eqb_spec).
  - now apply (derive_subdomain_in_shape Ascii.eqb ascii_eqb_spec).
  - intros A same space hyphen apostrophe lower_in name Hsame Hhs.
    now apply derive_subdomain_in_shape.
Qed.

Lemma derive_subdomain_shape_witness :
  Py.contains " " "oneil-&-sons-photo" = false /\
  Py.contains "'" "oneil-&-sons-photo" = false /\
  ~ In 32%N [105%N; 775%N; 115%N; 45%N; 99%N; 111%N].
Proof.
  destruct (derive_subdomain_shape "O'Neil & Sons Photo") as (H1 & H2 & Hany).
  destruct (Hany N N.eqb 32%N 45%N 39%N lower_code_points
              [304%N; 39%N; 83%N; 32%N; 67%N; 111%N] N.eqb_eq)
    as [Hs _]; [discriminate|].
  split; [exact H1|]. split; [exact H2|exact Hs].
Defined.

(** ** Upload names stay inside the upload directory *)

Lemma contains_char_app (c : ascii) (a b : string) :
  Py.contains (String c EmptyString) (a ++ b)
  = Py.contains (String c EmptyString) a || Py.contains (String c EmptyString) b.
Proof.
  induction a as [|d a IH].
  - change ("" ++ b) with b. now destruct b.
  - change (String d a ++ b) with (String d (a ++ b)).
    rewrite !contains_char_cons, IH. now rewrite orb_assoc.
Qed.

Lemma hex_digit_no_slash (n : N) : Ascii.eqb "/" (hex_digit n) = false.
Proof.
  destruct n as [|p]; [reflexivity|].
  do 4 (destruct p as [p|p|]; try reflexivity).
Qed.

Lemma uuid_str_no_slash (u : N) : Py.contains "/" (uuid_str u) = false.
Proof.
  unfold uuid_str, nibble. cbv zeta.
  rewrite !contains_char_cons, !hex_digit_no_slash. reflexivity.
Qed.

Lemma rindex_none (c : ascii) (s : string) :
  rindex c s = None -> Py.contains (String c EmptyString) s = false.
Proof.
  induction s as [|d r IH]; [reflexivity|]. cbn [rindex].
  destruct (rindex c r); [discriminate|].
  destruct (Ascii.eqb c d) eqn:E; [discriminate|]. intros _.
  now rewrite contains_char_cons, E, IH.
Qed.

Lemma rindex_some (c : ascii) (s : string) (i : nat) :
  rindex c s = Some i -> Py.contains (String c EmptyString) (drop_str (S i) s) = false.
Proof.
  revert i. induction s as [|d r IH]; intros i; [discriminate|]. cbn [rindex].
  destruct (rindex c r) as [j|] eqn:Hr.
  - intros [= <-]. cbn [drop_str]. now apply IH.
  - destruct (Ascii.eqb c d); [|discriminate]. intros [= <-].
    cbn [drop_str]. now apply rindex_none.
Qed.

Lemma drop_str_no_char (c : ascii) (s : string) (n m : nat) :
  (n <= m)%nat ->
  Py.contains (String c EmptyString) (drop_str n s) = false ->
  Py.contains (String c EmptyString) (drop_str m s) = false.
Proof.
  revert n m. induction s as [|d r IH]; intros n m Hle H.
  - now destruct m.
  - destruct m as [|m].
    + assert (n = 0)%nat as -> by lia. exact H.
    + destruct n as [|n]; cbn [drop_str] in *.
      * rewrite contains_char_cons in H. apply orb_false_iff in H as [_ H].
        apply (IH 0%nat m); [lia|]. now destruct r.
      * apply (IH n m); [lia|assumption].
Qed.

Lemma splitext_ext_no_slash (p : string) :
  Py.contains "/" (splitext_ext p) = false.
Proof.
  unfold splitext_ext.
  destruct (rindex "." p) as [dot|]; [|reflexivity].
  destruct (rindex "/" p) as [i|] eqn:Hs.
  - destruct (S i <=? dot)%nat eqn:Hle; [|reflexivity].
    destruct (all_dots _); [reflexivity|].
    apply Nat.leb_le in Hle.
    apply (drop_str_no_char "/" p (S i) dot Hle). now apply rindex_some.
  - cbn [Nat.leb]. destruct (all_dots _); [reflexivity|].
    apply (drop_str_no_char "/" p 0 dot); [lia|].
    destruct p; now apply rindex_none.
Qed.

(** X2: Whatever file names a browser sends, the names under which
    [signup_branding] saves the logo and the studio photo contain no
    ["/"]: an upload cannot leave the upload directory, although
    [secure_filename] is imported and never called. *)
Theorem upload_names_have_no_separator (req : Request) (rnd : Draws) (name : string) :
  fst (branding_uploads req rnd) = Some name \/
  snd (branding_uploads req rnd) = Some name ->
  Py.contains "/" name = false.
Proof.
  unfold branding_uploads, upload_name. cbn [fst snd].
  assert (Hname : forall suffix ext fallback,
            Py.contains "/" suffix = false ->
            Py.contains "/" fallback = false ->
            Py.contains "/" ext = false ->
            Py.contains "/" (uuid_str (draw_studio rnd) ++ suffix ++
                             Py.str_or ext fallback) = false).
  { intros suffix ext fallback Hs Hf He.
    rewrite !contains_char_app, uuid_str_no_slash, Hs. unfold Py.str_or.
    now destruct (Py.truthy ext). }
  intros [H|H].
  - destruct (opt_eqb _ _); [discriminate|].
    destruct (files req !! "logo") as [f|]; [|discriminate].
    destruct (Py.truthy (filename f)); [|discriminate]. injection H as <-.
    apply Hname; [reflexivity|reflexivity|apply splitext_ext_no_slash].
  - destruct (opt_eqb (form req !! "skip_photo") _); [discriminate|].
    destruct (files req !! "studio_photo") as [f|]; [|discriminate].
    destruct (Py.truthy (filename f)); [|discriminate]. injection H as <-.
    apply Hname; [reflexivity|reflexivity|apply splitext_ext_no_slash].
Qed.

Lemma upload_names_have_no_separator_witness :
  fst (branding_uploads climbing_upload sample_draws)
    = Some "00000000-0000-0000-0000-000000000001_logo.sh" /\
  Py.contains "/" "00000000-0000-0000-0000-000000000001_logo.sh" = false.
Proof.
  assert (H : fst (branding_uploads climbing_upload sample_draws)
              = Some "00000000-0000-0000-0000-000000000001_logo.sh")
    by (vm_compute; reflexivity).
  split; [exact H|].
  apply (upload_names_have_no_separator climbing_upload sample_draws).
  left. exact H.
Defined.

(** ** The admin session *)

(** X3: [admin_login] lets in exactly the credentials [check_admin_password]
    accepts, and only on a POST; a refused attempt leaves the login flag
    as it was.  Behind [admin_required], a route runs after a successful
    login and not at all after a logout: the visitor is sent to the login
    page with a warning and the store is not touched. *)
Theorem admin_gate (ADMIN_USERNAME ADMIN_PASSWORD : string) (req : Request)
    (site : Site) (f : Site -> View * Site) :
  let out := admin_login ADMIN_USERNAME ADMIN_PASSWORD req site in
  let gone := snd (admin_logout site) in
  (fst out = Plain (Redirect "admin_dashboard" None) <->
   method req = POST /\
   check_admin_password ADMIN_USERNAME ADMIN_PASSWORD
     (form req !! "username") (form req !! "password") = true) /\
  (fst out = Plain (Redirect "admin_dashboard" None) ->
   admin_required f (snd out) = f (snd out)) /\
  (fst out <> Plain (Redirect "admin_dashboard" None) ->
   admin_logged_in (snd out) = admin_logged_in site) /\
  fst (admin_required f gone) = Plain (Redirect "admin_login" None) /\
  store (world (snd (admin_required f gone))) = store (world site) /\
  admin_logged_in (snd (admin_required f gone)) = None.
Proof.
  intros out gone. subst out gone.
  unfold admin_login, check_admin_password.
  destruct (method req); cbn [fst snd].
  - repeat split; try (intros [? ?]; discriminate); try discriminate.
  - destruct (opt_eqb (form req !! "username") (Some ADMIN_USERNAME) &&
              opt_eqb (form req !! "password") (Some ADMIN_PASSWORD));
      cbn [fst snd].
    + repeat split; intros; congruence.
    + repeat split; try (intros [? ?]; discriminate); try discriminate.
Qed.

Lemma admin_gate_witness :
  admin_required (fun s => (Plain (Render "admin/studios.html" None), s))
    (snd (admin_login "admin" "admin123" (admin_form "admin" "admin123") visitor))
  = (Plain (Render "admin/studios.html" None),
     snd (admin_login "admin" "admin123" (admin_form "admin" "admin123") visitor)).
Proof.
  destruct (admin_gate "admin" "admin123" (admin_form "admin" "admin123") visitor
              (fun s => (Plain (Render "admin/studios.html" None), s)))
    as (_ & H & _).
  apply H. reflexivity.
Defined.

(** ** Running the admin actions *)

Lemma admin_route_run {A} (body : DB A) (k : A -> World -> View * World)
    (site : Site) (a : A) (st : Store) :
  flag_truthy (admin_logged_in site) = true ->
  body (get_db_session (store (world site))) = Returns (a, get_db_session st) ->
  admin_required (lift_world (fun w => with_db body w k)) site =
  (fst (k a (with_store st (world site))),
   mkSite (snd (k a (with_store st (world site)))) (admin_logged_in site)).
Proof.
  intros Hin Hrun. unfold admin_required, lift_world, with_db.
  rewrite Hin, Hrun. reflexivity.
Qed.

Lemma find_update_rows {A} (key : A -> string) (x : string) (f : A -> A)
    (rows : list A) :
  (forall r, key (f r) = key r) ->
  List.find (fun r => String.eqb (key r) x) (update_rows key x f rows)
  = option_map f (List.find (fun r => String.eqb (key r) x) rows).
Proof.
  intros Hkey. induction rows as [|a rows IH]; [reflexivity|].
  cbn [update_rows List.map List.find].
  destruct (String.eqb (key a) x) eqn:E.
  - now rewrite Hkey, E.
  - rewrite E. exact IH.
Qed.

Lemma update_rows_compose {A} (key : A -> string) (x : string) (f g : A -> A)
    (rows : list A) :
  (forall r, key (f r) = key r) ->
  update_rows key x g (update_rows key x f rows)
  = update_rows key x (fun r => g (f r)) rows.
Proof.
  intros Hkey. unfold update_rows. rewrite List.map_map.
  apply List.map_ext. intros r.
  destruct (String.eqb (key r) x) eqn:E; [now rewrite Hkey, E|now rewrite E].
Qed.

Lemma update_rows_ext {A} (key : A -> string) (x : string) (f g : A -> A)
    (rows : list A) :
  (forall r, In r rows -> key r = x -> f r = g r) ->
  update_rows key x f rows = update_rows key x g rows.
Proof.
  intros H. apply List.map_ext_in. intros r Hr.
  destruct (String.eqb (key r) x) eqn:E; [|reflexivity].
  apply H; [assumption|now apply String.eqb_eq].
Qed.

Lemma update_rows_same {A} (key : A -> string) (x : string) (f : A -> A)
    (rows : list A) :
  (forall r, In r rows -> key r = x -> f r = r) ->
  update_rows key x f rows = rows.
Proof.
  intros H. rewrite <- (List.map_id rows) at 2.
  apply List.map_ext_in. intros r Hr.
  destruct (String.eqb (key r) x) eqn:E; [|reflexivity].
  apply H; [assumption|now apply String.eqb_eq].
Qed.

(** With unique keys a key names one row. *)
Lemma unique_key {A} (key : A -> string) (rows : list A) (r s : A) :
  List.NoDup (List.map key rows) -> In r rows -> In s rows -> key r = key s ->
  r = s.
Proof.
  induction rows as [|a rows IH]; intros Hnd Hr Hs Hk; [destruct Hr|].
  cbn [List.map] in Hnd. apply List.NoDup_cons_iff in Hnd as [Hnot Hnd].
  destruct Hr as [<-|Hr], Hs as [<-|Hs]; try reflexivity.
  - exfalso. apply Hnot. rewrite Hk. now apply in_map.
  - exfalso. apply Hnot. rewrite <- Hk. now apply in_map.
  - now apply IH.
Qed.

Lemma toggle_studio_body_run (dialect : Dialect) (studio_id : string) (st : Store) :
  toggle_studio_body dialect studio_id (get_db_session st)
  = Returns (toggled_value studio_id st, get_db_session (toggled studio_id st)).
Proof.
  unfold toggle_studio_body, bind, get_studio_by_id, toggled, toggled_value.
  cbn [get_db_session db_txn]. fold (has_studio_id studio_id).
  change (fun r => has_studio_id studio_id r) with (has_studio_id studio_id).
  destruct (List.find (has_studio_id studio_id) (studios st)) as [s|] eqn:Hf;
    [|reflexivity].
  apply find_some in Hf as [_ Hid]. apply String.eqb_eq in Hid.
  cbn [option_map load loaded_studio]. rewrite Hid.
  unfold assign_studio. cbn [db_txn db_committed db_new db_dirty app].
  now rewrite commit_clean.
Qed.

Lemma toggle_studio_run (dialect : Dialect) (studio_id : string) (site : Site) :
  flag_truthy (admin_logged_in site) = true ->
  let st := store (world site) in
  let w' := with_store (toggled studio_id st) (world site) in
  toggle_studio dialect studio_id site =
  (Plain (Redirect "admin_studios" None),
   mkSite
     match toggled_value studio_id st with
     | Some v =>
         flash ("Studio " ++ (if v then "enabled" else "disabled")) "success" w'
     | None => w'
     end
     (admin_logged_in site)).
Proof.
  intros Hin st w'. unfold toggle_studio.
  rewrite (admin_route_run _ _ site _ _ Hin
             (toggle_studio_body_run dialect studio_id (store (world site)))).
  reflexivity.
Qed.

Lemma find_studio_unique (studio_id : string) (rows : list Studio.t) (s : Studio.t) :
  List.NoDup (List.map Studio.id rows) -> In s rows -> Studio.id s = studio_id ->
  List.find (has_studio_id studio_id) rows = Some s.
Proof.
  intros Hnd Hin Hid.
  destruct (find_some_id Studio.id studio_id rows) as (r & Hf & Hr & Hrid);
    [now exists s|].
  unfold has_studio_id. rewrite Hf. f_equal.
  apply (unique_key Studio.id rows r s Hnd Hr Hin). congruence.
Qed.

(** ** Enabling and disabling a studio *)

Lemma in_update_rows {A} (key : A -> string) (x : string) (f : A -> A)
    (rows : list A) (r : A) :
  In r (update_rows key x f rows) ->
  exists r0, In r0 rows /\ r = if String.eqb (key r0) x then f r0 else r0.
Proof.
  intros Hr. apply in_map_iff in Hr as (r0 & <- & Hr0). now exists r0.
Qed.

(** An update by key reaches the rows with that key only. *)
Lemma in_update_rows_other {A} (key : A -> string) (x : string) (f : A -> A)
    (rows : list A) (r : A) :
  (forall y, key (f y) = key y) -> key r <> x ->
  In r (update_rows key x f rows) <-> In r rows.
Proof.
  intros Hkey Hne. split.
  - intros Hr. apply in_update_rows in Hr as (r0 & Hr0 & ->).
    destruct (String.eqb (key r0) x) eqn:E; [|assumption].
    exfalso. apply Hne. rewrite Hkey. now apply String.eqb_eq.
  - intros Hr. apply in_map_iff. exists r. split; [|assumption].
    apply String.eqb_neq in Hne. now rewrite Hne.
Qed.

Lemma in_update_rows_key {A} (key : A -> string) (x : string) (f : A -> A)
    (rows : list A) (r : A) :
  (forall y, key (f y) = key y) -> key r = x ->
  In r (update_rows key x f rows) ->
  exists r0, In r0 rows /\ key r0 = x /\ r = f r0.
Proof.
  intros Hkey Hx Hr. apply in_update_rows in Hr as (r0 & Hr0 & ->).
  destruct (String.eqb (key r0) x) eqn:E.
  - exists r0. apply String.eqb_eq in E. now repeat split.
  - apply String.eqb_neq in E. contradiction.
Qed.

Lemma keys_update_rows {A} (key : A -> string) (x : string) (f : A -> A)
    (rows : list A) :
  (forall y, key (f y) = key y) ->
  List.map key (update_rows key x f rows) = List.map key rows.
Proof.
  intros Hkey. unfold update_rows. rewrite List.map_map.
  apply List.map_ext. intros r. now destruct (String.eqb (key r) x).
Qed.

(** What the two calls write. *)
Lemma toggle_studio_stores (dialect : Dialect) (studio_id : string) (site : Site)
    (s : Studio.t) (b : bool) :
  flag_truthy (admin_logged_in site) = true ->
  List.NoDup (List.map Studio.id (studios (store (world site)))) ->
  In s (studios (store (world site))) ->
  Studio.id s = studio_id ->
  Studio.is_active s = Some b ->
  let st := store (world site) in
  let once := snd (toggle_studio dialect studio_id site) in
  let twice := snd (toggle_studio dialect studio_id once) in
  store (world once) =
    set_studios (update_rows Studio.id studio_id (set_is_active (Some (negb b)))
                   (studios st)) st /\
  store (world twice) =
    set_studios
      (update_rows Studio.id studio_id (set_is_active (Some b))
         (update_rows Studio.id studio_id (set_is_active (Some (negb b)))
            (studios st))) st /\
  flashes (world twice) =
    (flashes (world site) ++
     [ (("Studio " ++ (if b then "disabled" else "enabled"))%string, "success");
       (("Studio " ++ (if b then "enabled" else "disabled"))%string, "success") ])%list.
Proof.
  intros Hin Hnd Hs Hid Hact st once twice.
  pose proof (find_studio_unique studio_id _ s Hnd Hs Hid) as Hfind.
  assert (Hv : toggled_value studio_id (store (world site)) = Some (negb b)).
  { unfold toggled_value. rewrite Hfind. cbn. now rewrite Hact. }
  assert (Honce : once =
    mkSite (flash ("Studio " ++ (if negb b then "enabled" else "disabled"))
              "success"
              (with_store (toggled studio_id (store (world site))) (world site)))
      (admin_logged_in site)).
  { subst once. rewrite (toggle_studio_run dialect studio_id site Hin).
    cbn [snd]. now rewrite Hv. }
  assert (Hst1 : store (world once) =
    set_studios (update_rows Studio.id studio_id (set_is_active (Some (negb b)))
                   (studios (store (world site)))) (store (world site))).
  { rewrite Honce. cbn [world flash with_store store].
    unfold toggled. now rewrite Hv. }
  assert (Hv2 : toggled_value studio_id (store (world once)) = Some b).
  { unfold toggled_value. rewrite Hst1. cbn [set_studios studios].
    unfold has_studio_id.
    rewrite (find_update_rows Studio.id studio_id
               (set_is_active (Some (negb b))) _ (fun r => eq_refl)).
    fold (has_studio_id studio_id).
    change (fun r => has_studio_id studio_id r) with (has_studio_id studio_id).
    rewrite Hfind. cbn. now rewrite negb_involutive. }
  split; [exact Hst1|split].
  - subst twice.
    rewrite (toggle_studio_run dialect studio_id once)
      by (rewrite Honce; exact Hin).
    cbn [snd]. rewrite Hv2. cbn [world flash with_store store].
    unfold toggled. rewrite Hv2, Hst1. reflexivity.
  - subst twice.
    rewrite (toggle_studio_run dialect studio_id once)
      by (rewrite Honce; exact Hin).
    cbn [snd]. rewrite Hv2. cbn [world flash with_store flashes].
    rewrite Honce. cbn [world flash with_store flashes].
    rewrite <- app_assoc. now destruct b.
Qed.

(** X4: For a logged-in admin and a store with unique studio ids,
    [toggle_studio] flips [is_active] of the studio and a second call
    sets it back to what it was; the studios with another id, the
    domains, the users and the features are the rows they were; the two
    flashes name the new state each time.  (Each of the two UPDATEs also
    moves the row's [updated_at], a column the model does not keep: the
    row is not claimed to be what it was.) *)
Theorem toggle_studio_twice (dialect : Dialect) (studio_id : string) (site : Site)
    (s : Studio.t) (b : bool) :
  flag_truthy (admin_logged_in site) = true ->
  List.NoDup (List.map Studio.id (studios (store (world site)))) ->
  In s (studios (store (world site))) ->
  Studio.id s = studio_id ->
  Studio.is_active s = Some b ->
  let st := store (world site) in
  let once := store (world (snd (toggle_studio dialect studio_id site))) in
  let twice :=
    store (world (snd (toggle_studio dialect studio_id
                         (snd (toggle_studio dialect studio_id site))))) in
  (forall r, In r (studios once) -> Studio.id r = studio_id ->
     Studio.is_active r = Some (negb b)) /\
  (forall r, In r (studios twice) -> Studio.id r = studio_id ->
     Studio.is_active r = Some b) /\
  List.map Studio.id (studios once) = List.map Studio.id (studios st) /\
  List.map Studio.id (studios twice) = List.map Studio.id (studios st) /\
  (forall r, Studio.id r <> studio_id ->
     (In r (studios once) <-> In r (studios st)) /\
     (In r (studios twice) <-> In r (studios st))) /\
  (studio_domains once = studio_domains st /\ users once = users st /\
   studio_features once = studio_features st) /\
  (studio_domains twice = studio_domains st /\ users twice = users st /\
   studio_features twice = studio_features st) /\
  flashes (world (snd (toggle_studio dialect studio_id
                         (snd (toggle_studio dialect studio_id site))))) =
    (flashes (world site) ++
     [ (("Studio " ++ (if b then "disabled" else "enabled"))%string, "success");
       (("Studio " ++ (if b then "enabled" else "disabled"))%string, "success") ])%list.
Proof.
  intros Hin Hnd Hs Hid Hact st once twice.
  destruct (toggle_studio_stores dialect studio_id site s b Hin Hnd Hs Hid Hact)
    as (H1 & H2 & Hf).
  cbv zeta in H1, H2, Hf. fold st in H1, H2. fold once in H1. fold twice in H2.
  assert (Hk : forall v r, Studio.id (set_is_active v r) = Studio.id r)
    by reflexivity.
  rewrite H1, H2. cbn [set_studios studios studio_domains users studio_features].
  split; [|split; [|split; [|split; [|split; [|split; [|split]]]]]].
  - intros r Hr Hrid.
    apply (in_update_rows_key Studio.id studio_id _ _ r (Hk _) Hrid)
      in Hr as (r0 & _ & _ & ->).
    reflexivity.
  - intros r Hr Hrid.
    apply (in_update_rows_key Studio.id studio_id _ _ r (Hk _) Hrid)
      in Hr as (r0 & _ & _ & ->).
    reflexivity.
  - apply keys_update_rows, Hk.
  - rewrite !keys_update_rows by apply Hk. reflexivity.
  - intros r Hne. split.
    + apply in_update_rows_other; [apply Hk|exact Hne].
    + rewrite !in_update_rows_other; [reflexivity|apply Hk|exact Hne
                                      |apply Hk|exact Hne].
  - repeat split.
  - repeat split.
  - exact Hf.
Qed.

Lemma toggle_studio_twice_witness :
  let site := on_store jane_tenant admin in
  let id := "00000000-0000-0000-0000-000000000001" in
  let twice :=
    store (world (snd (toggle_studio SQLite id (snd (toggle_studio SQLite id site))))) in
  List.map Studio.id (studios twice) = [id] /\
  (forall r, In r (studios twice) -> Studio.id r = id ->
     Studio.is_active r = Some true) /\
  studio_domains twice = [jane_domain].
Proof.
  intros site id twice.
  destruct (toggle_studio_twice SQLite id site jane_studio true)
    as (_ & H2 & _ & H4 & _ & _ & (H7 & _) & _).
  - reflexivity.
  - constructor; [intros []|constructor].
  - left. reflexivity.
  - reflexivity.
  - reflexivity.
  - split; [exact H4|]. split; [exact H2|exact H7].
Defined.

(** ** Provisioning and deprovisioning *)

Lemma provision_body_run (dialect : Dialect) (studio_id : string) (st : Store) :
  provision_body dialect studio_id (get_db_session st)
  = Returns (tt, get_db_session (provisioned studio_id st)).
Proof.
  unfold provision_body, provision_studio, bind, first_studio, provisioned.
  cbn [get_db_session db_txn]. fold (has_studio_id studio_id).
  change (fun r => has_studio_id studio_id r) with (has_studio_id studio_id).
  destruct (List.find (has_studio_id studio_id) (studios st)) as [s|] eqn:Hf;
    [|reflexivity].
  apply find_some in Hf as [_ Hid]. apply String.eqb_eq in Hid.
  unfold assign_studio. cbn [db_txn db_committed db_new db_dirty app].
  rewrite Hid, commit_clean by reflexivity.
  unfold ret, verify_first, set_studios. cbn [get_db_session db_txn].
  change (Studio.id (mark_provisioned s)) with (Studio.id s). rewrite Hid.
  destruct (domains_of _ studio_id) as [|d ds]; [reflexivity|].
  unfold assign_domain, bind. cbn [db_txn db_committed db_new db_dirty].
  now rewrite commit_clean.
Qed.

Lemma deprovision_body_run (dialect : Dialect) (studio_id : string) (st : Store) :
  deprovision_body dialect studio_id (get_db_session st)
  = Returns (tt, get_db_session (deprovisioned studio_id st)).
Proof.
  unfold deprovision_body, get_studio_by_id, bind, deprovisioned.
  cbn [get_db_session db_txn]. fold (has_studio_id studio_id).
  change (fun r => has_studio_id studio_id r) with (has_studio_id studio_id).
  destruct (List.find (has_studio_id studio_id) (studios st)) as [s|] eqn:Hf;
    [|reflexivity].
  apply find_some in Hf as [_ Hid]. apply String.eqb_eq in Hid.
  cbn [option_map load loaded_studio loaded_domains].
  unfold assign_studio. cbn [db_txn db_committed db_new db_dirty app].
  rewrite Hid. unfold verify_first, set_studios.
  change (domains_of (mkStore _ (studio_domains st) (users st) (studio_features st))
            studio_id) with (domains_of st studio_id).
  destruct (domains_of st studio_id) as [|d ds].
  - unfold ret. now rewrite commit_clean.
  - unfold assign_domain. cbn [db_txn db_committed db_new db_dirty].
    now rewrite commit_clean.
Qed.

Lemma verify_first_set_studios (v : bool) (studio_id : string)
    (rows : list Studio.t) (st : Store) :
  verify_first v studio_id (set_studios rows st)
  = set_studios rows (verify_first v studio_id st).
Proof.
  unfold verify_first.
  change (domains_of (set_studios rows st) studio_id)
    with (domains_of st studio_id).
  now destruct (domains_of st studio_id).
Qed.

Lemma verify_first_twice (v v' : bool) (studio_id : string) (st : Store) :
  verify_first v' studio_id (verify_first v studio_id st)
  = verify_first v' studio_id st.
Proof.
  unfold verify_first at 2.
  destruct (domains_of st studio_id) as [|d ds] eqn:Hd; [reflexivity|].
  unfold verify_first, domains_of. cbn [set_domains studio_domains].
  unfold update_rows at 1.
  rewrite filter_map_stable
    by (intros r; now destruct (String.eqb (StudioDomain.id r) _)).
  fold (domains_of st studio_id). rewrite Hd. cbn [List.map].
  rewrite String.eqb_refl. cbn [set_is_verified StudioDomain.id].
  fold (update_rows StudioDomain.id (StudioDomain.id d)
          (set_is_verified (Some v)) (studio_domains st)).
  rewrite (update_rows_compose StudioDomain.id (StudioDomain.id d)
             (set_is_verified (Some v)) (set_is_verified (Some v')) _
             (fun r => eq_refl)).
  reflexivity.
Qed.

Lemma deprovisioned_provisioned (studio_id : string) (st : Store) :
  deprovisioned studio_id (provisioned studio_id st) = deprovisioned studio_id st.
Proof.
  unfold provisioned, deprovisioned.
  destruct (List.find (has_studio_id studio_id) (studios st)) as [s|] eqn:Hf.
  - rewrite verify_first_set_studios.
    cbn [set_studios studios]. unfold has_studio_id at 1.
    rewrite (find_update_rows Studio.id studio_id mark_provisioned _
               (fun r => eq_refl)).
    fold (has_studio_id studio_id).
    change (fun r => has_studio_id studio_id r) with (has_studio_id studio_id).
    rewrite Hf. cbn [option_map].
    rewrite (update_rows_compose Studio.id studio_id mark_provisioned
               mark_pending _ (fun r => eq_refl)).
    change (fun r => mark_pending (mark_provisioned r)) with mark_pending.
    rewrite !verify_first_set_studios, verify_first_twice. reflexivity.
  - now rewrite Hf.
Qed.

Lemma provision_run (dialect : Dialect) (studio_id : string) (site : Site) :
  flag_truthy (admin_logged_in site) = true ->
  provision dialect studio_id site =
  (Plain (Redirect "admin_provisioning" None),
   mkSite (flash "Studio provisioned successfully!" "success"
             (with_store (provisioned studio_id (store (world site))) (world site)))
     (admin_logged_in site)).
Proof.
  intros Hin. unfold provision.
  now rewrite (admin_route_run _ _ site _ _ Hin
                 (provision_body_run dialect studio_id (store (world site)))).
Qed.

Lemma deprovision_run (dialect : Dialect) (studio_id : string) (site : Site) :
  flag_truthy (admin_logged_in site) = true ->
  deprovision dialect studio_id site =
  (Plain (Redirect "admin_provisioning" None),
   mkSite (flash "Studio deprovisioned" "warning"
             (with_store (deprovisioned studio_id (store (world site))) (world site)))
     (admin_logged_in site)).
Proof.
  intros Hin. unfold deprovision.
  now rewrite (admin_route_run _ _ site _ _ Hin
                 (deprovision_body_run dialect studio_id (store (world site)))).
Qed.

(** The store after marking the studio and writing [is_verified] of its
    first domain, when the studio has at most one domain. *)
Lemma marked_store (v : bool) (mark : Studio.t -> Studio.t) (studio_id : string)
    (st : Store) :
  (forall r, Studio.id (mark r) = Studio.id r) ->
  (length (domains_of st studio_id) <= 1)%nat ->
  List.NoDup (List.map StudioDomain.id (studio_domains st)) ->
  let st' := verify_first v studio_id
               (set_studios (update_rows Studio.id studio_id mark (studios st)) st) in
  (forall r, In r (studios st') -> Studio.id r = studio_id ->
     exists r0, In r0 (studios st) /\ r = mark r0) /\
  (forall d, In d (domains_of st' studio_id) ->
     StudioDomain.is_verified d = Some v) /\
  List.map Studio.id (studios st') = List.map Studio.id (studios st) /\
  List.map StudioDomain.id (studio_domains st')
    = List.map StudioDomain.id (studio_domains st) /\
  (forall r, Studio.id r <> studio_id ->
     In r (studios st') <-> In r (studios st)) /\
  (forall d, StudioDomain.studio_id d <> studio_id ->
     In d (studio_domains st') <-> In d (studio_domains st)) /\
  users st' = users st /\ studio_features st' = studio_features st.
Proof.
  intros Hmark Hlen Hnd st'. subst st'.
  rewrite verify_first_set_studios. cbn [set_studios studios].
  assert (Hstud :
    (forall r, In r (update_rows Studio.id studio_id mark (studios st)) ->
       Studio.id r = studio_id -> exists r0, In r0 (studios st) /\ r = mark r0) /\
    List.map Studio.id (update_rows Studio.id studio_id mark (studios st))
      = List.map Studio.id (studios st) /\
    (forall r, Studio.id r <> studio_id ->
       In r (update_rows Studio.id studio_id mark (studios st))
       <-> In r (studios st))).
  { split; [|split].
    - intros r Hr Hid.
      apply (in_update_rows_key Studio.id studio_id mark _ r Hmark Hid)
        in Hr as (r0 & Hr0 & _ & ->).
      now exists r0.
    - now apply keys_update_rows.
    - intros r Hne. now apply in_update_rows_other. }
  destruct Hstud as (S1 & S2 & S3).
  change (domains_of (set_studios ?rows ?x) ?i) with (domains_of x i).
  unfold verify_first.
  destruct (domains_of st studio_id) as [|d ds] eqn:Hd.
  { cbn [studios studio_domains users studio_features].
    rewrite Hd. cbn [set_studios studio_domains].
    repeat split; try assumption; try (now apply S3); now intros. }
  destruct ds as [|d2 ds]; [|cbn [length] in Hlen; lia].
  cbn [set_studios set_domains studios studio_domains users studio_features].
  assert (Hk : forall r, StudioDomain.id (set_is_verified (Some v) r)
                         = StudioDomain.id r) by reflexivity.
  assert (Hdin : In d (studio_domains st) /\ StudioDomain.studio_id d = studio_id).
  { assert (Hin : In d (domains_of st studio_id)) by (rewrite Hd; now left).
    apply filter_In in Hin as [Hin E]. split; [exact Hin|].
    now apply String.eqb_eq. }
  destruct Hdin as [Hdin Hdid].
  split; [exact S1|]. split; [|split; [exact S2|split; [|split; [exact S3|split]]]].
  - intros d' Hd'. unfold domains_of in Hd'.
    cbn [set_studios set_domains studio_domains] in Hd'.
    unfold update_rows in Hd'.
    rewrite filter_map_stable in Hd'
      by (intros r; now destruct (String.eqb (StudioDomain.id r) _)).
    fold (domains_of st studio_id) in Hd'. rewrite Hd in Hd'.
    cbn [List.map In] in Hd'. rewrite String.eqb_refl in Hd'.
    destruct Hd' as [<-|[]]. reflexivity.
  - now apply keys_update_rows.
  - intros d' Hne.
    destruct (String.eqb (StudioDomain.id d') (StudioDomain.id d)) eqn:E.
    + apply String.eqb_eq in E. split.
      * intros Hd'.
        apply (in_update_rows_key StudioDomain.id _ _ _ d' Hk E)
          in Hd' as (r0 & Hr0 & Hr0id & ->).
        exfalso. apply Hne.
        rewrite <- (unique_key StudioDomain.id _ d r0 Hnd Hdin Hr0) in *
          by congruence.
        exact Hdid.
      * intros Hd'. exfalso. apply Hne.
        now rewrite (unique_key StudioDomain.id _ d' d Hnd Hd' Hdin E).
    + apply String.eqb_neq in E. now apply in_update_rows_other.
  - repeat split.
Qed.

(** X5: For a logged-in admin and a studio with at most one domain (what
    signup creates), [provision] marks the studio completed and its
    domain verified, and [deprovision] after it marks the studio pending
    and its domain unverified again; the studios with another id, the
    domains of other studios, the users and the features are the rows
    they were.  (The rows written also get a new [updated_at], a column
    the model does not keep: they are not claimed to be what they were.) *)
Theorem provision_then_deprovision (dialect : Dialect) (studio_id : string)
    (site : Site) (s : Studio.t) :
  flag_truthy (admin_logged_in site) = true ->
  In s (studios (store (world site))) ->
  Studio.id s = studio_id ->
  (length (domains_of (store (world site)) studio_id) <= 1)%nat ->
  List.NoDup (List.map StudioDomain.id (studio_domains (store (world site)))) ->
  let st := store (world site) in
  let mid := store (world (snd (provision dialect studio_id site))) in
  let back := store (world (snd (deprovision dialect studio_id
                                   (snd (provision dialect studio_id site))))) in
  (forall r, In r (studios mid) -> Studio.id r = studio_id ->
     Studio.onboarding_step r = Some "completed" /\
     Studio.onboarding_completed r = Some true) /\
  (forall d, In d (domains_of mid studio_id) ->
     StudioDomain.is_verified d = Some true) /\
  (forall r, In r (studios back) -> Studio.id r = studio_id ->
     Studio.onboarding_step r = Some "pending" /\
     Studio.onboarding_completed r = Some false) /\
  (forall d, In d (domains_of back studio_id) ->
     StudioDomain.is_verified d = Some false) /\
  List.map Studio.id (studios back) = List.map Studio.id (studios st) /\
  List.map StudioDomain.id (studio_domains back)
    = List.map StudioDomain.id (studio_domains st) /\
  (forall r, Studio.id r <> studio_id ->
     In r (studios back) <-> In r (studios st)) /\
  (forall d, StudioDomain.studio_id d <> studio_id ->
     In d (studio_domains back) <-> In d (studio_domains st)) /\
  users back = users st /\ studio_features back = studio_features st.
Proof.
  intros Hin Hs Hid Hlen Hnd st mid back.
  destruct (find_some_id Studio.id studio_id _ (ex_intro _ s (conj Hs Hid)))
    as (s0 & Hfind & _ & _).
  fold (has_studio_id studio_id) in Hfind.
  change (fun r => has_studio_id studio_id r) with (has_studio_id studio_id) in Hfind.
  assert (Hmid : mid = provisioned studio_id st).
  { subst mid. now rewrite (provision_run dialect studio_id site Hin). }
  assert (Hback : back = deprovisioned studio_id st).
  { subst back. rewrite (provision_run dialect studio_id site Hin). cbn [snd].
    rewrite deprovision_run by exact Hin.
    cbn [snd world flash with_store store]. apply deprovisioned_provisioned. }
  rewrite Hmid, Hback. unfold provisioned, deprovisioned. fold st in Hfind.
  rewrite Hfind.
  destruct (marked_store true mark_provisioned studio_id st (fun r => eq_refl)
              Hlen Hnd) as (P1 & P2 & _).
  destruct (marked_store false mark_pending studio_id st (fun r => eq_refl)
              Hlen Hnd) as (D1 & D2 & D3 & D4 & D5 & D6 & D7 & D8).
  split; [|split; [exact P2|split; [|split; [exact D2|]]]].
  - intros r Hr Hrid. destruct (P1 r Hr Hrid) as (r0 & _ & ->).
    split; reflexivity.
  - intros r Hr Hrid. destruct (D1 r Hr Hrid) as (r0 & _ & ->).
    split; reflexivity.
  - exact (conj D3 (conj D4 (conj D5 (conj D6 (conj D7 D8))))).
Qed.

Lemma provision_then_deprovision_witness :
  let id := "00000000-0000-0000-0000-000000000001" in
  let mid := store (world (snd (provision PostgreSQL id (on_store jane_tenant admin)))) in
  let back :=
    store (world (snd (deprovision PostgreSQL id
                         (snd (provision PostgreSQL id (on_store jane_tenant admin)))))) in
  List.map StudioDomain.is_verified (domains_of mid id) = [Some true] /\
  (forall d, In d (domains_of back id) ->
     StudioDomain.is_verified d = Some false) /\
  List.map Studio.id (studios back) = [id] /\
  (forall r, In r (studios back) -> Studio.id r = id ->
     Studio.onboarding_step r = Some "pending" /\
     Studio.onboarding_completed r = Some false) /\
  users back = [jane_owner].
Proof.
  intros id mid back.
  destruct (provision_then_deprovision PostgreSQL id
              (on_store jane_tenant admin) jane_studio)
    as (_ & _ & H3 & H4 & H5 & _ & _ & _ & H9 & _).
  - reflexivity.
  - left. reflexivity.
  - reflexivity.
  - cbn. lia.
  - constructor; [intros []|constructor].
  - split; [reflexivity|]. split; [exact H4|]. split; [exact H5|].
    split; [exact H3|exact H9].
Defined.

(** ** The provisioning page *)

Lemma admin_provisioning_run (site : Site) :
  flag_truthy (admin_logged_in site) = true ->
  let st := store (world site) in
  admin_provisioning site =
  (ProvisioningPage
     (List.map (load st) (List.filter is_pending (studios st)))
     (List.map (fun r => (r, domains_of st (Studio.id r)))
        (List.filter is_completed (studios st))),
   site).
Proof.
  intros Hin st. unfold admin_provisioning, admin_required, lift_world, with_db.
  rewrite Hin. cbn. unfold with_store. now destruct site as [[? ? ? ?] ?].
Qed.

Lemma studios_verify_first (v : bool) (studio_id : string) (st : Store) :
  studios (verify_first v studio_id st) = studios st.
Proof. unfold verify_first. now destruct (domains_of st studio_id). Qed.

Lemma head_domains_verify_first (v : bool) (studio_id : string) (st : Store)
    (d : StudioDomain.t) :
  List.head (domains_of (verify_first v studio_id st) studio_id) = Some d ->
  StudioDomain.is_verified d = Some v.
Proof.
  unfold verify_first.
  destruct (domains_of st studio_id) as [|d0 ds] eqn:Hd.
  - rewrite Hd. discriminate.
  - unfold domains_of. cbn [set_domains studio_domains]. unfold update_rows.
    rewrite filter_map_stable
      by (intros r; now destruct (String.eqb (StudioDomain.id r) _)).
    fold (domains_of st studio_id). rewrite Hd. cbn [List.map List.head].
    rewrite String.eqb_refl. now intros [= <-].
Qed.

(** X6: For a logged-in admin and an existing studio with at most one
    domain (what signup creates; with more, the order in which the
    domains are loaded is the engine's choice): after [provision] the
    provisioning page shows the studio under the active studios, with its
    domain verified, and not under the pending ones; after [deprovision]
    it shows it under the pending ones only. *)
Theorem provisioning_page_follows (dialect : Dialect) (studio_id : string)
    (site : Site) (s : Studio.t) :
  flag_truthy (admin_logged_in site) = true ->
  In s (studios (store (world site))) ->
  Studio.id s = studio_id ->
  (length (domains_of (store (world site)) studio_id) <= 1)%nat ->
  (exists pending active,
     fst (admin_provisioning (snd (provision dialect studio_id site)))
       = ProvisioningPage pending active /\
     (forall l, In l pending -> Studio.id (loaded_studio l) <> studio_id) /\
     (exists r doms, In (r, doms) active /\ Studio.id r = studio_id /\
        forall d, List.head doms = Some d ->
                  StudioDomain.is_verified d = Some true)) /\
  (exists pending active,
     fst (admin_provisioning (snd (deprovision dialect studio_id site)))
       = ProvisioningPage pending active /\
     (forall ra, In ra active -> Studio.id (fst ra) <> studio_id) /\
     (exists l, In l pending /\ Studio.id (loaded_studio l) = studio_id)).
Proof.
  intros Hin Hs Hid _.
  destruct (find_some_id Studio.id studio_id _ (ex_intro _ s (conj Hs Hid)))
    as (s0 & Hfind & Hs0 & Hid0).
  fold (has_studio_id studio_id) in Hfind.
  change (fun r => has_studio_id studio_id r) with (has_studio_id studio_id) in Hfind.
  split.
  - rewrite (provision_run dialect studio_id site Hin). cbn [snd].
    rewrite admin_provisioning_run by exact Hin.
    cbn [fst world flash with_store store].
    do 2 eexists. split; [reflexivity|].
    unfold provisioned. rewrite Hfind. rewrite studios_verify_first.
    cbn [set_studios studios]. split.
    + intros l Hl Hlid. apply in_map_iff in Hl as (r & <- & Hr).
      apply filter_In in Hr as [Hr Hp]. cbn [load loaded_studio] in Hlid.
      apply in_map_iff in Hr as (r0 & <- & _).
      destruct (String.eqb (Studio.id r0) studio_id) eqn:E; [discriminate Hp|].
      apply String.eqb_neq in E. contradiction.
    + exists (mark_provisioned s0). eexists. split; [|split].
      * apply in_map_iff. exists (mark_provisioned s0). split; [reflexivity|].
        apply filter_In. split; [|reflexivity].
        apply in_map_iff. exists s0. split; [|assumption].
        apply String.eqb_eq in Hid0. now rewrite Hid0.
      * exact Hid0.
      * change (Studio.id (mark_provisioned s0)) with (Studio.id s0).
        rewrite Hid0. apply head_domains_verify_first.
  - rewrite (deprovision_run dialect studio_id site Hin). cbn [snd].
    rewrite admin_provisioning_run by exact Hin.
    cbn [fst world flash with_store store].
    do 2 eexists. split; [reflexivity|].
    unfold deprovisioned. rewrite Hfind. rewrite studios_verify_first.
    cbn [set_studios studios]. split.
    + intros ra Hra Hraid. apply in_map_iff in Hra as (r & <- & Hr).
      apply filter_In in Hr as [Hr Hp]. cbn [fst] in Hraid.
      apply in_map_iff in Hr as (r0 & <- & _).
      destruct (String.eqb (Studio.id r0) studio_id) eqn:E; [discriminate Hp|].
      apply String.eqb_neq in E. contradiction.
    + eexists. split.
      * apply in_map_iff. exists (mark_pending s0). split; [reflexivity|].
        apply filter_In. split; [|reflexivity].
        apply in_map_iff. exists s0. split; [|assumption].
        apply String.eqb_eq in Hid0. now rewrite Hid0.
      * exact Hid0.
Qed.

Lemma provisioning_page_follows_witness :
  exists pending active,
    fst (admin_provisioning
           (snd (provision SQLite "00000000-0000-0000-0000-000000000001"
                   (on_store jane_tenant admin))))
      = ProvisioningPage pending active /\
    forall l, In l pending ->
      Studio.id (loaded_studio l) <> "00000000-0000-0000-0000-000000000001".
Proof.
  destruct (provisioning_page_follows SQLite
              "00000000-0000-0000-0000-000000000001"
              (on_store jane_tenant admin) jane_studio)
    as [(pending & active & Hpage & Hp & _) _].
  - reflexivity.
  - left. reflexivity.
  - reflexivity.
  - cbn. lia.
  - exists pending, active. split; [exact Hpage|exact Hp].
Defined.

(** ** Unknown studios *)



(** ** Every studio is on the provisioning page *)

Lemma pending_not_completed (s : Studio.t) :
  is_pending s = true -> is_completed s = false.
Proof.
  unfold is_pending, is_completed, is_flag.
  destruct (Studio.onboarding_completed s) as [[]|]; cbn; congruence.
Qed.

Lemma filter_split_length {A} (p q : A -> bool) (l : list A) :
  (forall x, In x l -> p x || q x = true) ->
  (forall x, p x = true -> q x = false) ->
  (length (List.filter p l) + length (List.filter q l) = length l)%nat.
Proof.
  intros Hor Hex. induction l as [|a l IH]; [reflexivity|].
  cbn [List.filter]. specialize (Hor a (or_introl eq_refl)) as Ha.
  assert (IH' := IH (fun x Hx => Hor x (or_intror Hx))).
  destruct (p a) eqn:Hp.
  - rewrite (Hex a Hp). cbn [length]. lia.
  - cbn in Ha. rewrite Ha. cbn [length]. lia.
Qed.

(** X8: In a store where every studio is either pending or completed, the
    provisioning page shows every studio on exactly one of its two lists,
    and showing the page changes nothing. *)
Theorem provisioning_page_complete (site : Site) :
  flag_truthy (admin_logged_in site) = true ->
  (forall s, In s (studios (store (world site))) -> listed s = true) ->
  exists pending active,
    admin_provisioning site = (ProvisioningPage pending active, site) /\
    (length pending + length active
     = length (studios (store (world site))))%nat /\
    forall s, In s (studios (store (world site))) ->
      (In s (List.map loaded_studio pending) /\ ~ In s (List.map fst active)) \/
      (~ In s (List.map loaded_studio pending) /\ In s (List.map fst active)).
Proof.
  intros Hin Hall. rewrite (admin_provisioning_run site Hin). cbv zeta.
  do 2 eexists. split; [reflexivity|]. split.
  - rewrite !length_map.
    apply filter_split_length; [exact Hall|exact pending_not_completed].
  - intros s Hs. rewrite !List.map_map. cbn [load loaded_studio fst].
    rewrite !List.map_id, !filter_In.
    specialize (Hall s Hs). unfold listed in Hall.
    destruct (is_pending s) eqn:Hp.
    + left. rewrite (pending_not_completed s Hp). split; [tauto|].
      intros [_ ?]. discriminate.
    + right. cbn in Hall. rewrite Hall. split; [|tauto].
      intros [_ ?]. discriminate.
Qed.

Lemma provisioning_page_complete_witness :
  exists pending active,
    admin_provisioning (on_store jane_tenant admin)
      = (ProvisioningPage pending active, on_store jane_tenant admin) /\
    (length pending + length active = 1)%nat.
Proof.
  destruct (provisioning_page_complete (on_store jane_tenant admin))
    as (pending & active & Hpage & Hlen & _).
  - reflexivity.
  - intros s [<-|[]]. reflexivity.
  - exists pending, active. split; [exact Hpage|exact Hlen].
Defined.

(** ** Step 3 on any session *)

(** When the [try] body returns, the session held all seven keys and the
    store gained the three rows. *)
Lemma persist_signup_success (dialect : Dialect)
    (bcrypt_hashpw : string -> string -> Outcome string)
    (sess : gmap string (option string)) (brand_color typography : string)
    (logo_url photo_url : option string) (u : N) (rnd : Draws) (st : Store)
    (db : DbSession) :
  persist_signup dialect bcrypt_hashpw sess brand_color typography logo_url
    photo_url (uuid_str u) rnd (get_db_session st) = Returns (tt, db) ->
  exists name subdomain domain owner_email owner_name plan p h,
    sess !! "signup_domain" = Some domain /\
    sess !! "signup_password" = Some (Some p) /\
    bcrypt_hashpw p (draw_salt rnd) = Returns h /\
    studio_admissible dialect st
      (studio_row (uuid_str u) name owner_email subdomain plan) /\
    db = get_db_session
           (add_user
              (owner_row (uuid_str (draw_user rnd)) (uuid_str u) owner_name
                 owner_email h)
              (add_domain
                 (domain_row (uuid_str (draw_domain rnd)) (uuid_str u) domain)
                 (add_studio
                    (branded brand_color typography logo_url photo_url
                       (studio_row (uuid_str u) name owner_email subdomain plan))
                    st))).
Proof.
  intros H.
  destruct (sess !! "signup_studio_name") as [name|] eqn:H1;
    [|unfold persist_signup, bind, lift, session_item in H;
      rewrite H1 in H; discriminate].
  destruct (sess !! "signup_subdomain") as [subdomain|] eqn:H2;
    [|unfold persist_signup, bind, lift, session_item in H;
      rewrite H1, H2 in H; discriminate].
  destruct (sess !! "signup_domain") as [domain|] eqn:H3;
    [|unfold persist_signup, bind, lift, session_item in H;
      rewrite H1, H2, H3 in H; discriminate].
  destruct (sess !! "signup_email") as [owner_email|] eqn:H4;
    [|unfold persist_signup, bind, lift, session_item in H;
      rewrite H1, H2, H3, H4 in H; discriminate].
  destruct (sess !! "signup_owner_name") as [owner_name|] eqn:H5;
    [|unfold persist_signup, bind, lift, session_item in H;
      rewrite H1, H2, H3, H4, H5 in H; discriminate].
  destruct (sess !! "signup_password") as [password|] eqn:H6;
    [|unfold persist_signup, bind, lift, session_item in H;
      rewrite H1, H2, H3, H4, H5, H6 in H; discriminate].
  destruct (sess !! "signup_plan") as [plan|] eqn:H7.
  2:{ unfold persist_signup, bind, lift, session_item in H.
      rewrite H1, H2, H3, H4, H5, H6, H7 in H.
      destruct (hash_password bcrypt_hashpw password (draw_salt rnd));
        discriminate. }
  rewrite (persist_signup_run dialect bcrypt_hashpw sess name subdomain domain
             owner_email owner_name password plan brand_color typography
             logo_url photo_url u rnd st H1 H2 H3 H4 H5 H6 H7) in H.
  destruct password as [p|]; [|discriminate].
  cbn [hash_password] in H.
  destruct (bcrypt_hashpw p (draw_salt rnd)) as [h|] eqn:Hh; [|discriminate].
  cbv zeta in H.
  destruct (check_studio _ _ _) eqn:Hs; [discriminate|].
  destruct (check_domain_row _ _ _); [discriminate|].
  destruct (check_user _ _ _); [discriminate|].
  destruct (length_check _ _); [discriminate|].
  injection H as <-. apply check_studio_none in Hs.
  exists name, subdomain, domain, owner_email, owner_name, plan, p, h.
  split; [reflexivity|]. split; [reflexivity|]. split; [exact Hh|].
  split; [exact Hs|reflexivity].
Qed.

(** What one request to [/signup/branding] can do to the store: nothing,
    or add the rows of one signup. *)
Lemma signup_branding_store (dialect : Dialect) (error_text : Violation -> string)
    (bcrypt_hashpw : string -> string -> Outcome string)
    (req : Request) (rnd : Draws) (w : World) :
  let out := signup_branding dialect error_text bcrypt_hashpw req rnd w in
  let sid := uuid_str (draw_studio rnd) in
  ((forall x, fst out <> Redirect "signup_complete" x) /\
   store (snd out) = store w /\
   session (snd out) = session w) \/
  exists name subdomain domain owner_email owner_name plan p h,
    session w !! "signup_domain" = Some domain /\
    session w !! "signup_password" = Some (Some p) /\
    bcrypt_hashpw p (draw_salt rnd) = Returns h /\
    (forall r, In r (studios (store w)) -> Studio.id r <> sid) /\
    fst out = Redirect "signup_complete" (Some sid) /\
    session (snd out) !! "signup_password" = None /\
    store (snd out) =
      add_user (owner_row (uuid_str (draw_user rnd)) sid owner_name owner_email h)
        (add_domain (domain_row (uuid_str (draw_domain rnd)) sid domain)
           (add_studio
              (request_branded req rnd
                 (studio_row sid name owner_email subdomain plan))
              (store w))).
Proof.
  intros out sid. subst out. unfold signup_branding.
  destruct (session w !! "signup_plan");
    [|left; repeat split; try discriminate; auto].
  destruct (method req); [left; repeat split; try discriminate; auto|]. cbv zeta.
  rewrite branding_attempt_uploads.
  destruct (save_upload_keeps (snd (branding_uploads req rnd))
              (save_upload (fst (branding_uploads req rnd)) w)) as (Hs & Hk & _).
  destruct (save_upload_keeps (fst (branding_uploads req rnd)) w)
    as (Hs' & Hk' & _).
  destruct (branding_attempt dialect bcrypt_hashpw req rnd w) as [[[] db]|e] eqn:Ha.
  - right. unfold branding_attempt in Ha. cbv zeta in Ha.
    apply persist_signup_success in Ha
      as (name & subdomain & domain & owner_email & owner_name & plan & p & h
          & Hdom & Hp & Hh & Hadm & ->).
    exists name, subdomain, domain, owner_email, owner_name, plan, p, h.
    split; [exact Hdom|]. split; [exact Hp|]. split; [exact Hh|]. split; [apply Hadm|].
    split; [reflexivity|]. split; [|reflexivity].
    cbn [snd]. apply popped_key. cbn. tauto.
  - left. cbn [fst snd flash store session]. rewrite Hs, Hs', Hk, Hk'.
    repeat split; try discriminate; auto.
Qed.

(** ** What a request can do to the studios *)

Lemma signup_store (req : Request) (w : World) :
  store (snd (signup req w)) = store w.
Proof.
  unfold signup. destruct (method req); [reflexivity|].
  destruct (negb _); [reflexivity|].
  destruct (form req !! "password") as [p|]; [|reflexivity].
  destruct (String.length p <? 8)%nat; [reflexivity|].
  now destruct (form req !! "studio_name").
Qed.

Lemma signup_plan_store (req : Request) (w : World) :
  store (snd (signup_plan req w)) = store w.
Proof.
  unfold signup_plan. destruct (session w !! "signup_studio_name"); [|reflexivity].
  now destruct (method req).
Qed.

Lemma check_domain_world (req : Request) (w : World) :
  snd (check_domain req w) = w.
Proof.
  unfold check_domain. destruct (args req !! "domain") as [d|]; [|reflexivity].
  now destruct (Py.truthy d).
Qed.

Lemma admin_required_store (f : Site -> View * Site) (site : Site) :
  flag_truthy (admin_logged_in site) = false ->
  store (world (snd (admin_required f site))) = store (world site).
Proof. intros H. unfold admin_required. now rewrite H. Qed.

Lemma toggle_feature_studios (dialect : Dialect) (studio_id k : string)
    (enabled : bool) (u : N) (st : Store) (f : StudioFeature.t) (db : DbSession) :
  toggle_feature dialect studio_id k enabled u (get_db_session st)
    = Returns (f, db) ->
  exists rows, db = get_db_session (set_features rows st).
Proof.
  rewrite toggle_feature_run.
  destruct (List.find _ _) as [f0|].
  - intros [= <- <-]. now eexists.
  - cbv zeta. destruct (check_feature _ _ _); [discriminate|].
    intros [= <- <-]. now eexists.
Qed.

Lemma toggle_studio_feature_studios (dialect : Dialect) (studio_id : string)
    (req : Request) (u : N) (site : Site) :
  studios (store (world (snd (toggle_studio_feature dialect studio_id req u site))))
  = studios (store (world site)).
Proof.
  unfold toggle_studio_feature, admin_required.
  destruct (negb _); [reflexivity|].
  unfold lift_world, with_db. cbn [snd fst].
  destruct (form req !! "feature_key") as [k|]; [|reflexivity].
  unfold bind, ret.
  destruct (toggle_feature dialect studio_id k _ u _) as [[f db]|e] eqn:E;
    [|reflexivity].
  apply toggle_feature_studios in E as [rows ->]. reflexivity.
Qed.

Lemma admin_features_store (req : Request) (site : Site) :
  store (world (snd (admin_features req site))) = store (world site).
Proof.
  unfold admin_features, admin_required.
  destruct (negb _); [reflexivity|].
  unfold lift_world, with_db, admin_features_body, bind, get_all_studios,
    get_studio_by_id, get_studio_features, ret.
  destruct (args req !! "studio_id") as [i|]; [|reflexivity].
  destruct (Py.truthy i); [|reflexivity].
  cbn [get_db_session db_txn].
  now destruct (option_map _ _).
Qed.

Lemma branded_is_pending (req : Request) (rnd : Draws) (id : string)
    (name owner_email subdomain plan : option string) :
  is_pending (request_branded req rnd (studio_row id name owner_email subdomain plan))
  = true.
Proof.
  unfold request_branded, branded.
  now destruct (upload_url (fst _)), (upload_url (snd _)).
Qed.

(** A studio row after a request is a row from before, a row from before
    with its active flag or its onboarding fields rewritten, or the
    pending row of a new signup. *)
Lemma dispatch_studios (cfg : Config) (a : Action) (site : Site) (r : Studio.t) :
  In r (studios (store (world (snd (dispatch cfg a site))))) ->
  In r (studios (store (world site))) \/
  is_pending r = true \/
  exists r0, In r0 (studios (store (world site))) /\
    ((exists v, r = set_is_active v r0) \/
     r = mark_provisioned r0 \/ r = mark_pending r0).
Proof.
  destruct a; cbn [dispatch]; unfold public; cbn [snd world].
  - now left.
  - rewrite signup_store. now left.
  - rewrite signup_plan_store. now left.
  - destruct (signup_branding_store (cfg_dialect cfg) (cfg_error_text cfg)
                (cfg_hashpw cfg) req rnd (world site)) as [(_ & -> & _)|H];
      [now left|].
    destruct H as (name & subdomain & domain & owner_email & owner_name & plan
                   & p & h & _ & _ & _ & _ & _ & _ & ->).
    cbn [add_user add_domain add_studio studios]. intros Hr.
    apply in_app_iff in Hr as [Hr|[<-|[]]]; [now left|].
    right. left. apply branded_is_pending.
  - unfold lift_world, signup_complete. cbn. now left.
  - unfold admin_login. destruct (method req); [now left|].
    destruct (_ && _); now left.
  - now left.
  - destruct (flag_truthy (admin_logged_in site)) eqn:Hin.
    + rewrite (toggle_studio_run (cfg_dialect cfg) studio_id site Hin).
      cbn [snd world]. unfold toggled.
      destruct (toggled_value studio_id (store (world site))) as [v|];
        [|now left].
      cbn [flash store with_store set_studios studios]. intros Hr.
      apply in_map_iff in Hr as (r0 & <- & Hr0).
      destruct (String.eqb _ _); [|now left].
      right. right. exists r0. split; [assumption|]. left. now eexists.
    + unfold toggle_studio. rewrite admin_required_store by assumption. now left.
  - rewrite admin_features_store. now left.
  - rewrite toggle_studio_feature_studios. now left.
  - destruct (flag_truthy (admin_logged_in site)) eqn:Hin.
    + rewrite (admin_provisioning_run site Hin). now left.
    + unfold admin_provisioning. rewrite admin_required_store by assumption.
      now left.
  - destruct (flag_truthy (admin_logged_in site)) eqn:Hin.
    + rewrite (provision_run (cfg_dialect cfg) studio_id site Hin).
      cbn [snd world flash store with_store]. unfold provisioned.
      destruct (List.find _ _); [|now left].
      rewrite studios_verify_first. cbn [set_studios studios]. intros Hr.
      apply in_map_iff in Hr as (r0 & <- & Hr0).
      destruct (String.eqb _ _); [|now left].
      right. right. exists r0. split; [assumption|]. right. now left.
    + unfold provision. rewrite admin_required_store by assumption. now left.
  - destruct (flag_truthy (admin_logged_in site)) eqn:Hin.
    + rewrite (deprovision_run (cfg_dialect cfg) studio_id site Hin).
      cbn [snd world flash store with_store]. unfold deprovisioned.
      destruct (List.find _ _); [|now left].
      rewrite studios_verify_first. cbn [set_studios studios]. intros Hr.
      apply in_map_iff in Hr as (r0 & <- & Hr0).
      destruct (String.eqb _ _); [|now left].
      right. right. exists r0. split; [assumption|]. right. now right.
    + unfold deprovision. rewrite admin_required_store by assumption. now left.
  - rewrite check_domain_world. now left.
Qed.

Lemma listed_after (cfg : Config) (a : Action) (site : Site) :
  (forall s, In s (studios (store (world site))) -> listed s = true) ->
  forall s, In s (studios (store (world (snd (dispatch cfg a site))))) ->
            listed s = true.
Proof.
  intros Hall s Hs.
  destruct (dispatch_studios cfg a site s Hs)
    as [Hold|[Hnew|(r0 & Hr0 & [[v ->]|[->| ->]])]].
  - now apply Hall.
  - unfold listed. now rewrite Hnew.
  - exact (Hall r0 Hr0).
  - unfold listed. apply orb_true_r.
  - reflexivity.
Qed.

(** X9: Whatever requests arrive, in whatever order and whoever sends them, a
    store in which every studio is pending or completed stays so: no
    route leaves a studio in a state the provisioning page shows on
    neither list. *)
Theorem every_studio_stays_listed (cfg : Config) (actions : list Action)
    (site : Site) :
  (forall s, In s (studios (store (world site))) -> listed s = true) ->
  forall s, In s (studios (store (world (browse cfg actions site)))) ->
            listed s = true.
Proof.
  revert site. induction actions as [|a actions IH]; intros site Hall.
  - exact Hall.
  - cbn [browse fold_left]. apply (IH (snd (dispatch cfg a site))).
    now apply listed_after.
Qed.

Lemma every_studio_stays_listed_witness :
  forallb listed
    (studios (store (world (browse sample_config admin_visit
                              (on_store jane_tenant visitor))))) = true.
Proof.
  apply forallb_forall. intros s Hs.
  apply (every_studio_stays_listed sample_config admin_visit
           (on_store jane_tenant visitor)); [|exact Hs].
  intros r [<-|[]]. reflexivity.
Defined.

(** ** Passwords that reach the store *)

Lemma signup_password_checked (req : Request) (w : World) :
  password_checked (session w) ->
  password_checked (session (snd (signup req w))).
Proof.
  intros Hold. unfold signup. destruct (method req); [exact Hold|].
  destruct (negb _); [exact Hold|].
  destruct (form req !! "password") as [p|]; [|exact Hold].
  destruct (String.length p <? 8)%nat eqn:Hlen; [exact Hold|].
  apply Nat.ltb_ge in Hlen.
  assert (Hnew : forall m : gmap string (option string),
            password_checked (<["signup_password" := Some p]> m)).
  { intros m v Hv. rewrite lookup_insert_eq in Hv. injection Hv as <-.
    now exists p. }
  destruct (form req !! "studio_name"); cbn [snd session session_set];
    intros v Hv; [rewrite lookup_insert_ne in Hv by done|];
    exact (Hnew _ v Hv).
Qed.

Lemma signup_plan_session (req : Request) (w : World) :
  session (snd (signup_plan req w)) !! "signup_password"
  = session w !! "signup_password".
Proof.
  unfold signup_plan. destruct (session w !! "signup_studio_name"); [|reflexivity].
  destruct (method req); [reflexivity|].
  cbn [snd session session_set]. now rewrite lookup_insert_ne.
Qed.

Lemma guarded_session {A} (body : DB A) (k : A -> World -> View * World)
    (site : Site) :
  (forall a w', session (snd (k a w')) = session w') ->
  session (world (snd (admin_required
                         (lift_world (fun w => with_db body w k)) site)))
  = session (world site).
Proof.
  intros Hk. unfold admin_required. destruct (negb _); [reflexivity|].
  unfold lift_world, with_db. cbn [snd world].
  destruct (body _) as [[a db]|e]; [|reflexivity]. now rewrite Hk.
Qed.

(** Only the three wizard routes write to the text entries of the
    session. *)
Lemma dispatch_session (cfg : Config) (a : Action) (site : Site) :
  match a with
  | GoSignup _ | GoSignupPlan _ | GoSignupBranding _ _ => True
  | _ => session (world (snd (dispatch cfg a site))) = session (world site)
  end.
Proof.
  destruct a; cbn [dispatch]; try exact I; unfold public; cbn [snd world].
  - reflexivity.
  - unfold lift_world, signup_complete. reflexivity.
  - unfold admin_login. destruct (method req); [reflexivity|].
    now destruct (_ && _).
  - reflexivity.
  - apply guarded_session. intros [v|] w'; reflexivity.
  - apply guarded_session. reflexivity.
  - apply (guarded_session _ (fun _ w' => (_, flash _ "success" w'))).
    reflexivity.
  - apply guarded_session. reflexivity.
  - apply guarded_session. reflexivity.
  - apply guarded_session. reflexivity.
  - now rewrite check_domain_world.
Qed.

Lemma password_checked_after (cfg : Config) (a : Action) (site : Site) :
  password_checked (session (world site)) ->
  password_checked (session (world (snd (dispatch cfg a site)))).
Proof.
  intros Hold. pose proof (dispatch_session cfg a site) as Hs.
  destruct a; try (rewrite Hs; exact Hold); cbn [dispatch]; unfold public;
    cbn [snd world].
  - now apply signup_password_checked.
  - intros v Hv. rewrite signup_plan_session in Hv. now apply Hold.
  - destruct (signup_branding_store (cfg_dialect cfg) (cfg_error_text cfg)
                (cfg_hashpw cfg) req rnd (world site))
      as [(_ & _ & ->)|H]; [exact Hold|].
    destruct H as (? & ? & ? & ? & ? & ? & ? & ? & _ & _ & _ & _ & _ & Hnone & _).
    intros v Hv. rewrite Hnone in Hv. discriminate.
Qed.

Lemma password_checked_browse (cfg : Config) (actions : list Action) (site : Site) :
  password_checked (session (world site)) ->
  password_checked (session (world (browse cfg actions site))).
Proof.
  revert site. induction actions as [|a actions IH]; intros site H; [exact H|].
  cbn [browse fold_left]. apply (IH (snd (dispatch cfg a site))).
  now apply password_checked_after.
Qed.

(** X10: However a visitor whose session starts without a wizard password
    mixes requests, when a POST to [/signup/branding] completes, the one
    user it adds holds the bcrypt hash of a password of at least 8
    characters, the one step 1 accepted: no sequence of requests gets an
    unchecked password into the store. *)
Theorem stored_passwords_were_checked (cfg : Config) (actions : list Action)
    (site : Site) (req : Request) (rnd : Draws) (x : option string) :
  session (world site) !! "signup_password" = None ->
  let before := browse cfg actions site in
  let out := dispatch cfg (GoSignupBranding req rnd) before in
  fst out = Plain (Redirect "signup_complete" x) ->
  exists p h o,
    session (world before) !! "signup_password" = Some (Some p) /\
    (8 <= String.length p)%nat /\
    cfg_hashpw cfg p (draw_salt rnd) = Returns h /\
    users (store (world (snd out))) = (users (store (world before)) ++ [o])%list /\
    User.password_hash o = Some h /\
    User.role o = Some "studio_owner".
Proof.
  intros Hfresh before out Hdone.
  assert (Hchk : password_checked (session (world before))).
  { apply password_checked_browse. intros v Hv. rewrite Hfresh in Hv.
    discriminate. }
  subst out. cbn [dispatch] in *. unfold public in *. cbn [fst snd world] in *.
  destruct (signup_branding_store (cfg_dialect cfg) (cfg_error_text cfg)
              (cfg_hashpw cfg) req rnd (world before)) as [(Hno & _)|H].
  - exfalso. injection Hdone as Hdone. exact (Hno x Hdone).
  - destruct H as (name & subdomain & domain & owner_email & owner_name & plan
                   & p & h & _ & Hp & Hh & _ & _ & _ & Hst).
    destruct (Hchk _ Hp) as (p' & [= <-] & Hlen).
    exists p, h. eexists. split; [exact Hp|]. split; [exact Hlen|].
    split; [exact Hh|]. rewrite Hst. cbn [add_user users add_domain add_studio].
    split; [reflexivity|]. split; reflexivity.
Qed.

Lemma stored_passwords_were_checked_witness :
  exists p,
    session (world (browse sample_config impatient_visit visitor))
      !! "signup_password" = Some (Some p) /\
    (8 <= String.length p)%nat.
Proof.
  destruct (stored_passwords_were_checked sample_config impatient_visit visitor
              (mkRequest POST ∅ ∅ ∅) (mkDraws 11 12 13 14 "salt")
              (Some (uuid_str 11)))
    as (p & h & o & Hp & Hlen & _).
  - reflexivity.
  - vm_compute. reflexivity.
  - exists p. split; [exact Hp|exact Hlen].
Defined.

(** ** The completion page *)

(** X11: When step 3 completes in a store whose domains all belong to existing
    studios, the completion page it redirects to finds the new studio,
    still pending, and shows the domain that was entered at step 1;
    looking at the page changes nothing. *)
Theorem signup_complete_shows_domain (dialect : Dialect)
    (error_text : Violation -> string)
    (bcrypt_hashpw : string -> string -> Outcome string)
    (req : Request) (rnd : Draws) (w : World) (x : option string) :
  let out := signup_branding dialect error_text bcrypt_hashpw req rnd w in
  fst out = Redirect "signup_complete" x ->
  (forall d, In d (studio_domains (store w)) ->
     exists q, In q (studios (store w)) /\ Studio.id q = StudioDomain.studio_id d) ->
  exists sid l,
    x = Some sid /\
    signup_complete sid (snd out)
      = (CompletePage (Some l) (session_get (session w) "signup_domain"), snd out) /\
    Studio.id (loaded_studio l) = sid /\
    is_pending (loaded_studio l) = true /\
    List.length (loaded_domains l) = 1%nat.
Proof.
  intros out Hdone Hfk. subst out.
  destruct (signup_branding_store dialect error_text bcrypt_hashpw req rnd w)
    as [(Hno & _)|H]; [now destruct (Hno x)|].
  destruct H as (name & subdomain & domain & owner_email & owner_name & plan
                 & p & h & Hdom & _ & _ & Hfresh & Hredir & _ & Hst).
  rewrite Hredir in Hdone. injection Hdone as <-.
  set (sid := uuid_str (draw_studio rnd)) in *.
  set (s := request_branded req rnd
              (studio_row sid name owner_email subdomain plan)) in *.
  assert (Hsid : Studio.id s = sid).
  { subst s. unfold request_branded, branded.
    now destruct (upload_url (fst _)), (upload_url (snd _)). }
  exists sid. eexists. split; [reflexivity|].
  unfold signup_complete, get_studio_by_id. cbn [get_db_session db_txn].
  rewrite Hst. cbn [add_user add_domain add_studio studios].
  rewrite (find_app_none _ (studios (store w)) [s]
             (find_none_id Studio.id sid _ Hfresh)).
  cbn [List.find]. rewrite Hsid, String.eqb_refl.
  cbn [option_map load loaded_domains]. rewrite Hsid.
  assert (Hnone : List.filter
                    (fun d => String.eqb (StudioDomain.studio_id d) sid)
                    (studio_domains (store w)) = []).
  { destruct (List.filter _ (studio_domains (store w))) as [|d ds] eqn:E;
      [reflexivity|].
    assert (Hd : In d (List.filter
                         (fun d => String.eqb (StudioDomain.studio_id d) sid)
                         (studio_domains (store w)))) by (rewrite E; now left).
    apply filter_In in Hd as [Hd Hm]. apply String.eqb_eq in Hm.
    destruct (Hfk d Hd) as (q & Hq & Hqid). exfalso.
    apply (Hfresh q Hq). congruence. }
  assert (Hdoms : domains_of
            (add_user
               (owner_row (uuid_str (draw_user rnd)) sid owner_name owner_email h)
               (add_domain (domain_row (uuid_str (draw_domain rnd)) sid domain)
                  (add_studio s (store w)))) sid
            = [domain_row (uuid_str (draw_domain rnd)) sid domain]).
  { unfold domains_of. cbn [add_user add_domain add_studio studio_domains].
    rewrite List.filter_app, Hnone.
    cbn [app List.filter domain_row StudioDomain.studio_id].
    now rewrite String.eqb_refl. }
  rewrite Hdoms. cbn [StudioDomain.domain domain_row].
  unfold session_get. rewrite Hdom.
  split; [reflexivity|]. cbn [load loaded_studio loaded_domains].
  rewrite Hsid, Hdoms.
  split; [reflexivity|]. split; [apply branded_is_pending|reflexivity].
Qed.

Lemma signup_complete_shows_domain_witness :
  exists l,
    signup_complete (uuid_str 1)
      (snd (signup_branding PostgreSQL sample_error_text sample_hashpw
              (mkRequest POST ∅ ∅ ∅) sample_draws (jane_ready empty_store)))
    = (CompletePage (Some l) (Some "jane.example.com"),
       snd (signup_branding PostgreSQL sample_error_text sample_hashpw
              (mkRequest POST ∅ ∅ ∅) sample_draws (jane_ready empty_store))).
Proof.
  destruct (signup_complete_shows_domain PostgreSQL sample_error_text
              sample_hashpw (mkRequest POST ∅ ∅ ∅) sample_draws
              (jane_ready empty_store) (Some (uuid_str 1)))
    as (sid & l & Hx & Hpage & _).
  - vm_compute. reflexivity.
  - intros d [].
  - injection Hx as <-. exists l. exact Hpage.
Defined.

(** ** Feature toggles and the features page *)

Lemma toggle_feature_pair (dialect : Dialect) (t k : string) (e : bool) (u : N)
    (st : Store) (f : StudioFeature.t) (db : DbSession) :
  (length (pair_rows t k st) <= 1)%nat ->
  toggle_feature dialect t k e u (get_db_session st) = Returns (f, db) ->
  pair_rows t k (db_committed db) = [f] /\
  StudioFeature.enabled f = Some e /\
  studios (db_committed db) = studios st.
Proof.
  intros Hone. rewrite toggle_feature_run.
  pose proof (find_filter_head (is_pair t k) (studio_features st)) as Hhead.
  fold (pair_rows t k st) in Hhead.
  destruct (List.find (is_pair t k) (studio_features st)) as [f0|] eqn:Hfind.
  - intros [= <- <-]. cbn [get_db_session db_committed set_features studios].
    split; [|split; reflexivity].
    unfold pair_rows. cbn [set_features studio_features]. unfold update_rows.
    rewrite filter_map_stable by (intros r; apply is_pair_set_enabled).
    fold (pair_rows t k st).
    destruct (pair_rows t k st) as [|a [|b l]]; cbn in Hhead, Hone;
      try discriminate; try lia.
    injection Hhead as <-. cbn. now rewrite String.eqb_refl.
  - cbv zeta. destruct (check_feature _ _ _); [discriminate|].
    intros [= <- <-]. cbn [get_db_session db_committed add_feature studios].
    split; [|split; reflexivity].
    unfold pair_rows. cbn [add_feature studio_features].
    rewrite List.filter_app. fold (pair_rows t k st).
    destruct (pair_rows t k st); [|discriminate].
    cbn [app List.filter]. now rewrite is_pair_refl.
Qed.

Lemma features_dict_fold (rows : list StudioFeature.t) (k : string)
    (m : gmap string (option bool)) :
  fold_left
    (fun m f => <[StudioFeature.feature_key f := StudioFeature.enabled f]> m)
    rows m !! k
  = match last (List.filter (fun f => String.eqb (StudioFeature.feature_key f) k)
                  rows) with
    | Some f => Some (StudioFeature.enabled f)
    | None => m !! k
    end.
Proof.
  revert m. induction rows as [|a rows IH]; intros m; [reflexivity|].
  cbn [fold_left List.filter]. rewrite IH.
  destruct (String.eqb (StudioFeature.feature_key a) k) eqn:E.
  - apply String.eqb_eq in E.
    destruct (List.filter _ rows) as [|b l]; cbn [last].
    + rewrite <- E. apply lookup_insert_eq.
    + destruct (last (b :: l)) eqn:L; [reflexivity|].
      apply last_None in L. discriminate.
  - apply String.eqb_neq in E.
    destruct (last _); [reflexivity|]. now apply lookup_insert_ne.
Qed.

Lemma filter_filter_and {A} (p q : A -> bool) (l : list A) :
  List.filter q (List.filter p l) = List.filter (fun x => p x && q x) l.
Proof.
  induction l as [|a l IH]; [reflexivity|]. cbn [List.filter].
  destruct (p a); cbn [List.filter andb]; [|exact IH].
  destruct (q a); now rewrite IH.
Qed.

Lemma toggle_studio_feature_run (dialect : Dialect) (studio_id k : string)
    (req : Request) (u : N) (site : Site) :
  flag_truthy (admin_logged_in site) = true ->
  form req !! "feature_key" = Some k ->
  let enabled := opt_eqb (form req !! "enabled") (Some "true") in
  toggle_studio_feature dialect studio_id req u site =
  match toggle_feature dialect studio_id k enabled u
          (get_db_session (store (world site))) with
  | Returns (_, db) =>
      (Plain (Redirect "admin_features" (Some studio_id)),
       mkSite
         (flash ("Feature " ++ k ++ " " ++
                 (if enabled then "enabled" else "disabled")) "success"
            (with_store (db_committed db) (world site)))
         (admin_logged_in site))
  | Raises e => (Plain (InternalServerError e), site)
  end.
Proof.
  intros Hin Hk enabled. unfold toggle_studio_feature, admin_required.
  rewrite Hin. cbn [negb]. unfold lift_world, with_db. rewrite Hk.
  unfold bind, ret. fold enabled.
  destruct (toggle_feature dialect studio_id k enabled u _) as [[f db]|e];
    [reflexivity|now destruct site].
Qed.

Lemma admin_features_run (page : Request) (site : Site) (studio_id : string)
    (s : Studio.t) :
  flag_truthy (admin_logged_in site) = true ->
  args page !! "studio_id" = Some studio_id ->
  studio_id <> "" ->
  List.find (has_studio_id studio_id) (studios (store (world site))) = Some s ->
  let st := store (world site) in
  fst (admin_features page site) =
  FeaturesPage (List.map (load st) (studios st)) (Some (load st s))
    (features_dict
       (List.filter (fun f => String.eqb (StudioFeature.studio_id f) studio_id)
          (studio_features st))).
Proof.
  intros Hin Hpage Hne Hfind st. unfold admin_features, admin_required.
  rewrite Hin. cbn [negb]. unfold lift_world, with_db, admin_features_body,
    bind, get_all_studios, get_studio_by_id, get_studio_features, ret.
  rewrite Hpage. destruct studio_id as [|c rest]; [contradiction|].
  cbn [Py.truthy get_db_session db_txn].
  unfold has_studio_id in Hfind. rewrite Hfind. reflexivity.
Qed.

(** X12: For a logged-in admin, an existing studio and a pair with at most one
    row: once [toggle_studio_feature] has answered with its redirect, the
    features page of that studio shows the key with the value that was
    posted. *)
Theorem toggled_feature_is_shown (dialect : Dialect) (studio_id k : string)
    (req page : Request) (u : N) (site : Site) (s : Studio.t) :
  flag_truthy (admin_logged_in site) = true ->
  In s (studios (store (world site))) ->
  Studio.id s = studio_id ->
  studio_id <> "" ->
  form req !! "feature_key" = Some k ->
  (length (pair_rows studio_id k (store (world site))) <= 1)%nat ->
  args page !! "studio_id" = Some studio_id ->
  let out := toggle_studio_feature dialect studio_id req u site in
  fst out = Plain (Redirect "admin_features" (Some studio_id)) ->
  exists all selected shown,
    fst (admin_features page (snd out)) = FeaturesPage all (Some selected) shown /\
    Studio.id (loaded_studio selected) = studio_id /\
    shown !! k = Some (Some (opt_eqb (form req !! "enabled") (Some "true"))).
Proof.
  intros Hin Hs Hid Hne Hk Hone Hpage out Hdone. subst out.
  rewrite (toggle_studio_feature_run dialect studio_id k req u site Hin Hk) in *.
  cbv zeta in *.
  destruct (toggle_feature dialect studio_id k _ u _) as [[f db]|e] eqn:E;
    [|discriminate].
  destruct (toggle_feature_pair _ _ _ _ _ _ _ _ Hone E) as (Hpair & Hen & Hst).
  destruct (find_some_id Studio.id studio_id _ (ex_intro _ s (conj Hs Hid)))
    as (s0 & Hfind & _ & Hid0).
  fold (has_studio_id studio_id) in Hfind.
  change (fun r => has_studio_id studio_id r) with (has_studio_id studio_id)
    in Hfind.
  cbn [snd].
  rewrite (admin_features_run page _ studio_id s0); try assumption.
  2:{ cbn [world flash with_store store]. now rewrite Hst. }
  cbn [world flash with_store store].
  do 3 eexists. split; [reflexivity|]. split; [exact Hid0|].
  unfold features_dict. rewrite features_dict_fold, filter_filter_and.
  change (List.filter _ (studio_features (db_committed db)))
    with (pair_rows studio_id k (db_committed db)).
  rewrite Hpair. cbn [last]. now rewrite Hen.
Qed.

Lemma toggled_feature_is_shown_witness :
  exists all selected shown,
    fst (admin_features (features_query "00000000-0000-0000-0000-000000000001")
           (snd (toggle_studio_feature PostgreSQL
                   "00000000-0000-0000-0000-000000000001"
                   (feature_form "analytics" "true") 5
                   (on_store jane_tenant admin))))
      = FeaturesPage all (Some selected) shown /\
    shown !! "analytics" = Some (Some true).
Proof.
  destruct (toggled_feature_is_shown PostgreSQL
              "00000000-0000-0000-0000-000000000001" "analytics"
              (feature_form "analytics" "true")
              (features_query "00000000-0000-0000-0000-000000000001") 5
              (on_store jane_tenant admin) jane_studio)
    as (all & selected & shown & Hpage & _ & Hshown).
  - reflexivity.
  - left. reflexivity.
  - reflexivity.
  - discriminate.
  - reflexivity.
  - cbn. lia.
  - reflexivity.
  - vm_compute. reflexivity.
  - exists all, selected, shown. split; [exact Hpage|exact Hshown].
Defined.

Lemma is_pair_other (t k t' k' : string) (f : StudioFeature.t) :
  t' <> t \/ k' <> k -> is_pair t k f = true -> is_pair t' k' f = false.
Proof.
  unfold is_pair. intros Hne H. apply andb_true_iff in H as [Ht Hk].
  apply String.eqb_eq in Ht, Hk. rewrite Ht, Hk.
  destruct Hne as [Hne|Hne].
  - apply not_eq_sym, String.eqb_neq in Hne. now rewrite Hne.
  - apply not_eq_sym, String.eqb_neq in Hne. rewrite Hne. apply andb_false_r.
Qed.

(** X13: In a store with unique feature row ids, a call of [toggle_feature]
    that returns touches the rows of its own (studio, key) pair only:
    the rows of every other pair, and the studios, domains and users, are
    what they were. *)
Theorem toggle_feature_isolated (dialect : Dialect) (t k : string) (e : bool)
    (u : N) (st : Store) (f : StudioFeature.t) (db : DbSession) :
  List.NoDup (List.map StudioFeature.id (studio_features st)) ->
  toggle_feature dialect t k e u (get_db_session st) = Returns (f, db) ->
  studios (db_committed db) = studios st /\
  studio_domains (db_committed db) = studio_domains st /\
  users (db_committed db) = users st /\
  forall t' k', t' <> t \/ k' <> k ->
    pair_rows t' k' (db_committed db) = pair_rows t' k' st.
Proof.
  intros Hnd. rewrite toggle_feature_run.
  destruct (List.find (is_pair t k) (studio_features st)) as [f0|] eqn:Hfind.
  - intros [= <- <-]. cbn [get_db_session db_committed set_features studios
                            studio_domains users studio_features].
    repeat (split; [reflexivity|]). intros t' k' Hne.
    apply find_some in Hfind as [Hin0 Hp0].
    unfold pair_rows. cbn [set_features studio_features]. unfold update_rows.
    rewrite filter_map_stable by (intros r; apply is_pair_set_enabled).
    fold (update_rows StudioFeature.id (StudioFeature.id f0)
            (StudioFeature.set_enabled (Some e))
            (List.filter (is_pair t' k') (studio_features st))).
    apply update_rows_fresh. intros r Hr Hid.
    apply filter_In in Hr as [Hr Hp].
    rewrite (unique_key StudioFeature.id _ r f0 Hnd Hr Hin0 Hid) in Hp.
    rewrite (is_pair_other t k t' k' f0 Hne Hp0) in Hp. discriminate.
  - cbv zeta. destruct (check_feature _ _ _); [discriminate|].
    intros [= <- <-]. cbn [get_db_session db_committed add_feature studios
                            studio_domains users studio_features].
    repeat (split; [reflexivity|]). intros t' k' Hne.
    unfold pair_rows. cbn [add_feature studio_features].
    rewrite List.filter_app. cbn [List.filter].
    rewrite (is_pair_other t k t' k' _ Hne (is_pair_refl _ t k e)).
    apply app_nil_r.
Qed.

Lemma toggle_feature_isolated_witness :
  exists f db,
    toggle_feature PostgreSQL "00000000-0000-0000-0000-000000000001" "ai_tools"
      false 22 (get_db_session jane_with_feature) = Returns (f, db) /\
    pair_rows "00000000-0000-0000-0000-000000000001" "analytics" (db_committed db)
    = [jane_analytics].
Proof.
  assert (Hrun : toggle_feature PostgreSQL
                   "00000000-0000-0000-0000-000000000001" "ai_tools" false 22
                   (get_db_session jane_with_feature)
                 = Returns
                     (feature_row (uuid_str 22)
                        "00000000-0000-0000-0000-000000000001" "ai_tools" false,
                      get_db_session
                        (add_feature
                           (feature_row (uuid_str 22)
                              "00000000-0000-0000-0000-000000000001" "ai_tools"
                              false)
                           jane_with_feature)))
    by (vm_compute; reflexivity).
  do 2 eexists. split; [exact Hrun|].
  assert (Hnd : List.NoDup
                  (List.map StudioFeature.id (studio_features jane_with_feature)))
    by (constructor; [intros []|constructor]).
  destruct (toggle_feature_isolated _ _ _ _ _ _ _ _ Hnd Hrun) as (_ & _ & _ & H).
  rewrite H; [reflexivity|]. right. discriminate.
Defined.

(** ** Signup and the unique columns *)

(** When the [try] body returns, the values it read from the session were
    there and the store accepted the three rows. *)
Lemma persist_signup_inversion (dialect : Dialect)
    (bcrypt_hashpw : string -> string -> Outcome string)
    (sess : gmap string (option string)) (brand_color typography : string)
    (logo_url photo_url : option string) (u : N) (rnd : Draws) (st : Store)
    (db : DbSession) :
  persist_signup dialect bcrypt_hashpw sess brand_color typography logo_url
    photo_url (uuid_str u) rnd (get_db_session st) = Returns (tt, db) ->
  exists name subdomain domain owner_email owner_name plan h,
    sess !! "signup_subdomain" = Some subdomain /\
    sess !! "signup_domain" = Some domain /\
    sess !! "signup_email" = Some owner_email /\
    studio_admissible dialect st
      (studio_row (uuid_str u) name owner_email subdomain plan) /\
    domain_admissible dialect st
      (domain_row (uuid_str (draw_domain rnd)) (uuid_str u) domain) /\
    user_admissible dialect st
      (owner_row (uuid_str (draw_user rnd)) (uuid_str u) owner_name owner_email h).
Proof.
  intros H.
  destruct (sess !! "signup_studio_name") as [name|] eqn:H1;
    [|unfold persist_signup, bind, lift, session_item in H;
      rewrite H1 in H; discriminate].
  destruct (sess !! "signup_subdomain") as [subdomain|] eqn:H2;
    [|unfold persist_signup, bind, lift, session_item in H;
      rewrite H1, H2 in H; discriminate].
  destruct (sess !! "signup_domain") as [domain|] eqn:H3;
    [|unfold persist_signup, bind, lift, session_item in H;
      rewrite H1, H2, H3 in H; discriminate].
  destruct (sess !! "signup_email") as [owner_email|] eqn:H4;
    [|unfold persist_signup, bind, lift, session_item in H;
      rewrite H1, H2, H3, H4 in H; discriminate].
  destruct (sess !! "signup_owner_name") as [owner_name|] eqn:H5;
    [|unfold persist_signup, bind, lift, session_item in H;
      rewrite H1, H2, H3, H4, H5 in H; discriminate].
  destruct (sess !! "signup_password") as [password|] eqn:H6;
    [|unfold persist_signup, bind, lift, session_item in H;
      rewrite H1, H2, H3, H4, H5, H6 in H; discriminate].
  destruct (sess !! "signup_plan") as [plan|] eqn:H7.
  2:{ unfold persist_signup, bind, lift, session_item in H.
      rewrite H1, H2, H3, H4, H5, H6, H7 in H.
      destruct (hash_password bcrypt_hashpw password (draw_salt rnd));
        discriminate. }
  rewrite (persist_signup_run dialect bcrypt_hashpw sess name subdomain domain
             owner_email owner_name password plan brand_color typography
             logo_url photo_url u rnd st H1 H2 H3 H4 H5 H6 H7) in H.
  destruct (hash_password bcrypt_hashpw password (draw_salt rnd)) as [h|];
    [|discriminate].
  cbv zeta in H.
  destruct (check_studio _ _ _) eqn:Hs; [discriminate|].
  destruct (check_domain_row _ _ _) eqn:Hd; [discriminate|].
  destruct (check_user _ _ _) eqn:Hu; [discriminate|].
  apply check_studio_none in Hs.
  apply (check_domain_row_new dialect st
           (studio_row (uuid_str u) name owner_email subdomain plan)
           (domain_row (uuid_str (draw_domain rnd)) (uuid_str u) domain)
           eq_refl) in Hd.
  apply (check_user_new dialect st
           (studio_row (uuid_str u) name owner_email subdomain plan)
           (domain_row (uuid_str (draw_domain rnd)) (uuid_str u) domain)
           (owner_row (uuid_str (draw_user rnd)) (uuid_str u) owner_name
              owner_email h)
           eq_refl) in Hu.
  exists name, subdomain, domain, owner_email, owner_name, plan, h.
  repeat (split; [reflexivity|]). split; [exact Hs|]. split; [exact Hd|exact Hu].
Qed.

(** X14: A signup that completes took nothing that was taken: no studio had
    its e-mail address or its subdomain, no domain row had its domain, and
    no user had its e-mail address as address or as username.  The code
    makes no such check itself; the unique columns of the schema do. *)
Theorem completed_signup_took_free_values (dialect : Dialect)
    (error_text : Violation -> string)
    (bcrypt_hashpw : string -> string -> Outcome string)
    (req : Request) (rnd : Draws) (w : World) (x : option string) :
  fst (signup_branding dialect error_text bcrypt_hashpw req rnd w)
    = Redirect "signup_complete" x ->
  exists subdomain email domain,
    session w !! "signup_subdomain" = Some subdomain /\
    session w !! "signup_email" = Some (Some email) /\
    session w !! "signup_domain" = Some (Some domain) /\
    (forall r, In r (studios (store w)) ->
       Studio.email r <> Some email /\
       (subdomain <> None -> Studio.subdomain r <> subdomain)) /\
    (forall r, In r (studio_domains (store w)) ->
       StudioDomain.domain r <> Some domain) /\
    (forall r, In r (users (store w)) ->
       User.email r <> Some email /\ User.username r <> Some email).
Proof.
  unfold signup_branding.
  destruct (session w !! "signup_plan"); [|discriminate].
  destruct (method req); [discriminate|]. cbv zeta.
  rewrite branding_attempt_uploads.
  destruct (branding_attempt dialect bcrypt_hashpw req rnd w) as [[[] db]|e] eqn:Ha;
    [|discriminate].
  intros _. unfold branding_attempt in Ha. cbv zeta in Ha.
  apply persist_signup_inversion in Ha
    as (name & subdomain & domain & owner_email & owner_name & plan & h
        & Hsub & Hdom & Hem & Hs & Hd & Hu).
  destruct Hs as (_ & _ & Hemail & _ & Hse & Hss).
  destruct Hd as (_ & Hdomain & _ & Hdd).
  destruct Hu as (_ & _ & _ & _ & _ & Hue & Huu).
  cbn [studio_row Studio.with_defaults Studio.email Studio.subdomain] in *.
  cbn [domain_row StudioDomain.domain] in *.
  cbn [owner_row User.with_defaults User.email User.username] in *.
  destruct owner_email as [email|]; [|contradiction].
  destruct domain as [dom|]; [|contradiction].
  exists subdomain, email, dom.
  repeat (split; [assumption|]). split; [|split].
  - intros r Hr. split; [now apply Hse|]. intros Hn. now apply Hss.
  - intros r Hr. now apply Hdd.
  - intros r Hr. split; [now apply Hue|now apply Huu].
Qed.

Lemma completed_signup_took_free_values_witness :
  fst (signup_branding PostgreSQL sample_error_text sample_hashpw
         (mkRequest POST ∅ ∅ ∅) sample_draws (jane_ready bob_tenant))
    = Redirect "signup_complete" (Some (uuid_str 1)) /\
  (forall r, In r (studios bob_tenant) ->
     Studio.email r <> Some "jane@example.com" /\
     Studio.subdomain r <> Some "janes-photo-co") /\
  (forall r, In r (studio_domains bob_tenant) ->
     StudioDomain.domain r <> Some "jane.example.com") /\
  (forall r, In r (users bob_tenant) ->
     User.email r <> Some "jane@example.com" /\
     User.username r <> Some "jane@example.com").
Proof.
  assert (Hdone :
    fst (signup_branding PostgreSQL sample_error_text sample_hashpw
           (mkRequest POST ∅ ∅ ∅) sample_draws (jane_ready bob_tenant))
      = Redirect "signup_complete" (Some (uuid_str 1)))
    by (vm_compute; reflexivity).
  split; [exact Hdone|].
  destruct (completed_signup_took_free_values PostgreSQL sample_error_text
              sample_hashpw (mkRequest POST ∅ ∅ ∅) sample_draws
              (jane_ready bob_tenant) (Some (uuid_str 1)) Hdone)
    as (subdomain & email & domain & Hsub & Hem & Hdom & Hs & Hd & Hu).
  assert (Esub : session (jane_ready bob_tenant) !! "signup_subdomain"
                 = Some (Some "janes-photo-co")) by (vm_compute; reflexivity).
  assert (Eem : session (jane_ready bob_tenant) !! "signup_email"
                = Some (Some "jane@example.com")) by (vm_compute; reflexivity).
  assert (Edom : session (jane_ready bob_tenant) !! "signup_domain"
                 = Some (Some "jane.example.com")) by (vm_compute; reflexivity).
  rewrite Esub in Hsub. rewrite Eem in Hem. rewrite Edom in Hdom.
  injection Hsub as <-. injection Hem as <-. injection Hdom as <-.
  split; [|split; [exact Hd|exact Hu]].
  intros r Hr. destruct (Hs r Hr) as [H1 H2].
  split; [exact H1|]. apply H2. discriminate.
Defined.

(** X15: Once a signup has completed, [/api/check-domain] reports the domain
    that was entered as not available. *)
Theorem entered_domain_is_taken (dialect : Dialect)
    (error_text : Violation -> string)
    (bcrypt_hashpw : string -> string -> Outcome string)
    (req query : Request) (rnd : Draws) (w : World) (x : option string)
    (d : string) :
  let out := signup_branding dialect error_text bcrypt_hashpw req rnd w in
  fst out = Redirect "signup_complete" x ->
  session w !! "signup_domain" = Some (Some d) ->
  d <> "" ->
  args query !! "domain" = Some d ->
  check_domain query (snd out)
  = (Jsonify [ ("available", JBool false); ("domain", JStr d) ], snd out).
Proof.
  intros out Hdone Hdom Hd Hq. subst out.
  destruct (signup_branding_store dialect error_text bcrypt_hashpw req rnd w)
    as [(Hno & _)|H]; [now destruct (Hno x)|].
  destruct H as (name & subdomain & domain & owner_email & owner_name & plan
                 & p & h & Hdom' & _ & _ & _ & _ & _ & Hst).
  rewrite Hdom in Hdom'. injection Hdom' as <-.
  unfold check_domain. rewrite Hq. destruct d as [|c d]; [contradiction|].
  cbn [Py.truthy first_domain get_db_session db_txn]. rewrite Hst.
  cbn [add_user add_domain studio_domains].
  destruct (is_none _) eqn:E; [|reflexivity]. exfalso.
  rewrite find_is_none in E.
  specialize (E (domain_row (uuid_str (draw_domain rnd))
                   (uuid_str (draw_studio rnd)) (Some (String c d)))).
  rewrite in_app_iff in E. specialize (E (or_intror (or_introl eq_refl))).
  cbn [domain_row StudioDomain.domain is_text] in E.
  rewrite String.eqb_refl in E. discriminate.
Qed.

Lemma entered_domain_is_taken_witness :
  fst (check_domain (domain_query "jane.example.com")
         (snd (signup_branding PostgreSQL sample_error_text sample_hashpw
                 (mkRequest POST ∅ ∅ ∅) sample_draws (jane_ready empty_store))))
  = Jsonify [ ("available", JBool false); ("domain", JStr "jane.example.com") ].
Proof.
  rewrite (entered_domain_is_taken PostgreSQL sample_error_text sample_hashpw
             (mkRequest POST ∅ ∅ ∅) (domain_query "jane.example.com")
             sample_draws (jane_ready empty_store) (Some (uuid_str 1))
             "jane.example.com").
  - reflexivity.
  - vm_compute. reflexivity.
  - reflexivity.
  - discriminate.
  - reflexivity.
Defined.
